(** * A shallow embedding of the todo data-access layer

    Sources embedded here:
    - [app/lib/errors.ts]   the error taxonomy,
    - [database/schema.ts]  the [todos] table (columns and their modes),
    - [app/lib/todos.ts]    the record lifecycle operations, the query
                            builder and the statistics,
    - [app/routes/todos.tsx] the action of the route.

    The storage engine is modelled as an explicit table of rows threaded
    through a state-and-exception monad.  Every statement sent to the engine
    is appended to a trace, so that "no storage access" is the statement
    that the whole environment, trace included, is unchanged. *)

From Stdlib Require Import ZArith QArith Qround List String Ascii Bool Lia.
From Stdlib Require Import Permutation Sorted.
Import ListNotations.

Local Open Scope string_scope.
Local Open Scope list_scope.
Local Open Scope Z_scope.

(* ===================================================================== *)
(** ** JavaScript values used by the layer *)
(* ===================================================================== *)

Module JS.

(** A JS [number]: a finite value (kept as a rational), [NaN], or one of
    the two infinities. *)
Inductive number : Type :=
| Num (q : Q)
| NaN
| Infinity (negative : bool).

(** [Number.isInteger(n)] *)
Definition isInteger (n : number) : bool :=
  match n with
  | Num q => Qeq_bool (inject_Z (Qfloor q)) q
  | NaN => false
  | Infinity _ => false
  end.

(** [n <= 0] *)
Definition le0 (n : number) : bool :=
  match n with
  | Num q => Qle_bool q 0
  | NaN => false
  | Infinity negative => negative
  end.

(** [n > 0] *)
Definition gt0 (n : nat) : bool := Nat.ltb 0 n.

(** Code units that [String.prototype.trim] strips (WhiteSpace and
    LineTerminator), among the code units below 256: TAB, LF, VT, FF, CR,
    SPACE and NO-BREAK SPACE. *)
Definition isWhiteSpace (c : ascii) : bool :=
  let n := nat_of_ascii c in
  (Nat.leb 9 n && Nat.leb n 13) || Nat.eqb n 32 || Nat.eqb n 160.

Definition isEmpty (s : string) : bool :=
  match s with
  | EmptyString => true
  | String _ _ => false
  end.

Fixpoint trimStart (s : string) : string :=
  match s with
  | EmptyString => EmptyString
  | String c rest => if isWhiteSpace c then trimStart rest else s
  end.

Fixpoint trimEnd (s : string) : string :=
  match s with
  | EmptyString => EmptyString
  | String c rest =>
      let rest' := trimEnd rest in
      if isWhiteSpace c && isEmpty rest' then EmptyString
      else String c rest'
  end.

(** [s.trim()] *)
Definition trim (s : string) : string := trimEnd (trimStart s).

(** [s.toLowerCase()] on code units below 256: A-Z, and the Latin-1
    capitals U+00C0..U+00DE except the multiplication sign U+00D7. *)
Definition lowerChar (c : ascii) : ascii :=
  let n := nat_of_ascii c in
  if (Nat.leb 65 n && Nat.leb n 90)
     || (Nat.leb 192 n && Nat.leb n 222 && negb (Nat.eqb n 215))
  then ascii_of_nat (n + 32) else c.

Fixpoint toLowerCase (s : string) : string :=
  match s with
  | EmptyString => EmptyString
  | String c rest => String (lowerChar c) (toLowerCase rest)
  end.

(** Truthiness of a string: only the empty string is falsy. *)
Definition truthy (s : string) : bool := negb (isEmpty s).

(** Truthiness of an optional string ([undefined] is falsy). *)
Definition truthyOpt (o : option string) : bool :=
  match o with
  | Some s => truthy s
  | None => false
  end.

(** [[...].includes(x)] on strings *)
Definition includes (l : list string) (x : string) : bool :=
  existsb (String.eqb x) l.

(** [ids.slice(i, j)] for [0 <= i <= j] *)
Definition slice {A : Type} (l : list A) (i j : nat) : list A :=
  firstn (j - i) (skipn i l).

(** A string of [n] copies of [c], as ["a".repeat(n)]. *)
Fixpoint repeatChar (c : ascii) (n : nat) : string :=
  match n with
  | O => EmptyString
  | S k => String c (repeatChar c k)
  end.

End JS.

(* ===================================================================== *)
(** ** app/lib/errors.ts *)
(* ===================================================================== *)

Module Errors.

(** An error message: a literal, or a template literal that ends with an
    interpolated id ([`Invalid todo ID: ${id}`]). *)
Inductive Message : Type :=
| Msg (text : string)
| MsgId (text : string) (id : JS.number).

(** The subclasses of [TodoError]. *)
Inductive TodoError : Type :=
| ValidationError (message : Message) (field : option string)
| NotFoundError (resource : string) (id : option JS.number)
| DatabaseError (message : Message).

Definition code (e : TodoError) : string :=
  match e with
  | ValidationError _ _ => "VALIDATION_ERROR"
  | NotFoundError _ _ => "NOT_FOUND"
  | DatabaseError _ => "DATABASE_ERROR"
  end.

Definition statusCode (e : TodoError) : Z :=
  match e with
  | ValidationError _ _ => 400
  | NotFoundError _ _ => 404
  | DatabaseError _ => 500
  end.

(** Anything that can be thrown: one of the layer's own errors, an
    [Error] raised by the storage driver, or the [TypeError] of the
    language for a call of a method that the value does not have (the
    layer's functions declare strings, yet a caller's unchecked cast can
    hand them other values). *)
Inductive Thrown : Type :=
| Todo (e : TodoError)
| DriverError
| TypeError.

(** [error instanceof ValidationError] *)
Definition isValidationError (t : Thrown) : bool :=
  match t with
  | Todo (ValidationError _ _) => true
  | _ => false
  end.

End Errors.

(* ===================================================================== *)
(** ** database/schema.ts: the [todos] table *)
(* ===================================================================== *)

(** A stored row, in driver values.  [completed] is an integer column in
    boolean mode; [createdAt] and [updatedAt] are integer columns in
    timestamp mode and hold whole seconds; [description] is nullable;
    [priority] is a text column (its enum is a compile-time annotation
    only, the engine stores any text). *)
Module Row.
Record t : Type := mk {
  id : Z;
  title : string;
  description : option string;
  completed : bool;
  priority : string;
  createdAt : Z;
  updatedAt : Z
}.
End Row.

Module Schema.

(** A [Date], as milliseconds since the epoch. *)
Definition Date : Type := Z.

(** Timestamp mode, to the driver: [Math.floor(date.getTime() / 1000)]. *)
Definition timestampToDriver (d : Date) : Z := d / 1000.

(** Timestamp mode, from the driver: [new Date(value * 1000)]. *)
Definition timestampFromDriver (v : Z) : Date := v * 1000.

(** The values of the column enum of [priority]. *)
Definition priorityEnum : list string := ["low"; "medium"; "high"].

End Schema.

(** [TodoSort] of todos.ts (the query builder orders by one of these
    columns). *)
Module TodoSort.
Inductive Field : Type := createdAt | updatedAt | title | priority.
Inductive Order : Type := asc | desc.
Record t : Type := mk { field : Field; order : Order }.
End TodoSort.

(** The object handed to [insert(todos).values(...)]. *)
Module InsertValues.
Record t : Type := mk {
  title : string;
  description : option string;
  priority : string;
  completed : bool;
  createdAt : Schema.Date;
  updatedAt : Schema.Date
}.
End InsertValues.

(** The object handed to [update(todos).set(...)]:
    [Partial<UpdateTodoData> & { updatedAt: Date }].  A key that is absent
    or holds [undefined] is [None]; the query builder leaves such a column
    out of the SET clause. *)
Module UpdateSet.
Record t : Type := mk {
  title : option string;
  description : option string;
  completed : option bool;
  priority : option string;
  updatedAt : Schema.Date
}.
End UpdateSet.

(* ===================================================================== *)
(** ** The storage engine behind the query builder *)
(* ===================================================================== *)

Module Engine.

#[local] Set Warnings "-register-all".

(** Predicates built with [eq], [like], [or] and [and]. *)
Inductive Cond : Type :=
| EqId (n : JS.number)
| EqCompleted (b : bool)
| EqPriority (p : string)
| LikeTitle (pattern : string)
| LikeDescription (pattern : string)
| Or (a b : Cond)
| And (cs : list Cond).

(** A [select().from(todos)] under construction. *)
Record Query : Type := mkQuery {
  qwhere : option Cond;
  qorderBy : option (TodoSort.Field * TodoSort.Order);
  qlimit : option Z;
  qoffset : option Z
}.

Definition selectFromTodos : Query := mkQuery None None None None.

Definition where_ (c : Cond) (q : Query) : Query :=
  mkQuery (Some c) (qorderBy q) (qlimit q) (qoffset q).

Definition orderBy (f : TodoSort.Field) (o : TodoSort.Order) (q : Query)
  : Query :=
  mkQuery (qwhere q) (Some (f, o)) (qlimit q) (qoffset q).

Definition limit (n : Z) (q : Query) : Query :=
  mkQuery (qwhere q) (qorderBy q) (Some n) (qoffset q).

Definition offset (n : Z) (q : Query) : Query :=
  mkQuery (qwhere q) (qorderBy q) (qlimit q) (Some n).

(** The statements the layer sends to the engine. *)
Inductive Stmt : Type :=
| Select (q : Query)
| SelectCount (cond : option Cond)
| Insert (values : InsertValues.t)
| Update (values : UpdateSet.t) (cond : Cond) (returning : bool)
| Delete (cond : Cond).

(** *** Evaluation of predicates *)

(** ASCII case folding of LIKE. *)
Definition foldCase (c : ascii) : ascii :=
  let n := nat_of_ascii c in
  if Nat.leb 65 n && Nat.leb n 90 then ascii_of_nat (n + 32) else c.

(** The engine's comparison of a text with a LIKE pattern: [%] matches
    any run of characters, [_] any single character, everything else
    matches itself up to ASCII case. *)
Fixpoint patternCompare (pattern s : string) {struct pattern} : bool :=
  match pattern with
  | EmptyString => JS.isEmpty s
  | String p pattern' =>
      if Ascii.eqb p "%"%char then
        (fix star (u : string) : bool :=
           patternCompare pattern' u
           || match u with
              | EmptyString => false
              | String _ u' => star u'
              end) s
      else
        match s with
        | EmptyString => false
        | String c s' =>
            (Ascii.eqb p "_"%char || Ascii.eqb (foldCase p) (foldCase c))
            && patternCompare pattern' s'
        end
  end.

(** A text as the engine's LIKE reads it: up to its first NUL.  The
    function behind LIKE takes both operands as NUL-terminated strings. *)
Fixpoint untilNul (s : string) : string :=
  match s with
  | EmptyString => EmptyString
  | String c rest =>
      if Ascii.eqb c "000"%char then EmptyString
      else String c (untilNul rest)
  end.

(** [s LIKE pattern].  Neither operand is read past a NUL: the pattern
    [%] NUL [%] is the pattern [%].  (An engine that refuses a pattern, as
    SQLite does with one longer than its limit, raises on the statement:
    that is a fault of [Run.Env].) *)
Definition like (pattern s : string) : bool :=
  patternCompare (untilNul pattern) (untilNul s).

(** [id = n] for an integer column against a JS number. *)
Definition eqId (n : JS.number) (id : Z) : bool :=
  match n with
  | JS.Num q => Qeq_bool q (inject_Z id)
  | _ => false
  end.

(** Truth of a WHERE predicate on a row.  A comparison with NULL is
    unknown in SQL; the predicates here contain no negation, so unknown
    and false select the same rows. *)
Fixpoint holds (c : Cond) (r : Row.t) {struct c} : bool :=
  match c with
  | EqId n => eqId n (Row.id r)
  | EqCompleted b => Bool.eqb (Row.completed r) b
  | EqPriority p => String.eqb (Row.priority r) p
  | LikeTitle pat => like pat (Row.title r)
  | LikeDescription pat =>
      match Row.description r with
      | Some d => like pat d
      | None => false
      end
  | Or a b => holds a r || holds b r
  | And cs =>
      (fix all (l : list Cond) : bool :=
         match l with
         | [] => true
         | c' :: l' => holds c' r && all l'
         end) cs
  end.

Definition holdsOpt (w : option Cond) (r : Row.t) : bool :=
  match w with
  | Some c => holds c r
  | None => true
  end.

(** *** ORDER BY, LIMIT and OFFSET *)

(** [r1] sorts no later than [r2] on column [f], ascending. *)
Definition keyLe (f : TodoSort.Field) (r1 r2 : Row.t) : bool :=
  match f with
  | TodoSort.createdAt => Z.leb (Row.createdAt r1) (Row.createdAt r2)
  | TodoSort.updatedAt => Z.leb (Row.updatedAt r1) (Row.updatedAt r2)
  | TodoSort.title => String.leb (Row.title r1) (Row.title r2)
  | TodoSort.priority => String.leb (Row.priority r1) (Row.priority r2)
  end.

Definition rowLe (f : TodoSort.Field) (o : TodoSort.Order)
           (r1 r2 : Row.t) : bool :=
  match o with
  | TodoSort.asc => keyLe f r1 r2
  | TodoSort.desc => keyLe f r2 r1
  end.

Fixpoint insertBy (le : Row.t -> Row.t -> bool) (x : Row.t)
         (l : list Row.t) : list Row.t :=
  match l with
  | [] => [x]
  | y :: l' => if le x y then x :: l else y :: insertBy le x l'
  end.

(** Rows with equal keys keep their table order. *)
Definition sortBy (le : Row.t -> Row.t -> bool) (l : list Row.t)
  : list Row.t :=
  fold_right (insertBy le) [] l.

Definition applyOrder (o : option (TodoSort.Field * TodoSort.Order))
           (l : list Row.t) : list Row.t :=
  match o with
  | Some (f, d) => sortBy (rowLe f d) l
  | None => l
  end.

(** OFFSET: a negative offset skips nothing. *)
Definition applyOffset (o : option Z) (l : list Row.t) : list Row.t :=
  match o with
  | Some n => skipn (Z.to_nat n) l
  | None => l
  end.

(** LIMIT: a negative limit is no limit. *)
Definition applyLimit (o : option Z) (l : list Row.t) : list Row.t :=
  match o with
  | Some n => if Z.ltb n 0 then l else firstn (Z.to_nat n) l
  | None => l
  end.

Definition runSelect (q : Query) (table : list Row.t) : list Row.t :=
  applyLimit (qlimit q)
    (applyOffset (qoffset q)
       (applyOrder (qorderBy q)
          (filter (holdsOpt (qwhere q)) table))).

Definition countRows (w : option Cond) (table : list Row.t) : nat :=
  List.length (filter (holdsOpt w) table).

(** *** Writes *)

(** The row after SET: only the keys present in the object are assigned;
    dates go through the timestamp column. *)
Definition applySet (u : UpdateSet.t) (r : Row.t) : Row.t :=
  Row.mk
    (Row.id r)
    (match UpdateSet.title u with Some v => v | None => Row.title r end)
    (match UpdateSet.description u with
     | Some v => Some v
     | None => Row.description r
     end)
    (match UpdateSet.completed u with
     | Some v => v
     | None => Row.completed r
     end)
    (match UpdateSet.priority u with
     | Some v => v
     | None => Row.priority r
     end)
    (Row.createdAt r)
    (Schema.timestampToDriver (UpdateSet.updatedAt u)).

Definition updateRows (u : UpdateSet.t) (w : Cond) (table : list Row.t)
  : list Row.t :=
  map (fun r => if holds w r then applySet u r else r) table.

Definition deleteRows (w : Cond) (table : list Row.t) : list Row.t :=
  filter (fun r => negb (holds w r)) table.

Definition maxId (table : list Row.t) : Z :=
  fold_right (fun r m => Z.max (Row.id r) m) 0 table.

(** AUTOINCREMENT: one more than the largest id ever used. *)
Definition nextId (sequence : Z) (table : list Row.t) : Z :=
  Z.max sequence (maxId table) + 1.

Definition newRow (id : Z) (v : InsertValues.t) : Row.t :=
  Row.mk id
    (InsertValues.title v)
    (InsertValues.description v)
    (InsertValues.completed v)
    (InsertValues.priority v)
    (Schema.timestampToDriver (InsertValues.createdAt v))
    (Schema.timestampToDriver (InsertValues.updatedAt v)).

(** What a write without RETURNING reports.  The layer reads both
    [result.changes] and [result.meta.changes]; this driver fills the
    second. *)
Record RunResult : Type := mkRun {
  changes : option nat;
  meta_changes : option nat
}.

Definition d1Result (n : nat) : RunResult := mkRun None (Some n).

End Engine.

(* ===================================================================== *)
(** ** The types of app/lib/todos.ts *)
(* ===================================================================== *)

Module Todo.
Record t : Type := mk {
  id : Z;
  title : string;
  description : option string;
  completed : bool;
  priority : string;
  createdAt : Schema.Date;
  updatedAt : Schema.Date
}.

(** The object the query builder makes of a selected or returned row. *)
Definition ofRow (r : Row.t) : t :=
  mk (Row.id r) (Row.title r) (Row.description r) (Row.completed r)
     (Row.priority r)
     (Schema.timestampFromDriver (Row.createdAt r))
     (Schema.timestampFromDriver (Row.updatedAt r)).
End Todo.

Module TodoFilter.
Record t : Type := mk {
  completed : option bool;
  priority : option string;
  search : option string
}.
End TodoFilter.

Module TodoPagination.
Record t : Type := mk { limit : Z; offset : Z }.
End TodoPagination.

(** [title] is declared a string, yet the code guards against a missing
    one ([!data.title]); [None] is that missing title. *)
Module CreateTodoData.
Record t : Type := mk {
  title : option string;
  description : option string;
  priority : option string
}.
End CreateTodoData.

Module UpdateTodoData.
Record t : Type := mk {
  title : option string;
  description : option string;
  completed : option bool;
  priority : option string
}.
End UpdateTodoData.

Module TodoStats.
Record ByPriority : Type := mkBy { low : nat; medium : nat; high : nat }.
Record t : Type := mk {
  total : nat;
  completed : nat;
  pending : nat;
  byPriority : ByPriority
}.
End TodoStats.

(* ===================================================================== *)
(** ** Running against the storage: state and exceptions *)
(* ===================================================================== *)

Module Run.

(** The world an operation runs in: the table, the AUTOINCREMENT
    sequence, the statements sent so far, the outcome the engine has in
    store for the coming statements ([true]: it raises), and the wall
    clock in milliseconds.  An empty [faults] means no statement fails. *)
Record Env : Type := mkEnv {
  table : list Row.t;
  sequence : Z;
  trace : list Engine.Stmt;
  faults : list bool;
  clock : Z
}.

Inductive Outcome (A : Type) : Type :=
| Ok (a : A)
| Throw (e : Errors.Thrown).
Arguments Ok {A} a.
Arguments Throw {A} e.

Definition M (A : Type) : Type := Env -> Outcome A * Env.

Definition ret {A : Type} (a : A) : M A := fun env => (Ok a, env).

Definition throw {A : Type} (e : Errors.Thrown) : M A :=
  fun env => (Throw e, env).

Definition bind {A B : Type} (m : M A) (k : A -> M B) : M B :=
  fun env =>
    match m env with
    | (Ok a, env') => k a env'
    | (Throw e, env') => (Throw e, env')
    end.

(** [try { m } catch (error) { handler error }] *)
Definition tryCatch {A : Type} (m : M A) (handler : Errors.Thrown -> M A)
  : M A :=
  fun env =>
    match m env with
    | (Ok a, env') => (Ok a, env')
    | (Throw e, env') => handler e env'
    end.

(** [await Promise.all([m1, m2])]: both are started, in order; the
    result is rejected when one of them is. *)
Definition both {A B : Type} (m1 : M A) (m2 : M B) : M (A * B) :=
  fun env =>
    match m1 env with
    | (r1, env1) =>
        match m2 env1 with
        | (r2, env2) =>
            match r1, r2 with
            | Ok a, Ok b => (Ok (a, b), env2)
            | Throw e, _ => (Throw e, env2)
            | Ok _, Throw e => (Throw e, env2)
            end
        end
    end.

(** [new Date()] *)
Definition newDate : M Schema.Date := fun env => (Ok (clock env), env).

(** One round trip to the engine: the statement is recorded, the next
    fault is consumed, and unless the engine raises the statement runs
    on the table. *)
Definition call {A : Type} (s : Engine.Stmt)
           (run : Z -> list Row.t -> A * Z * list Row.t) : M A :=
  fun env =>
    let sent := trace env ++ [s] in
    match faults env with
    | true :: rest =>
        (Throw Errors.DriverError,
         mkEnv (table env) (sequence env) sent rest (clock env))
    | _ =>
        match run (sequence env) (table env) with
        | (a, sequence', table') =>
            (Ok a, mkEnv table' sequence' sent (tl (faults env)) (clock env))
        end
    end.

(** [await query] *)
Definition select (q : Engine.Query) : M (list Todo.t) :=
  call (Engine.Select q)
       (fun sq t => (map Todo.ofRow (Engine.runSelect q t), sq, t)).

(** [await db.select({ count: count() }).from(todos).where(w)]: one
    object holding the count. *)
Definition selectCount (w : option Engine.Cond) : M (list nat) :=
  call (Engine.SelectCount w)
       (fun sq t => ([Engine.countRows w t], sq, t)).

(** [await db.insert(todos).values(v).returning()] *)
Definition insertReturning (v : InsertValues.t) : M (list Todo.t) :=
  call (Engine.Insert v)
       (fun sq t =>
          let id := Engine.nextId sq t in
          let r := Engine.newRow id v in
          ([Todo.ofRow r], id, t ++ [r])).

(** [await db.update(todos).set(u).where(w).returning()] *)
Definition updateReturning (u : UpdateSet.t) (w : Engine.Cond)
  : M (list Todo.t) :=
  call (Engine.Update u w true)
       (fun sq t =>
          (map (fun r => Todo.ofRow (Engine.applySet u r))
               (filter (Engine.holds w) t),
           sq, Engine.updateRows u w t)).

(** [await db.update(todos).set(u).where(w)] *)
Definition update (u : UpdateSet.t) (w : Engine.Cond)
  : M Engine.RunResult :=
  call (Engine.Update u w false)
       (fun sq t =>
          (Engine.d1Result (List.length (filter (Engine.holds w) t)),
           sq, Engine.updateRows u w t)).

(** [await db.delete(todos).where(w)] *)
Definition delete (w : Engine.Cond) : M Engine.RunResult :=
  call (Engine.Delete w)
       (fun sq t =>
          (Engine.d1Result (List.length (filter (Engine.holds w) t)),
           sq, Engine.deleteRows w t)).

End Run.

Declare Scope run_scope.
Delimit Scope run_scope with run.
Notation "x <- m ;; k" := (Run.bind m (fun x => k))
  (at level 100, m at next level, right associativity) : run_scope.
Notation "' p <- m ;; k" := (Run.bind m (fun p => k))
  (at level 100, p pattern, m at next level, right associativity)
  : run_scope.

(* ===================================================================== *)
(** ** app/lib/todos.ts *)
(* ===================================================================== *)

Module Todos.
Import Run.
Import Errors.
Local Open Scope run_scope.

Definition validation (message : Message) (field : string) : Thrown :=
  Todo (ValidationError message (Some field)).

Definition database (message : Message) : Thrown :=
  Todo (DatabaseError message).

(** [!Number.isInteger(id) || id <= 0] *)
Definition invalidId (id : JS.number) : bool :=
  negb (JS.isInteger id) || JS.le0 id.

(** [(result as any).changes > 0 || (result.meta?.changes ?? 0) > 0] *)
Definition rowsChanged (result : Engine.RunResult) : bool :=
  match Engine.changes result with
  | Some n => JS.gt0 n
  | None => false
  end
  || JS.gt0 (match Engine.meta_changes result with
             | Some n => n
             | None => O
             end).

Definition defaultSort : TodoSort.t :=
  TodoSort.mk TodoSort.createdAt TodoSort.desc.

(** The [conditions] array that [getAllTodos] fills. *)
Definition conditions (filter : option TodoFilter.t) : list Engine.Cond :=
  let conditions := [] in
  let conditions :=
    match filter with
    | Some {| TodoFilter.completed := Some completed |} =>
        conditions ++ [Engine.EqCompleted completed]
    | _ => conditions
    end in
  let conditions :=
    match filter with
    | Some {| TodoFilter.priority := Some priority |} =>
        if JS.truthy priority
        then conditions ++ [Engine.EqPriority priority]
        else conditions
    | _ => conditions
    end in
  let conditions :=
    match filter with
    | Some {| TodoFilter.search := Some search |} =>
        if JS.truthy search then
          let searchTerm := ("%" ++ JS.toLowerCase search ++ "%")%string in
          conditions ++ [Engine.Or (Engine.LikeTitle searchTerm)
                                   (Engine.LikeDescription searchTerm)]
        else conditions
    | _ => conditions
    end in
  conditions.

Definition getAllTodos (filter : option TodoFilter.t)
           (sort : option TodoSort.t)
           (pagination : option TodoPagination.t) : M (list Todo.t) :=
  let sort := match sort with Some s => s | None => defaultSort end in
  tryCatch
    (let query := Engine.selectFromTodos in
     let conditions := conditions filter in
     let query :=
       if Nat.ltb 0 (List.length conditions)
       then Engine.where_ (Engine.And conditions) query
       else query in
     let query :=
       Engine.orderBy (TodoSort.field sort) (TodoSort.order sort) query in
     let query :=
       match pagination with
       | Some p =>
           Engine.offset (TodoPagination.offset p)
             (Engine.limit (TodoPagination.limit p) query)
       | None => query
       end in
     select query)
    (fun error => throw (database (Msg "Failed to fetch todos"))).

Definition getTodoById (id : JS.number) : M (option Todo.t) :=
  if invalidId id then throw (validation (Msg "Invalid todo ID") "id")
  else
    tryCatch
      (result <- select (Engine.limit 1
                           (Engine.where_ (Engine.EqId id)
                              Engine.selectFromTodos)) ;;
       ret (hd_error result))
      (fun error =>
         throw (database (MsgId "Failed to fetch todo with id " id))).

(** [data.description && data.description.length > 1000] *)
Definition descriptionTooLong (description : option string) : bool :=
  match description with
  | Some d => JS.truthy d && Nat.ltb 1000 (String.length d)
  | None => false
  end.

(** [data.priority && !["low", "medium", "high"].includes(data.priority)] *)
Definition priorityInvalid (priority : option string) : bool :=
  match priority with
  | Some p => JS.truthy p && negb (JS.includes ["low"; "medium"; "high"] p)
  | None => false
  end.

(** [!title || title.trim().length === 0] *)
Definition titleBlank (title : string) : bool :=
  negb (JS.truthy title) || Nat.eqb (String.length (JS.trim title)) 0.

(** [title.trim().length > 255] *)
Definition titleTooLong (title : string) : bool :=
  Nat.ltb 255 (String.length (JS.trim title)).

(** [s || fallback] where the fallback is [null] or [undefined] *)
Definition orElse (s : option string) (fallback : option string)
  : option string :=
  match s with
  | Some v => if JS.truthy v then Some v else fallback
  | None => fallback
  end.

(** [data.description?.trim()] *)
Definition trimOpt (s : option string) : option string :=
  match s with
  | Some v => Some (JS.trim v)
  | None => None
  end.

(** [s || fallback] where the fallback is a string *)
Definition orString (s : option string) (fallback : string) : string :=
  match s with
  | Some v => if JS.truthy v then v else fallback
  | None => fallback
  end.

(** The object [createTodo] passes to [values]. *)
Definition createValues (data : CreateTodoData.t) (title : string)
           (now : Schema.Date) : InsertValues.t :=
  InsertValues.mk
    (* title: data.title.trim() *)
    (JS.trim title)
    (* description: data.description?.trim() || null *)
    (orElse (trimOpt (CreateTodoData.description data)) None)
    (* priority: data.priority || "medium" *)
    (orString (CreateTodoData.priority data) "medium")
    (* completed: false, createdAt: now, updatedAt: now *)
    false now now.

Definition createTodo (data : CreateTodoData.t) : M Todo.t :=
  match CreateTodoData.title data with
  | None => throw (validation (Msg "Title is required") "title")
  | Some title =>
      if titleBlank title
      then throw (validation (Msg "Title is required") "title")
      else if titleTooLong title
      then throw (validation (Msg "Title must be 255 characters or less")
                             "title")
      else if descriptionTooLong (CreateTodoData.description data)
      then throw (validation
                    (Msg "Description must be 1000 characters or less")
                    "description")
      else if priorityInvalid (CreateTodoData.priority data)
      then throw (validation (Msg "Priority must be low, medium, or high")
                             "priority")
      else
        tryCatch
          (now <- newDate ;;
           result <- insertReturning (createValues data title now) ;;
           match result with
           | [] => throw (database
                            (Msg "Failed to create todo: No result returned"))
           | todo :: _ => ret todo
           end)
          (fun error =>
             if isValidationError error then throw error
             else throw (database (Msg "Failed to create todo")))
  end.

(** The title checks of [updateTodo], made only when a title is given. *)
Definition updateTitleError (title : option string) : option Thrown :=
  match title with
  | Some t =>
      if titleBlank t
      then Some (validation (Msg "Title cannot be empty") "title")
      else if titleTooLong t
      then Some (validation (Msg "Title must be 255 characters or less")
                            "title")
      else None
  | None => None
  end.

(** [{ ...data, updatedAt: now }] *)
Definition withUpdatedAt (data : UpdateTodoData.t) (now : Schema.Date)
  : UpdateSet.t :=
  UpdateSet.mk (UpdateTodoData.title data)
               (UpdateTodoData.description data)
               (UpdateTodoData.completed data)
               (UpdateTodoData.priority data)
               now.

(** The object [updateTodo] passes to [set]. *)
Definition updateData (data : UpdateTodoData.t) (now : Schema.Date)
  : UpdateSet.t :=
  let updateData := withUpdatedAt data now in
  (* Trim string fields *)
  let updateData :=
    match UpdateTodoData.title data with
    | Some title =>
        UpdateSet.mk (Some (JS.trim title))
                     (UpdateSet.description updateData)
                     (UpdateSet.completed updateData)
                     (UpdateSet.priority updateData)
                     (UpdateSet.updatedAt updateData)
    | None => updateData
    end in
  let updateData :=
    match UpdateTodoData.description data with
    | Some _ =>
        UpdateSet.mk (UpdateSet.title updateData)
                     (orElse (trimOpt (UpdateTodoData.description data))
                             None)
                     (UpdateSet.completed updateData)
                     (UpdateSet.priority updateData)
                     (UpdateSet.updatedAt updateData)
    | None => updateData
    end in
  (* delete updateData.description *)
  let updateData :=
    match UpdateTodoData.description data with
    | None =>
        UpdateSet.mk (UpdateSet.title updateData)
                     None
                     (UpdateSet.completed updateData)
                     (UpdateSet.priority updateData)
                     (UpdateSet.updatedAt updateData)
    | Some _ => updateData
    end in
  updateData.

Definition updateTodo (id : JS.number) (data : UpdateTodoData.t)
  : M (option Todo.t) :=
  if invalidId id then throw (validation (Msg "Invalid todo ID") "id")
  else
    match updateTitleError (UpdateTodoData.title data) with
    | Some e => throw e
    | None =>
        if descriptionTooLong (UpdateTodoData.description data)
        then throw (validation
                      (Msg "Description must be 1000 characters or less")
                      "description")
        else if priorityInvalid (UpdateTodoData.priority data)
        then throw (validation
                      (Msg "Priority must be low, medium, or high")
                      "priority")
        else
          tryCatch
            (now <- newDate ;;
             result <- updateReturning (updateData data now)
                                       (Engine.EqId id) ;;
             ret (hd_error result))
            (fun error =>
               if isValidationError error then throw error
               else throw (database
                             (MsgId "Failed to update todo with id " id)))
    end.

Definition deleteTodo (id : JS.number) : M bool :=
  if invalidId id then throw (validation (Msg "Invalid todo ID") "id")
  else
    tryCatch
      (result <- delete (Engine.EqId id) ;;
       ret (rowsChanged result))
      (fun error =>
         throw (database (MsgId "Failed to delete todo with id " id))).

Definition toggleTodoComplete (id : JS.number) : M (option Todo.t) :=
  tryCatch
    (todo <- getTodoById id ;;
     match todo with
     | None => ret None
     | Some todo =>
         updateTodo id
           (UpdateTodoData.mk None None
                              (Some (negb (Todo.completed todo))) None)
     end)
    (fun error =>
       if isValidationError error then throw error
       else throw (database
                     (MsgId "Failed to toggle todo completion for id " id))).

(** [result[0]?.count ?? 0] *)
Definition countOf (result : list nat) : nat := hd O result.

Definition getTodoStats : M TodoStats.t :=
  tryCatch
    ('(totalResult, (completedResult, (pendingResult,
        (lowResult, (mediumResult, highResult))))) <-
       both (selectCount None)
      (both (selectCount (Some (Engine.EqCompleted true)))
      (both (selectCount (Some (Engine.EqCompleted false)))
      (both (selectCount (Some (Engine.EqPriority "low")))
      (both (selectCount (Some (Engine.EqPriority "medium")))
            (selectCount (Some (Engine.EqPriority "high"))))))) ;;
     ret (TodoStats.mk
            (countOf totalResult)
            (countOf completedResult)
            (countOf pendingResult)
            (TodoStats.mkBy (countOf lowResult)
                            (countOf mediumResult)
                            (countOf highResult))))
    (fun error => throw (database (Msg "Failed to fetch todo statistics"))).

Definition searchTodos (searchTerm : string) : M (list Todo.t) :=
  if negb (JS.truthy (JS.trim searchTerm)) then ret []
  else
    tryCatch
      (let term := ("%" ++ JS.toLowerCase searchTerm ++ "%")%string in
       select (Engine.orderBy TodoSort.createdAt TodoSort.desc
                 (Engine.where_
                    (Engine.Or (Engine.LikeTitle term)
                               (Engine.LikeDescription term))
                    Engine.selectFromTodos)))
      (fun error => throw (database (Msg "Failed to search todos"))).

(** The loop that validates every id of [bulkUpdateTodos]. *)
Fixpoint validateIds (ids : list JS.number) : M unit :=
  match ids with
  | [] => ret tt
  | id :: rest =>
      if invalidId id
      then throw (validation (MsgId "Invalid todo ID: " id) "id")
      else validateIds rest
  end.

Definition batchSize : nat := 50.

(** [for (const id of batch) { ... count++ ... }] *)
Fixpoint updateBatch (updateData : UpdateSet.t) (batch : list JS.number)
         (count : nat) : M nat :=
  match batch with
  | [] => ret count
  | id :: rest =>
      result <- update updateData (Engine.EqId id) ;;
      updateBatch updateData rest
                  (if rowsChanged result then S count else count)
  end.

(** [for (let i = 0; i < ids.length; i += batchSize) { ... }], from
    index [i] on.  [steps] bounds the number of iterations; each one
    advances [i] by [batchSize], so [ids.length] steps are enough. *)
Fixpoint updateBatches (steps : nat) (updateData : UpdateSet.t)
         (ids : list JS.number) (i : nat) (count : nat) : M nat :=
  match steps with
  | O => ret count
  | S steps' =>
      if Nat.ltb i (List.length ids) then
        let batch := JS.slice ids i (i + batchSize) in
        count' <- updateBatch updateData batch count ;;
        updateBatches steps' updateData ids (i + batchSize) count'
      else ret count
  end.

Definition bulkUpdateTodos (ids : list JS.number)
           (updates : UpdateTodoData.t) : M nat :=
  if Nat.eqb (List.length ids) 0 then ret O
  else
    _ <- validateIds ids ;;
    tryCatch
      (now <- newDate ;;
       let updateData := withUpdatedAt updates now in
       updateBatches (List.length ids) updateData ids 0 0)
      (fun error => throw (database (Msg "Failed to bulk update todos"))).

Definition getTodosByStatus (completed : bool) : M (list Todo.t) :=
  tryCatch
    (select (Engine.orderBy TodoSort.createdAt TodoSort.desc
               (Engine.where_ (Engine.EqCompleted completed)
                              Engine.selectFromTodos)))
    (fun error =>
       throw (database
                (Msg ("Failed to fetch "
                      ++ (if completed then "completed" else "pending")
                      ++ " todos")%string))).

Definition getTodosByPriority (priority : string) : M (list Todo.t) :=
  tryCatch
    (select (Engine.orderBy TodoSort.createdAt TodoSort.desc
               (Engine.where_ (Engine.EqPriority priority)
                              Engine.selectFromTodos)))
    (fun error =>
       throw (database
                (Msg ("Failed to fetch " ++ priority
                      ++ " priority todos")%string))).

End Todos.

(* ===================================================================== *)
(** ** The vocabulary of the specification *)
(* ===================================================================== *)

Module Spec.

(** An id is a positive integer. *)
Definition isPositiveInteger (id : JS.number) : Prop :=
  exists z : Z,
    0 < z /\
    match id with
    | JS.Num q => Qeq q (inject_Z z)
    | _ => False
    end.

(** A string is empty or holds white space only. *)
Fixpoint blank (s : string) : bool :=
  match s with
  | EmptyString => true
  | String c rest => JS.isWhiteSpace c && blank rest
  end.

(** The title is missing, empty or white space only, or longer than 255
    characters once trimmed. *)
Definition titleRejected (title : option string) : Prop :=
  match title with
  | None => True
  | Some t =>
      blank t = true \/ (255 < String.length (JS.trim t))%nat
  end.

(** The engine raises on none of the coming statements. *)
Definition healthy (env : Run.Env) : Prop :=
  Forall (fun fault => fault = false) (Run.faults env).

(** Some row of the table carries this id. *)
Definition hasRow (table : list Row.t) (id : JS.number) : bool :=
  existsb (Engine.holds (Engine.EqId id)) table.


(** No row is stamped later than the clock reads. *)
Definition timely (env : Run.Env) : Prop :=
  Forall (fun r =>
            Schema.timestampFromDriver (Row.updatedAt r) <= Run.clock env)
         (Run.table env).

(** Every row holds one of the three priorities of the column enum. *)
Definition prioritiesInEnum (table : list Row.t) : Prop :=
  Forall (fun r => In (Row.priority r) Schema.priorityEnum) table.

(** How many rows hold a priority that is none of the three. *)
Definition outsideEnum (table : list Row.t) : nat :=
  List.length
    (filter (fun r => negb (JS.includes Schema.priorityEnum (Row.priority r)))
            table).

(** An input that [createTodo] accepts: a title that is not rejected, a
    description (if any) of at most 1000 characters as given, and a
    priority (if any) that is empty or one of the three. *)
Definition validCreate (data : CreateTodoData.t) : Prop :=
  ~ titleRejected (CreateTodoData.title data) /\
  match CreateTodoData.description data with
  | Some d => (String.length d <= 1000)%nat
  | None => True
  end /\
  match CreateTodoData.priority data with
  | Some p => p = "" \/ In p Schema.priorityEnum
  | None => True
  end.

End Spec.

(* ===================================================================== *)
(** ** Sample data *)
(* ===================================================================== *)

Definition sampleRow : Row.t :=
  Row.mk 1 "Buy milk" (Some "two litres") false "medium"
         1700000000 1700000000.

Definition sampleEnv : Run.Env :=
  Run.mkEnv [sampleRow] 1 [] [] 1700000005123.

(** A description of 1000 letters followed by one space: 1001 characters
    as given, 1000 once trimmed. *)
Definition paddedDescription : string :=
  (JS.repeatChar "a" 1000 ++ " ")%string.

(** An update that gives a title and a completion flag only. *)
Definition sampleUpdate : UpdateTodoData.t :=
  UpdateTodoData.mk (Some "  Buy oat milk ") None (Some true) None.

(** The snapshot of [sampleEnv]. *)
Definition sampleStats : TodoStats.t :=
  TodoStats.mk 1 0 1 (TodoStats.mkBy 0 1 0).

(* ===================================================================== *)
(** ** app/lib/errors.ts: the text of an error *)
(* ===================================================================== *)

Module ErrorText.

(** A message is kept in pieces: literal text, and the numbers that a
    template literal interpolates. *)
Inductive Piece : Type :=
| Text (s : string)
| Value (n : JS.number).

Definition render (m : Errors.Message) : list Piece :=
  match m with
  | Errors.Msg text => [Text text]
  | Errors.MsgId text id => [Text text; Value id]
  end.

(** Truthiness of a number: zero and [NaN] are falsy. *)
Definition truthyNumber (n : JS.number) : bool :=
  match n with
  | JS.Num q => negb (Qeq_bool q 0)
  | JS.NaN => false
  | JS.Infinity _ => true
  end.

(** [error.message], as the constructors of the three classes set it. *)
Definition message (e : Errors.TodoError) : list Piece :=
  match e with
  | Errors.ValidationError m _ => render m
  | Errors.DatabaseError m => render m
  | Errors.NotFoundError resource id =>
      (* id ? `${resource} with id ${id} not found`
            : `${resource} not found` *)
      match id with
      | Some n =>
          if truthyNumber n
          then [Text resource; Text " with id "; Value n; Text " not found"]
          else [Text resource; Text " not found"]
      | None => [Text resource; Text " not found"]
      end
  end.

(** [getErrorMessage(error)] on what can be thrown: the message of a
    [TodoError], a fixed text for any other [Error].  (Its third branch
    is for thrown values that are no [Error], which nothing here throws;
    what it writes to the console is not part of the environment.) *)
Definition getErrorMessage (error : Errors.Thrown) : list Piece :=
  match error with
  | Errors.Todo e => message e
  | Errors.DriverError => [Text "An unexpected error occurred"]
  | Errors.TypeError => [Text "An unexpected error occurred"]
  end.

End ErrorText.

(* ===================================================================== *)
(** ** app/routes/todos.tsx: the action *)
(* ===================================================================== *)

Module Routes.
Import Run.
Import ErrorText.
Local Open Scope run_scope.

(** [FormDataEntryValue]: the value of a form field is a string or an
    uploaded file. *)
Inductive FormDataEntryValue : Type :=
| Str (s : string)
| File.

(** The fields of the submitted form, in order. *)
Definition FormData : Type := list (string * FormDataEntryValue).

(** [formData.get(name)]: the first value of that name, or null. *)
Fixpoint get (formData : FormData) (name : string)
  : option FormDataEntryValue :=
  match formData with
  | [] => None
  | (key, value) :: rest =>
      if String.eqb key name then Some value else get rest name
  end.

(** [value === text] for a field that may be null or a file *)
Definition equals (value : option FormDataEntryValue) (text : string)
  : bool :=
  match value with
  | Some (Str v) => String.eqb v text
  | Some File => false
  | None => false
  end.

(** The string a value is turned into where one is needed. *)
Definition toString (value : option FormDataEntryValue) : string :=
  match value with
  | Some (Str v) => v
  | Some File => "[object File]"
  | None => "null"
  end.

(** The string under the cast [as string], where there is one. *)
Definition text (value : option FormDataEntryValue) : option string :=
  match value with
  | Some (Str v) => Some v
  | Some File => None
  | None => None
  end.

(** The value of a digit in the radix, if it is one. *)
Definition digit (radix : Z) (c : ascii) : option Z :=
  let n := Z.of_nat (nat_of_ascii c) in
  let v :=
    if (48 <=? n) && (n <=? 57) then Some (n - 48)
    else if (97 <=? n) && (n <=? 122) then Some (n - 87)
    else if (65 <=? n) && (n <=? 90) then Some (n - 55)
    else None in
  match v with
  | Some d => if d <? radix then Some d else None
  | None => None
  end.

(** The number that the longest run of leading digits denotes, if there
    is a digit at all. *)
Fixpoint leadingDigits (radix : Z) (s : string) (acc : option Z)
  : option Z :=
  match s with
  | EmptyString => acc
  | String c rest =>
      match digit radix c with
      | Some d =>
          leadingDigits radix rest
            (Some (match acc with Some a => a * radix + d | None => d end))
      | None => acc
      end
  end.

(** The Number value of a non-negative integer: the nearest double, a tie
    going to the even significand of 53 bits; [None] when that is beyond
    the largest double, the Number value being Infinity then. *)
Definition nearestDouble (n : Z) : option Z :=
  if n <? 2 ^ 53 then Some n
  else
    let k := Z.log2 n - 52 in
    let q := n / 2 ^ k in
    let r := n mod 2 ^ k in
    let half := 2 ^ (k - 1) in
    let q := if (half <? r) || ((r =? half) && Z.odd q) then q + 1 else q in
    let v := q * 2 ^ k in
    if v <? 2 ^ 1024 then Some v else None.

(** [parseInt(value)] without a radix: the value is turned into a string,
    leading white space is skipped, a sign is read, a [0x] or [0X] prefix
    selects radix 16, the leading digits are read and the rest is
    ignored; [NaN] when there is no digit.  The result is the Number
    value of the integer read: rounded above 2^53, an Infinity from
    2^1024 - 2^970 on. *)
Definition parseInt (value : option FormDataEntryValue) : JS.number :=
  let s := JS.trimStart (toString value) in
  let '(negative, s) :=
    match s with
    | String c rest =>
        if Ascii.eqb c "-" then (true, rest)
        else if Ascii.eqb c "+" then (false, rest)
        else (false, s)
    | EmptyString => (false, s)
    end in
  let '(radix, s) :=
    match s with
    | String c0 (String c1 rest) =>
        if Ascii.eqb c0 "0" && (Ascii.eqb c1 "x" || Ascii.eqb c1 "X")
        then (16, rest) else (10, s)
    | _ => (10, s)
    end in
  match leadingDigits radix s None with
  | Some n =>
      match nearestDouble n with
      | Some v => JS.Num (inject_Z (if negative then - v else v))
      | None => JS.Infinity negative
      end
  | None => JS.NaN
  end.

(** [isNaN(n)] *)
Definition isNaN (n : JS.number) : bool :=
  match n with
  | JS.NaN => true
  | _ => false
  end.

(** What the action returns: [{ success }] or [{ error }]. *)
Inductive Reply : Type :=
| success (text : string)
| error (message : list Piece).

(** A title field that is missing reaches [updateTodo] as null; its
    checks treat null as they treat the empty string: it is not
    [undefined], and it is falsy. *)
Definition nullAsEmpty (value : option string) : option string :=
  match value with
  | Some v => Some v
  | None => Some ""
  end.

(** [description || undefined]: a file is truthy. *)
Definition orUndefined (value : option FormDataEntryValue)
  : option FormDataEntryValue :=
  match value with
  | Some (Str v) => if JS.truthy v then value else None
  | Some File => value
  | None => None
  end.

(** [priority || "medium"]: a file is truthy. *)
Definition orMedium (value : option FormDataEntryValue)
  : option FormDataEntryValue :=
  match value with
  | Some (Str v) => if JS.truthy v then value else Some (Str "medium")
  | Some File => value
  | None => Some (Str "medium")
  end.

(** [data.description && data.description.length > 1000] on what the
    cast lets through: a file is truthy and has no [length], and
    [undefined > 1000] is false. *)
Definition descriptionTooLongCast
           (description : option FormDataEntryValue)
  : bool :=
  match description with
  | Some (Str d) => Todos.descriptionTooLong (Some d)
  | Some File => false
  | None => false
  end.

(** [data.priority && !["low", "medium", "high"].includes(data.priority)]
    on what the cast lets through: a file is truthy and is none of the
    three. *)
Definition priorityInvalidCast (priority : option FormDataEntryValue)
  : bool :=
  match priority with
  | Some (Str p) => Todos.priorityInvalid (Some p)
  | Some File => true
  | None => false
  end.

(** [createTodo] of todos.ts on the arguments the action hands it.  The
    action casts the form's values to strings without a check, so each of
    [title], [description] and [priority] is a string, a file, or absent.
    A file has no [trim]: [data.title.trim()] in the first check, before
    the [try], and [data.description?.trim()] in the object for [values],
    inside it, raise a TypeError. *)
Definition createTodoCast (title description priority
                           : option FormDataEntryValue) : M Todo.t :=
  match title with
  | None =>
      throw (Todos.validation (Errors.Msg "Title is required") "title")
  | Some File => throw Errors.TypeError
  | Some (Str title) =>
      if Todos.titleBlank title
      then throw (Todos.validation (Errors.Msg "Title is required") "title")
      else if Todos.titleTooLong title
      then throw (Todos.validation
                    (Errors.Msg "Title must be 255 characters or less")
                    "title")
      else if descriptionTooLongCast description
      then throw (Todos.validation
                    (Errors.Msg "Description must be 1000 characters or less")
                    "description")
      else if priorityInvalidCast priority
      then throw (Todos.validation
                    (Errors.Msg "Priority must be low, medium, or high")
                    "priority")
      else
        tryCatch
          (now <- newDate ;;
           match description with
           | Some File => throw Errors.TypeError
           | _ =>
               result <- insertReturning
                           (Todos.createValues
                              (CreateTodoData.mk (Some title)
                                                 (text description)
                                                 (text priority))
                              title now) ;;
               match result with
               | [] =>
                   throw (Todos.database
                            (Errors.Msg
                               "Failed to create todo: No result returned"))
               | todo :: _ => ret todo
               end
           end)
          (fun error =>
             if Errors.isValidationError error then throw error
             else throw (Todos.database (Errors.Msg "Failed to create todo")))
  end.

(** [updateTodo] of todos.ts on the arguments the update of the action
    hands it: the keys [title], [description] and [priority], no
    [completed].  The [title] key is always there (null when the form has
    no such field), so its checks are always made. *)
Definition updateTodoCast (id : JS.number)
           (title description priority : option FormDataEntryValue)
  : M (option Todo.t) :=
  if Todos.invalidId id
  then throw (Todos.validation (Errors.Msg "Invalid todo ID") "id")
  else
    match title with
    | None =>
        throw (Todos.validation (Errors.Msg "Title cannot be empty") "title")
    | Some File => throw Errors.TypeError
    | Some (Str title) =>
        match Todos.updateTitleError (Some title) with
        | Some e => throw e
        | None =>
            if descriptionTooLongCast description
            then throw (Todos.validation
                          (Errors.Msg
                             "Description must be 1000 characters or less")
                          "description")
            else if priorityInvalidCast priority
            then throw (Todos.validation
                          (Errors.Msg "Priority must be low, medium, or high")
                          "priority")
            else
              tryCatch
                (now <- newDate ;;
                 match description with
                 | Some File => throw Errors.TypeError
                 | _ =>
                     result <- updateReturning
                                 (Todos.updateData
                                    (UpdateTodoData.mk (Some title)
                                                       (text description)
                                                       None
                                                       (text priority))
                                    now)
                                 (Engine.EqId id) ;;
                     ret (hd_error result)
                 end)
                (fun error =>
                   if Errors.isValidationError error then throw error
                   else throw (Todos.database
                                 (Errors.MsgId
                                    "Failed to update todo with id " id)))
        end
    end.

(** The action, from the form on ([request.formData()] has returned). *)
Definition action (formData : FormData) : M Reply :=
  let intent := get formData "intent" in
  tryCatch
    (if equals intent "create" then
       let title := get formData "title" in
       let description := get formData "description" in
       let priority := get formData "priority" in
       _ <- createTodoCast title (orUndefined description)
                           (orMedium priority) ;;
       ret (success "Todo created successfully")
     else if equals intent "toggle" then
       let idStr := get formData "id" in
       let id := parseInt idStr in
       if isNaN id then ret (error [Text "Invalid todo ID"])
       else
         let completed := equals (get formData "completed") "true" in
         result <- Todos.updateTodo
                     id (UpdateTodoData.mk None None
                                           (Some (negb completed)) None) ;;
         match result with
         | None => ret (error [Text "Todo not found"])
         | Some _ => ret (success "Todo updated successfully")
         end
     else if equals intent "delete" then
       let idStr := get formData "id" in
       let id := parseInt idStr in
       if isNaN id then ret (error [Text "Invalid todo ID"])
       else
         deleted <- Todos.deleteTodo id ;;
         if negb deleted
         then ret (error [Text "Todo not found or could not be deleted"])
         else ret (success "Todo deleted successfully")
     else if equals intent "update" then
       let idStr := get formData "id" in
       let id := parseInt idStr in
       if isNaN id then ret (error [Text "Invalid todo ID"])
       else
         let title := get formData "title" in
         let description := get formData "description" in
         let priority := get formData "priority" in
         result <- updateTodoCast id title (orUndefined description)
                                  (orMedium priority) ;;
         match result with
         | None => ret (error [Text "Todo not found"])
         | Some _ => ret (success "Todo updated successfully")
         end
     else ret (error [Text "Invalid action"]))
    (fun thrown => ret (error (getErrorMessage thrown))).

End Routes.

(* ===================================================================== *)
(** ** Further vocabulary *)
(* ===================================================================== *)

Module Props.

(** The environment after one more statement went to the engine and left
    the table as it was. *)
Definition sent (env : Run.Env) (s : Engine.Stmt) : Run.Env :=
  Run.mkEnv (Run.table env) (Run.sequence env) (Run.trace env ++ [s])
            (tl (Run.faults env)) (Run.clock env).

(** The error is one of the layer's own Validation errors. *)
Definition isValidation (e : Errors.Thrown) : Prop :=
  exists message field,
    e = Errors.Todo (Errors.ValidationError message field).

(** The error is one of the layer's own Database errors. *)
Definition isDatabase (e : Errors.Thrown) : Prop :=
  exists message, e = Errors.Todo (Errors.DatabaseError message).

(** What an operation of the layer may do when it does not return: raise
    a Validation error, the environment being the one that went in, or
    raise a Database error, the engine having raised on a statement. *)
Definition guarded {A : Type} (m : Run.M A) : Prop :=
  forall env outcome env',
    m env = (outcome, env') ->
    match outcome with
    | Run.Ok _ => True
    | Run.Throw e =>
        (isValidation e /\ env' = env)
        \/ (isDatabase e /\ ~ Spec.healthy env)
    end.

(** A computation made of round trips to the engine: it keeps a healthy
    engine healthy, and whatever it raises is the error of the driver,
    raised on a fault. *)
Definition plain {A : Type} (m : Run.M A) : Prop :=
  forall env outcome env',
    m env = (outcome, env') ->
    (Spec.healthy env -> Spec.healthy env')
    /\ forall e, outcome = Run.Throw e ->
                 e = Errors.DriverError /\ ~ Spec.healthy env.

(** The first row of the table that carries this id. *)
Definition rowOf (table : list Row.t) (id : JS.number) : option Row.t :=
  find (Engine.holds (Engine.EqId id)) table.

(** The id of a record, as the number a caller passes back. *)
Definition idOf (id : Z) : JS.number := JS.Num (inject_Z id).

(** The statement [getTodoById] sends. *)
Definition byId (id : JS.number) : Engine.Stmt :=
  Engine.Select (Engine.limit 1 (Engine.where_ (Engine.EqId id)
                                               Engine.selectFromTodos)).

(** The row passes every key the filter gives: the [completed] flag, the
    priority (an empty one counts as not given) and the search term (an
    empty one counts as not given), which must occur in the title or in
    the description, as the engine's LIKE finds it. *)
Definition matches (filter : option TodoFilter.t) (r : Row.t) : bool :=
  match filter with
  | None => true
  | Some f =>
      match TodoFilter.completed f with
      | Some b => Bool.eqb (Row.completed r) b
      | None => true
      end
      && match TodoFilter.priority f with
         | Some p => JS.isEmpty p || String.eqb (Row.priority r) p
         | None => true
         end
      && match TodoFilter.search f with
         | Some s =>
             JS.isEmpty s
             || (let pattern := ("%" ++ JS.toLowerCase s ++ "%")%string in
                 Engine.like pattern (Row.title r)
                 || match Row.description r with
                    | Some d => Engine.like pattern d
                    | None => false
                    end)
         | None => true
         end
  end.

(** The sort in force: the one given, or [createdAt] descending. *)
Definition sortOf (sort : option TodoSort.t) : TodoSort.t :=
  match sort with
  | Some s => s
  | None => Todos.defaultSort
  end.

(** Record [a] may stand before record [b] under the sort. *)
Definition inOrder (sort : TodoSort.t) (a b : Todo.t) : Prop :=
  let le (x y : Todo.t) : Prop :=
    match TodoSort.field sort with
    | TodoSort.createdAt => Todo.createdAt x <= Todo.createdAt y
    | TodoSort.updatedAt => Todo.updatedAt x <= Todo.updatedAt y
    | TodoSort.title => String.leb (Todo.title x) (Todo.title y) = true
    | TodoSort.priority =>
        String.leb (Todo.priority x) (Todo.priority y) = true
    end in
  match TodoSort.order sort with
  | TodoSort.asc => le a b
  | TodoSort.desc => le b a
  end.

(** The window of a listing that a page with a non-negative limit shows. *)
Definition window {A : Type} (p : TodoPagination.t) (l : list A) : list A :=
  firstn (Z.to_nat (TodoPagination.limit p))
         (skipn (Z.to_nat (TodoPagination.offset p)) l).

(** Two strings of one length whose characters agree up to the case of
    the letters A to Z. *)
Fixpoint sameUpToCase (a b : string) : bool :=
  match a, b with
  | EmptyString, EmptyString => true
  | String x a', String y b' =>
      Ascii.eqb (Engine.foldCase x) (Engine.foldCase y) && sameUpToCase a' b'
  | _, _ => false
  end.

(** The text holds the term somewhere, up to the case of the letters. *)
Definition contains (text term : string) : Prop :=
  exists before found after,
    text = (before ++ found ++ after)%string
    /\ sameUpToCase term found = true.

(** The text holds no NUL, so that LIKE reads all of it. *)
Definition nulFree (s : string) : Prop := Engine.untilNul s = s.

(** The id of the row is among the ids. *)
Definition listed (ids : list JS.number) (r : Row.t) : bool :=
  existsb (fun id => Engine.eqId id (Row.id r)) ids.

(** What identifies the rows and dates their creation, row by row. *)
Definition keys (table : list Row.t) : list (Z * Z) :=
  map (fun r => (Row.id r, Row.createdAt r)) table.

(** An operation that neither adds, removes, moves nor renumbers a row,
    whatever its outcome. *)
Definition keepsKeys {A : Type} (m : Run.M A) : Prop :=
  forall env outcome env',
    m env = (outcome, env') ->
    keys (Run.table env') = keys (Run.table env)
    /\ Run.sequence env' = Run.sequence env.

(** An input that [updateTodo] accepts: a title, if given, that is not
    rejected; a description, if given, of at most 1000 characters as
    given; a priority, if given, that is empty or one of the three. *)
Definition validUpdate (data : UpdateTodoData.t) : Prop :=
  match UpdateTodoData.title data with
  | Some t => ~ Spec.titleRejected (Some t)
  | None => True
  end
  /\ match UpdateTodoData.description data with
     | Some d => (String.length d <= 1000)%nat
     | None => True
     end
  /\ match UpdateTodoData.priority data with
     | Some p => p = "" \/ In p Schema.priorityEnum
     | None => True
     end.

(** A row as the data model wants it: a title that is not blank and has
    at most 255 characters, a description that is null or else not empty
    and of at most 1000 characters. *)
Definition wellFormed (r : Row.t) : Prop :=
  Spec.blank (Row.title r) = false
  /\ (String.length (Row.title r) <= 255)%nat
  /\ match Row.description r with
     | Some d => d <> "" /\ (String.length d <= 1000)%nat
     | None => True
     end.

(** The table is as the data model wants it, and no row of it is
    stamped later than the clock reads. *)
Definition sound (env : Run.Env) : Prop :=
  Spec.prioritiesInEnum (Run.table env)
  /\ Forall wellFormed (Run.table env)
  /\ Spec.timely env.

(** An operation after which a sound table is still sound, however the
    operation ends. *)
Definition keepsSound {A : Type} (m : Run.M A) : Prop :=
  forall env outcome env',
    m env = (outcome, env') -> sound env -> sound env'.


(** An operation that only reads: table, sequence and clock come back as
    they went in. *)
Definition readOnly {A : Type} (m : Run.M A) : Prop :=
  forall env outcome env',
    m env = (outcome, env') ->
    Run.table env' = Run.table env
    /\ Run.sequence env' = Run.sequence env
    /\ Run.clock env' = Run.clock env.

End Props.

(* ===================================================================== *)
(** ** Facts about the JavaScript primitives *)
(* ===================================================================== *)

Lemma isInteger_iff (q : Q) :
  JS.isInteger (JS.Num q) = true <-> exists z : Z, Qeq q (inject_Z z).
Proof.
  unfold JS.isInteger. rewrite Qeq_bool_iff. split.
  - intros H. exists (Qfloor q). symmetry. exact H.
  - intros [z Hz]. rewrite Hz at 1. rewrite Qfloor_Z. symmetry. exact Hz.
Qed.

Lemma invalidId_iff (id : JS.number) :
  Todos.invalidId id = true <-> ~ Spec.isPositiveInteger id.
Proof.
  unfold Todos.invalidId, Spec.isPositiveInteger.
  destruct id as [q | | negative]; simpl.
  - rewrite orb_true_iff, negb_true_iff, Qle_bool_iff. split.
    + intros [Hint | Hle] [z [Hpos Hz]].
      * assert (Hi : JS.isInteger (JS.Num q) = true)
          by (apply isInteger_iff; exists z; exact Hz).
        simpl in Hi. congruence.
      * rewrite Hz in Hle. change 0%Q with (inject_Z 0) in Hle.
        rewrite <- Zle_Qle in Hle. lia.
    + intros Hnot.
      destruct (Qeq_bool (inject_Z (Qfloor q)) q) eqn:Hint; [| now left].
      right. apply Qeq_bool_eq in Hint.
      destruct (Qlt_le_dec 0 q) as [Hlt | Hle]; [| exact Hle].
      exfalso. apply Hnot. exists (Qfloor q). split.
      * rewrite <- Hint in Hlt. change 0%Q with (inject_Z 0) in Hlt.
        rewrite <- Zlt_Qlt in Hlt. exact Hlt.
      * symmetry. exact Hint.
  - split; [intros _ [z [_ []]] | reflexivity].
  - split; [intros _ [z [_ []]] | reflexivity].
Qed.

Lemma trimStart_blank (s : string) :
  Spec.blank (JS.trimStart s) = Spec.blank s.
Proof.
  induction s as [| c rest IH]; simpl; [reflexivity |].
  destruct (JS.isWhiteSpace c) eqn:Hc; simpl; [exact IH |].
  rewrite Hc. reflexivity.
Qed.

Lemma trimEnd_empty_iff (s : string) :
  JS.trimEnd s = EmptyString <-> Spec.blank s = true.
Proof.
  induction s as [| c rest IH]; simpl; [tauto |].
  destruct (JS.isWhiteSpace c); simpl.
  - destruct (JS.trimEnd rest) eqn:Hrest; simpl.
    + split; [intros _; apply IH; reflexivity | reflexivity].
    + split; [discriminate |].
      intros Hb. apply IH in Hb. discriminate.
  - split; discriminate.
Qed.

(** [s.trim()] is empty exactly for the empty and the white-space-only
    strings. *)
Lemma trim_empty_iff (s : string) :
  JS.trim s = EmptyString <-> Spec.blank s = true.
Proof.
  unfold JS.trim. rewrite trimEnd_empty_iff, trimStart_blank. tauto.
Qed.

Lemma isEmpty_iff (s : string) : JS.isEmpty s = true <-> s = EmptyString.
Proof. destruct s; simpl; split; congruence. Qed.

Lemma length_zero_iff (s : string) :
  Nat.eqb (String.length s) 0 = true <-> s = EmptyString.
Proof. destruct s; simpl; split; congruence. Qed.

Lemma titleBlank_iff (t : string) :
  Todos.titleBlank t = true <-> Spec.blank t = true.
Proof.
  unfold Todos.titleBlank, JS.truthy.
  rewrite orb_true_iff, negb_involutive, isEmpty_iff, length_zero_iff,
    trim_empty_iff.
  split; [| now right].
  intros [-> | H]; [reflexivity | exact H].
Qed.

(* ===================================================================== *)
(** ** Identifier validation *)
(* ===================================================================== *)

Section IdValidation.
Import Run Errors Todos.

Lemma validateIds_rejects (ids : list JS.number) (env : Env) :
  (exists id, In id ids /\ invalidId id = true) ->
  exists bad,
    In bad ids /\ invalidId bad = true /\
    validateIds ids env
    = (Throw (validation (MsgId "Invalid todo ID: " bad) "id"), env).
Proof.
  induction ids as [| id0 rest IH]; intros [id [Hin Hbad]].
  - destruct Hin.
  - simpl. destruct (invalidId id0) eqn:H0.
    + exists id0. split; [now left | split; [exact H0 | reflexivity]].
    + destruct Hin as [-> | Hin]; [congruence |].
      destruct IH as [bad [Hb1 [Hb2 Hb3]]]; [exists id; auto |].
      exists bad. split; [now right | split; [exact Hb2 | exact Hb3]].
Qed.

Lemma validateIds_accepts (ids : list JS.number) (env : Env) :
  Forall (fun id => invalidId id = false) ids ->
  validateIds ids env = (Ok tt, env).
Proof.
  induction 1 as [| id rest Hid _ IH]; simpl; [reflexivity |].
  rewrite Hid. exact IH.
Qed.

(** C1. For an id that is not a positive integer (zero, negative,
    non-integral, NaN or infinite), [getTodoById], [updateTodo],
    [deleteTodo] and [toggleTodoComplete] raise the Validation error on
    field [id], and so does [bulkUpdateTodos] for any list that holds
    such an id; in each case the environment that comes back is the one
    that went in: no statement was sent (the trace is unchanged) and the
    table is untouched. *)
Theorem invalid_id_rejected_before_storage :
  forall (id : JS.number) (env : Env),
    ~ Spec.isPositiveInteger id ->
    getTodoById id env
    = (Throw (validation (Msg "Invalid todo ID") "id"), env)
    /\ (forall data,
           updateTodo id data env
           = (Throw (validation (Msg "Invalid todo ID") "id"), env))
    /\ deleteTodo id env
       = (Throw (validation (Msg "Invalid todo ID") "id"), env)
    /\ toggleTodoComplete id env
       = (Throw (validation (Msg "Invalid todo ID") "id"), env)
    /\ (forall ids updates,
           In id ids ->
           exists bad,
             In bad ids /\ ~ Spec.isPositiveInteger bad /\
             bulkUpdateTodos ids updates env
             = (Throw (validation (MsgId "Invalid todo ID: " bad) "id"),
                env)).
Proof.
  intros id env Hid. apply invalidId_iff in Hid.
  assert (Hget : getTodoById id env
                 = (Throw (validation (Msg "Invalid todo ID") "id"), env)).
  { unfold getTodoById. rewrite Hid. reflexivity. }
  split; [exact Hget |]. split; [| split; [| split]].
  - intros data. unfold updateTodo. rewrite Hid. reflexivity.
  - unfold deleteTodo. rewrite Hid. reflexivity.
  - unfold toggleTodoComplete, tryCatch, bind. rewrite Hget. reflexivity.
  - intros ids updates Hin.
    destruct (validateIds_rejects ids env) as [bad [Hb1 [Hb2 Hb3]]];
      [exists id; auto |].
    exists bad. split; [exact Hb1 |]. split; [now apply invalidId_iff |].
    unfold bulkUpdateTodos.
    destruct ids as [| id0 rest]; [destruct Hin |].
    cbn [List.length Nat.eqb]. unfold bind. rewrite Hb3. reflexivity.
Qed.

End IdValidation.

Lemma invalid_id_rejected_before_storage_witness :
  ~ Spec.isPositiveInteger (JS.Num (3 # 2))
  /\ Todos.getTodoById (JS.Num (3 # 2)) sampleEnv
     = (Run.Throw (Todos.validation (Errors.Msg "Invalid todo ID") "id"),
        sampleEnv)
  /\ Todos.toggleTodoComplete (JS.Num (3 # 2)) sampleEnv
     = (Run.Throw (Todos.validation (Errors.Msg "Invalid todo ID") "id"),
        sampleEnv)
  /\ exists bad,
       Todos.bulkUpdateTodos [JS.Num 1; JS.Num (3 # 2)] sampleUpdate sampleEnv
       = (Run.Throw (Todos.validation
                       (Errors.MsgId "Invalid todo ID: " bad) "id"),
          sampleEnv).
Proof.
  assert (H : ~ Spec.isPositiveInteger (JS.Num (3 # 2)))
    by (apply invalidId_iff; reflexivity).
  destruct (invalid_id_rejected_before_storage (JS.Num (3 # 2)) sampleEnv H)
    as [Hget [_ [_ [Htoggle Hbulk]]]].
  split; [exact H |]. split; [exact Hget |]. split; [exact Htoggle |].
  destruct (Hbulk [JS.Num 1; JS.Num (3 # 2)] sampleUpdate)
    as [bad [_ [_ Hrun]]]; [right; left; reflexivity |].
  exists bad. exact Hrun.
Defined.

(* ===================================================================== *)
(** ** Searching and listing *)
(* ===================================================================== *)

Section Search.
Import Run Errors Todos.

(** C9. For a search term that is empty or holds white space only,
    [searchTodos] returns the empty sequence and the environment is the
    one that went in: no query was sent to the storage. *)
Theorem searchTodos_blank_term :
  forall (searchTerm : string) (env : Env),
    Spec.blank searchTerm = true ->
    searchTodos searchTerm env = (Ok [], env).
Proof.
  intros searchTerm env Hblank.
  apply trim_empty_iff in Hblank.
  unfold searchTodos. rewrite Hblank. reflexivity.
Qed.

Lemma conditions_empty_search (completed : option bool)
      (priority : option string) :
  conditions (Some (TodoFilter.mk completed priority (Some "")))
  = conditions (Some (TodoFilter.mk completed priority None)).
Proof. destruct completed, priority; reflexivity. Qed.

(** C10. Whatever the table, the sort and the pagination, [getAllTodos]
    with a filter whose [search] is the empty string runs as
    [getAllTodos] with the same filter without [search] (and, when the
    filter holds nothing else, as [getAllTodos] without a filter): same
    statement, same result.  [searchTodos] differs: on the empty term it
    returns nothing, where [getAllTodos] lists the table. *)
Theorem getAllTodos_empty_search_is_no_search :
  forall (completed : option bool) (priority : option string)
         (sort : option TodoSort.t) (pagination : option TodoPagination.t)
         (env : Env),
    getAllTodos (Some (TodoFilter.mk completed priority (Some "")))
                sort pagination env
    = getAllTodos (Some (TodoFilter.mk completed priority None))
                  sort pagination env
    /\ getAllTodos (Some (TodoFilter.mk None None (Some "")))
                   sort pagination env
       = getAllTodos None sort pagination env
    /\ searchTodos "" env = (Ok [], env)
    /\ fst (getAllTodos (Some (TodoFilter.mk None None (Some "")))
                        None None sampleEnv)
       = Ok [Todo.ofRow sampleRow].
Proof.
  intros completed priority sort pagination env.
  split; [| split; [| split]].
  - unfold getAllTodos. rewrite conditions_empty_search. reflexivity.
  - reflexivity.
  - reflexivity.
  - reflexivity.
Qed.

End Search.

Lemma searchTodos_blank_term_witness :
  Spec.blank "   " = true
  /\ Todos.searchTodos "   " sampleEnv = (Run.Ok [], sampleEnv).
Proof.
  split; [reflexivity |].
  apply (searchTodos_blank_term "   " sampleEnv). reflexivity.
Defined.

(* ===================================================================== *)
(** ** Creating a record *)
(* ===================================================================== *)

Section Create.
Import Run Errors Todos.

Lemma healthy_head (env : Env) :
  Spec.healthy env -> hd false (faults env) = false.
Proof.
  unfold Spec.healthy. destruct (faults env) as [| b rest]; simpl.
  - reflexivity.
  - intros H. inversion H. assumption.
Qed.

(** What [createTodo] does once every check has passed and the engine
    does not raise. *)
Lemma createTodo_run (data : CreateTodoData.t) (title : string)
      (env : Env) :
  CreateTodoData.title data = Some title ->
  titleBlank title = false ->
  titleTooLong title = false ->
  descriptionTooLong (CreateTodoData.description data) = false ->
  priorityInvalid (CreateTodoData.priority data) = false ->
  hd false (faults env) = false ->
  let values := createValues data title (clock env) in
  let id := Engine.nextId (sequence env) (table env) in
  createTodo data env
  = (Ok (Todo.ofRow (Engine.newRow id values)),
     mkEnv (table env ++ [Engine.newRow id values]) id
           (trace env ++ [Engine.Insert values])
           (tl (faults env)) (clock env)).
Proof.
  intros Ht Hb Hl Hd Hp Hf. unfold createTodo.
  rewrite Ht, Hb, Hl, Hd, Hp.
  unfold tryCatch, bind, newDate, insertReturning, call.
  destruct (faults env) as [| [] rest]; simpl in *;
    [reflexivity | discriminate | reflexivity].
Qed.

(** A successful [createTodo] passed every check and met no fault. *)
Lemma createTodo_inv (data : CreateTodoData.t) (env env' : Env)
      (todo : Todo.t) :
  createTodo data env = (Ok todo, env') ->
  exists title,
    CreateTodoData.title data = Some title /\
    titleBlank title = false /\
    titleTooLong title = false /\
    descriptionTooLong (CreateTodoData.description data) = false /\
    priorityInvalid (CreateTodoData.priority data) = false /\
    hd false (faults env) = false.
Proof.
  unfold createTodo.
  destruct (CreateTodoData.title data) as [title |]; [| discriminate].
  destruct (titleBlank title) eqn:Hb; [discriminate |].
  destruct (titleTooLong title) eqn:Hl; [discriminate |].
  destruct (descriptionTooLong _) eqn:Hd; [discriminate |].
  destruct (priorityInvalid _) eqn:Hp; [discriminate |].
  unfold tryCatch, bind, newDate, insertReturning, call.
  intros H. exists title.
  do 5 (split; [first [assumption | reflexivity] |]).
  destruct (faults env) as [| [] rest]; simpl in *;
    [reflexivity | discriminate | reflexivity].
Qed.

(** With a title that passes its checks, no title error can come out. *)
Lemma createTodo_title_accepted (data : CreateTodoData.t) (title : string)
      (env : Env) (msg : Message) :
  CreateTodoData.title data = Some title ->
  titleBlank title = false ->
  titleTooLong title = false ->
  fst (createTodo data env) <> Throw (validation msg "title").
Proof.
  intros Ht Hb Hl. unfold createTodo. rewrite Ht, Hb, Hl.
  destruct (descriptionTooLong _); [simpl; unfold validation; congruence |].
  destruct (priorityInvalid _); [simpl; unfold validation; congruence |].
  unfold tryCatch, bind, newDate, insertReturning, call.
  destruct (faults env) as [| [] rest]; simpl;
    unfold validation, database; congruence.
Qed.

(** C6. [createTodo] raises the Validation error on field [title]
    exactly when the title is missing, empty or white space only, or
    longer than 255 characters once trimmed.  A title of 256 characters
    is rejected so; a title of 255 characters is not, and with a storage
    that answers the record is created. *)
Theorem createTodo_title_validation :
  forall (data : CreateTodoData.t) (env : Env),
    ((exists msg, createTodo data env = (Throw (validation msg "title"), env))
     <-> Spec.titleRejected (CreateTodoData.title data))
    /\ ((exists msg, fst (createTodo data env) = Throw (validation msg "title"))
        -> Spec.titleRejected (CreateTodoData.title data))
    /\ (forall description priority,
           createTodo
             (CreateTodoData.mk (Some (JS.repeatChar "a" 256))
                                description priority) env
           = (Throw (validation
                       (Msg "Title must be 255 characters or less")
                       "title"), env))
    /\ (forall description priority msg,
           fst (createTodo
                  (CreateTodoData.mk (Some (JS.repeatChar "a" 255))
                                     description priority) env)
           <> Throw (validation msg "title"))
    /\ (Spec.healthy env ->
        exists todo,
          fst (createTodo
                 (CreateTodoData.mk (Some (JS.repeatChar "a" 255))
                                    None None) env)
          = Ok todo).
Proof.
  intros data env.
  assert (Honly : (exists msg,
                      fst (createTodo data env)
                      = Throw (validation msg "title")) ->
                  Spec.titleRejected (CreateTodoData.title data)).
  { intros [msg H]. unfold Spec.titleRejected.
    destruct (CreateTodoData.title data) as [title |] eqn:Ht; [| exact I].
    destruct (titleBlank title) eqn:Hb;
      [left; now apply titleBlank_iff |].
    destruct (titleTooLong title) eqn:Hl;
      [right; now apply Nat.ltb_lt |].
    exfalso.
    exact (createTodo_title_accepted data title env msg Ht Hb Hl H). }
  split; [split |].
  - intros [msg H]. apply Honly. exists msg. rewrite H. reflexivity.
  - unfold Spec.titleRejected, createTodo.
    destruct (CreateTodoData.title data) as [title |].
    + intros [Hblank | Hlong].
      * apply titleBlank_iff in Hblank. rewrite Hblank. eexists; reflexivity.
      * destruct (titleBlank title); [eexists; reflexivity |].
        apply Nat.ltb_lt in Hlong. unfold titleTooLong. rewrite Hlong.
        eexists; reflexivity.
    + intros _. eexists; reflexivity.
  - split; [exact Honly |]. split; [| split].
    + intros description priority. reflexivity.
    + intros description priority msg.
      apply (createTodo_title_accepted _ (JS.repeatChar "a" 255));
        reflexivity.
    + intros Hh. eexists.
      rewrite (createTodo_run _ (JS.repeatChar "a" 255));
        [reflexivity | reflexivity .. | now apply healthy_head].
Qed.

End Create.

Lemma createTodo_title_validation_witness :
  Spec.titleRejected (Some "   ")
  /\ (exists msg,
         Todos.createTodo (CreateTodoData.mk (Some "   ") None None) sampleEnv
         = (Run.Throw (Todos.validation msg "title"), sampleEnv))
  /\ Spec.healthy sampleEnv
  /\ (exists todo,
         fst (Todos.createTodo
                (CreateTodoData.mk (Some (JS.repeatChar "a" 255)) None None)
                sampleEnv)
         = Run.Ok todo).
Proof.
  assert (Hrej : Spec.titleRejected (Some "   ")) by (left; reflexivity).
  assert (Hh : Spec.healthy sampleEnv) by constructor.
  split; [exact Hrej |]. split.
  - apply (proj2 (proj1 (createTodo_title_validation
                           (CreateTodoData.mk (Some "   ") None None)
                           sampleEnv))).
    exact Hrej.
  - split; [exact Hh |].
    apply (proj2 (proj2 (proj2 (proj2 (createTodo_title_validation
                                         (CreateTodoData.mk None None None)
                                         sampleEnv))))).
    exact Hh.
Defined.

Section CreateRecord.
Import Run Errors Todos.

Lemma validCreate_checks (data : CreateTodoData.t) :
  Spec.validCreate data ->
  exists title,
    CreateTodoData.title data = Some title /\
    titleBlank title = false /\
    titleTooLong title = false /\
    descriptionTooLong (CreateTodoData.description data) = false /\
    priorityInvalid (CreateTodoData.priority data) = false.
Proof.
  intros [Htitle [Hdesc Hprio]]. unfold Spec.titleRejected in Htitle.
  destruct (CreateTodoData.title data) as [title |]; [| tauto].
  exists title. split; [reflexivity |]. split; [| split; [| split]].
  - destruct (titleBlank title) eqn:Hb; [| reflexivity].
    exfalso. apply Htitle. left. now apply titleBlank_iff.
  - unfold titleTooLong.
    destruct (Nat.ltb 255 (String.length (JS.trim title))) eqn:Hl;
      [| reflexivity].
    exfalso. apply Htitle. right. now apply Nat.ltb_lt.
  - unfold descriptionTooLong.
    destruct (CreateTodoData.description data) as [d |]; [| reflexivity].
    apply andb_false_iff. right. apply Nat.ltb_ge. exact Hdesc.
  - unfold priorityInvalid.
    destruct (CreateTodoData.priority data) as [p |]; [| reflexivity].
    destruct Hprio as [-> | [<- | [<- | [<- | []]]]]; reflexivity.
Qed.

(** C7. The record returned by a successful [createTodo] carries the
    trimmed title, the trimmed description (null when none was given or
    when nothing is left of it after trimming), the priority given
    (medium when none was), [completed] false, and one and the same
    value in [createdAt] and [updatedAt]: the clock reading, at the
    whole-second precision of the timestamp columns.  That record is
    the row appended to the table.  Every valid input succeeds when the
    storage answers. *)
Theorem createTodo_record :
  forall (data : CreateTodoData.t) (env : Env),
    (forall todo env',
        createTodo data env = (Ok todo, env') ->
        exists title row,
          CreateTodoData.title data = Some title
          /\ Todo.title todo = JS.trim title
          /\ Todo.description todo
             = match CreateTodoData.description data with
               | Some d =>
                   if JS.isEmpty (JS.trim d) then None
                   else Some (JS.trim d)
               | None => None
               end
          /\ (CreateTodoData.priority data = None ->
              Todo.priority todo = "medium")
          /\ (forall p, CreateTodoData.priority data = Some p ->
                        p <> "" -> Todo.priority todo = p)
          /\ Todo.completed todo = false
          /\ Todo.createdAt todo = Todo.updatedAt todo
          /\ Todo.createdAt todo
             = Schema.timestampFromDriver
                 (Schema.timestampToDriver (clock env))
          /\ table env' = table env ++ [row]
          /\ todo = Todo.ofRow row)
    /\ (Spec.validCreate data -> Spec.healthy env ->
        exists todo env', createTodo data env = (Ok todo, env')).
Proof.
  intros data env. split.
  - intros todo env' Hrun.
    destruct (createTodo_inv _ _ _ _ Hrun)
      as [title [Ht [Hb [Hl [Hd [Hp Hf]]]]]].
    rewrite (createTodo_run data title env Ht Hb Hl Hd Hp Hf) in Hrun.
    injection Hrun as <- <-.
    exists title, (Engine.newRow (Engine.nextId (sequence env) (table env))
                                 (createValues data title (clock env))).
    split; [exact Ht |]. split; [reflexivity |]. split.
    { simpl. destruct (CreateTodoData.description data) as [d |]; simpl;
        [| reflexivity].
      unfold JS.truthy. destruct (JS.isEmpty (JS.trim d)); reflexivity. }
    split. { intros Hnone. simpl. rewrite Hnone. reflexivity. }
    split.
    { intros p Hsome Hne. simpl. rewrite Hsome. simpl.
      destruct p; [congruence | reflexivity]. }
    repeat split.
  - intros Hvalid Hh.
    destruct (validCreate_checks data Hvalid)
      as [title [Ht [Hb [Hl [Hd Hp]]]]].
    do 2 eexists.
    apply (createTodo_run data title env Ht Hb Hl Hd Hp).
    now apply healthy_head.
Qed.

End CreateRecord.

Lemma createTodo_record_witness :
  Spec.validCreate (CreateTodoData.mk (Some "  x  ") (Some " note ") None)
  /\ Spec.healthy sampleEnv
  /\ exists todo env',
       Todos.createTodo
         (CreateTodoData.mk (Some "  x  ") (Some " note ") None) sampleEnv
       = (Run.Ok todo, env')
       /\ Todo.title todo = "x"
       /\ Todo.description todo = Some "note"
       /\ Todo.priority todo = "medium"
       /\ Todo.completed todo = false
       /\ Todo.createdAt todo = Todo.updatedAt todo.
Proof.
  assert (Hv : Spec.validCreate
                 (CreateTodoData.mk (Some "  x  ") (Some " note ") None)).
  { split; [| split].
    - simpl. intros [H | H]; [discriminate H | simpl in H; lia].
    - simpl. lia.
    - exact I. }
  assert (Hh : Spec.healthy sampleEnv) by constructor.
  split; [exact Hv |]. split; [exact Hh |].
  destruct (createTodo_record
              (CreateTodoData.mk (Some "  x  ") (Some " note ") None)
              sampleEnv) as [Hrecord Hruns].
  destruct (Hruns Hv Hh) as [todo [env' Hrun]].
  destruct (Hrecord todo env' Hrun)
    as [title [row [Ht [H1 [H2 [H3 [_ [H5 [H6 _]]]]]]]]].
  exists todo, env'. split; [exact Hrun |].
  injection Ht as <-.
  split; [exact H1 |]. split; [exact H2 |].
  split; [exact (H3 eq_refl) |]. split; [exact H5 | exact H6].
Defined.

(* ===================================================================== *)
(** ** Statistics *)
(* ===================================================================== *)

Section Stats.
Import Run Errors Todos.

Lemma both_ok {A B : Type} (m1 : M A) (m2 : M B) (env env2 : Env)
      (a : A) (b : B) :
  both m1 m2 env = (Ok (a, b), env2) ->
  exists env1, m1 env = (Ok a, env1) /\ m2 env1 = (Ok b, env2).
Proof.
  unfold both. destruct (m1 env) as [r1 env1].
  destruct (m2 env1) as [r2 env2'] eqn:H2.
  destruct r1 as [a' | e1]; [| discriminate].
  destruct r2 as [b' | e2]; [| discriminate].
  intros H. injection H as -> -> ->. exists env1. split; [reflexivity | exact H2].
Qed.

(** A count that succeeds reads the table and leaves it as it is. *)
Lemma selectCount_ok (w : option Engine.Cond) (env env' : Env)
      (result : list nat) :
  selectCount w env = (Ok result, env') ->
  result = [Engine.countRows w (table env)] /\ table env' = table env.
Proof.
  unfold selectCount, call.
  destruct (faults env) as [| [] rest]; intros H;
    try discriminate; injection H as <- <-; split; reflexivity.
Qed.

Lemma healthy_tail (env : Env) (s : Engine.Stmt) (t : list Row.t) (sq : Z) :
  Spec.healthy env ->
  Spec.healthy (mkEnv t sq (trace env ++ [s]) (tl (faults env)) (clock env)).
Proof.
  unfold Spec.healthy. simpl. destruct (faults env); simpl; intros H.
  - constructor.
  - inversion H. assumption.
Qed.

(** On a healthy engine a statement runs. *)
Lemma call_healthy {A : Type} (s : Engine.Stmt)
      (run : Z -> list Row.t -> A * Z * list Row.t) (env : Env) :
  Spec.healthy env ->
  call s run env
  = (Ok (fst (fst (run (sequence env) (table env)))),
     mkEnv (snd (run (sequence env) (table env)))
           (snd (fst (run (sequence env) (table env))))
           (trace env ++ [s]) (tl (faults env)) (clock env)).
Proof.
  intros Hh. apply healthy_head in Hh. unfold call.
  destruct (run (sequence env) (table env)) as [[a sq'] t'].
  destruct (faults env) as [| [] rest]; simpl in *;
    [reflexivity | discriminate | reflexivity].
Qed.

Lemma selectCount_healthy (w : option Engine.Cond) (env : Env) :
  Spec.healthy env ->
  exists env',
    selectCount w env = (Ok [Engine.countRows w (table env)], env')
    /\ table env' = table env /\ Spec.healthy env'.
Proof.
  intros Hh. unfold selectCount. rewrite (call_healthy _ _ _ Hh). simpl.
  eexists. split; [reflexivity |]. split; [reflexivity |].
  now apply healthy_tail.
Qed.

Lemma both_healthy {A B : Type} (m1 : M A) (m2 : M B) (env env1 env2 : Env)
      (a : A) (b : B) :
  m1 env = (Ok a, env1) -> m2 env1 = (Ok b, env2) ->
  both m1 m2 env = (Ok (a, b), env2).
Proof. intros H1 H2. unfold both. rewrite H1, H2. reflexivity. Qed.

Lemma countRows_all (t : list Row.t) :
  Engine.countRows None t = List.length t.
Proof.
  unfold Engine.countRows.
  induction t as [| r t IH]; simpl; [reflexivity | now rewrite IH].
Qed.

(** Every row is completed or pending. *)
Lemma count_by_completed (t : list Row.t) :
  Engine.countRows None t
  = (Engine.countRows (Some (Engine.EqCompleted true)) t
     + Engine.countRows (Some (Engine.EqCompleted false)) t)%nat.
Proof.
  unfold Engine.countRows.
  induction t as [| r t IH]; simpl; [reflexivity |].
  destruct (Row.completed r); simpl; rewrite IH; lia.
Qed.

(** Every row falls under exactly one of the three priorities or under
    none of them. *)
Lemma count_by_priority_exact (t : list Row.t) :
  Engine.countRows None t
  = (Engine.countRows (Some (Engine.EqPriority "low")) t
     + Engine.countRows (Some (Engine.EqPriority "medium")) t
     + Engine.countRows (Some (Engine.EqPriority "high")) t
     + Spec.outsideEnum t)%nat.
Proof.
  unfold Engine.countRows, Spec.outsideEnum.
  induction t as [| r t IH]; [reflexivity |].
  cbn -[String.eqb] in IH |- *.
  destruct (String.eqb (Row.priority r) "low") eqn:El;
    destruct (String.eqb (Row.priority r) "medium") eqn:Em;
    destruct (String.eqb (Row.priority r) "high") eqn:Eh;
    repeat match goal with
           | H : String.eqb _ _ = true |- _ => apply String.eqb_eq in H
           end;
    try congruence; cbn [orb negb List.length]; lia.
Qed.

(** No row is outside the enum exactly when every row is inside it. *)
Lemma outsideEnum_zero (t : list Row.t) :
  Spec.outsideEnum t = O <-> Spec.prioritiesInEnum t.
Proof.
  unfold Spec.outsideEnum, Spec.prioritiesInEnum.
  induction t as [| r t IH]; [split; [constructor | reflexivity] |].
  cbn -[String.eqb] in IH |- *.
  destruct (String.eqb (Row.priority r) "low") eqn:El;
    [| destruct (String.eqb (Row.priority r) "medium") eqn:Em;
       [| destruct (String.eqb (Row.priority r) "high") eqn:Eh]];
    cbn [orb negb List.length];
    repeat match goal with
           | H : String.eqb _ _ = true |- _ => apply String.eqb_eq in H
           | H : String.eqb _ _ = false |- _ => apply String.eqb_neq in H
           end.
  - rewrite IH. split; [intros H; constructor; [| exact H] |
                        intros H; now inversion H].
    left. now symmetry.
  - rewrite IH. split; [intros H; constructor; [| exact H] |
                        intros H; now inversion H].
    right. left. now symmetry.
  - rewrite IH. split; [intros H; constructor; [| exact H] |
                        intros H; now inversion H].
    right. right. left. now symmetry.
  - split; [discriminate |]. intros H. inversion H as [| ? ? Hr _].
    destruct Hr as [E | [E | [E | []]]]; symmetry in E; contradiction.
Qed.

(** The six counts of a successful [getTodoStats] are counts over one
    and the same table. *)
Lemma getTodoStats_ok (env env' : Env) (stats : TodoStats.t) :
  getTodoStats env = (Ok stats, env') ->
  let t := table env in
  stats
  = TodoStats.mk
      (Engine.countRows None t)
      (Engine.countRows (Some (Engine.EqCompleted true)) t)
      (Engine.countRows (Some (Engine.EqCompleted false)) t)
      (TodoStats.mkBy
         (Engine.countRows (Some (Engine.EqPriority "low")) t)
         (Engine.countRows (Some (Engine.EqPriority "medium")) t)
         (Engine.countRows (Some (Engine.EqPriority "high")) t))
  /\ table env' = table env.
Proof.
  unfold getTodoStats, tryCatch, bind.
  match goal with
  | |- context [both ?m1 ?m2 env] =>
      destruct (both m1 m2 env) as [[tuple | e] env1] eqn:Hall
  end; [| discriminate].
  destruct tuple as [r1 [r2 [r3 [r4 [r5 r6]]]]].
  unfold ret. intros H. injection H as <- <-.
  apply both_ok in Hall. destruct Hall as [e1 [H1 Hall]].
  apply both_ok in Hall. destruct Hall as [e2 [H2 Hall]].
  apply both_ok in Hall. destruct Hall as [e3 [H3 Hall]].
  apply both_ok in Hall. destruct Hall as [e4 [H4 Hall]].
  apply both_ok in Hall. destruct Hall as [e5 [H5 H6]].
  apply selectCount_ok in H1, H2, H3, H4, H5, H6.
  destruct H1 as [-> T1], H2 as [-> T2], H3 as [-> T3], H4 as [-> T4],
           H5 as [-> T5], H6 as [-> T6].
  simpl. rewrite T6, T5, T4, T3, T2, T1. split; reflexivity.
Qed.

Lemma getTodoStats_healthy (env : Env) :
  Spec.healthy env ->
  exists stats env', getTodoStats env = (Ok stats, env').
Proof.
  intros H0.
  destruct (selectCount_healthy None env H0) as [e1 [R1 [_ H1]]].
  destruct (selectCount_healthy (Some (Engine.EqCompleted true)) e1 H1)
    as [e2 [R2 [_ H2]]].
  destruct (selectCount_healthy (Some (Engine.EqCompleted false)) e2 H2)
    as [e3 [R3 [_ H3]]].
  destruct (selectCount_healthy (Some (Engine.EqPriority "low")) e3 H3)
    as [e4 [R4 [_ H4]]].
  destruct (selectCount_healthy (Some (Engine.EqPriority "medium")) e4 H4)
    as [e5 [R5 [_ H5]]].
  destruct (selectCount_healthy (Some (Engine.EqPriority "high")) e5 H5)
    as [e6 [R6 _]].
  pose proof (both_healthy _ _ _ _ _ _ _ R5 R6) as B5.
  pose proof (both_healthy _ _ _ _ _ _ _ R4 B5) as B4.
  pose proof (both_healthy _ _ _ _ _ _ _ R3 B4) as B3.
  pose proof (both_healthy _ _ _ _ _ _ _ R2 B3) as B2.
  pose proof (both_healthy _ _ _ _ _ _ _ R1 B2) as B1.
  unfold getTodoStats, tryCatch, bind. rewrite B1.
  do 2 eexists. reflexivity.
Qed.

(** C8, as amended.  The six counts of [getTodoStats] are taken on one
    table (the model has no writer running between them, and the counts
    leave the table as it is).  Its snapshot satisfies
    [total = completed + pending] on every table.  The three counts by
    priority are counts of the rows holding low, medium and high, and the
    column takes any text, so
    [total = byPriority.low + byPriority.medium + byPriority.high
             + the number of rows whose priority is none of the three];
    the total is the sum of the three exactly when every row holds one of
    the three priorities.  With a storage that answers, the snapshot is
    returned. *)
Theorem getTodoStats_totals :
  forall (env : Env),
    (forall stats env',
        getTodoStats env = (Ok stats, env') ->
        TodoStats.total stats
        = (TodoStats.completed stats + TodoStats.pending stats)%nat
        /\ TodoStats.total stats
           = (TodoStats.low (TodoStats.byPriority stats)
              + TodoStats.medium (TodoStats.byPriority stats)
              + TodoStats.high (TodoStats.byPriority stats)
              + Spec.outsideEnum (table env))%nat
        /\ (TodoStats.total stats
            = (TodoStats.low (TodoStats.byPriority stats)
               + TodoStats.medium (TodoStats.byPriority stats)
               + TodoStats.high (TodoStats.byPriority stats))%nat
            <-> Spec.prioritiesInEnum (table env))
        /\ TodoStats.total stats = List.length (table env)
        /\ table env' = table env)
    /\ (Spec.healthy env ->
        exists stats env', getTodoStats env = (Ok stats, env')).
Proof.
  intros env. split; [| apply getTodoStats_healthy].
  intros stats env' Hrun.
  apply getTodoStats_ok in Hrun. cbv zeta in Hrun.
  destruct Hrun as [-> Htable].
  cbn [TodoStats.total TodoStats.completed TodoStats.pending
       TodoStats.byPriority TodoStats.low TodoStats.medium TodoStats.high].
  pose proof (count_by_priority_exact (table env)) as Hexact.
  split; [apply count_by_completed |].
  split; [exact Hexact |].
  split; [| split; [apply countRows_all | exact Htable]].
  rewrite <- outsideEnum_zero. lia.
Qed.

End Stats.

Lemma getTodoStats_totals_witness :
  Todos.getTodoStats sampleEnv
  = (Run.Ok sampleStats, snd (Todos.getTodoStats sampleEnv))
  /\ Spec.prioritiesInEnum (Run.table sampleEnv)
  /\ TodoStats.total sampleStats
     = (TodoStats.completed sampleStats + TodoStats.pending sampleStats)%nat
  /\ TodoStats.total sampleStats
     = (TodoStats.low (TodoStats.byPriority sampleStats)
        + TodoStats.medium (TodoStats.byPriority sampleStats)
        + TodoStats.high (TodoStats.byPriority sampleStats))%nat.
Proof.
  assert (Hrun : Todos.getTodoStats sampleEnv
                 = (Run.Ok sampleStats, snd (Todos.getTodoStats sampleEnv)))
    by reflexivity.
  assert (Henum : Spec.prioritiesInEnum (Run.table sampleEnv)).
  { constructor; [right; left; reflexivity | constructor]. }
  destruct (proj1 (getTodoStats_totals sampleEnv) _ _ Hrun)
    as [H1 [_ [H2 _]]].
  split; [exact Hrun |]. split; [exact Henum |].
  split; [exact H1 | exact (proj2 H2 Henum)].
Defined.

(** C8, counterexample.  The claim's second identity fails on a table the
    layer itself can write: [updateTodo] lets the empty priority through
    its guard and stores it, and on the table that results the snapshot
    has total 1 and the three counts by priority 0, 0 and 0. *)
Lemma getTodoStats_totals_counterexample :
  fst (Todos.updateTodo (JS.Num (inject_Z 1))
                        (UpdateTodoData.mk None None None (Some ""))
                        sampleEnv)
  = Run.Ok (Some (Todo.mk 1 "Buy milk" (Some "two litres") false ""
                          1700000000000 1700000005000))
  /\ fst (Todos.getTodoStats
            (snd (Todos.updateTodo
                    (JS.Num (inject_Z 1))
                    (UpdateTodoData.mk None None None (Some ""))
                    sampleEnv)))
     = Run.Ok (TodoStats.mk 1 0 1 (TodoStats.mkBy 0 0 0))
  /\ ~ (forall (env env' : Run.Env) (stats : TodoStats.t),
          Todos.getTodoStats env = (Run.Ok stats, env') ->
          TodoStats.total stats
          = (TodoStats.low (TodoStats.byPriority stats)
             + TodoStats.medium (TodoStats.byPriority stats)
             + TodoStats.high (TodoStats.byPriority stats))%nat).
Proof.
  split; [reflexivity |]. split; [reflexivity |].
  intros H.
  specialize (H (snd (Todos.updateTodo
                        (JS.Num (inject_Z 1))
                        (UpdateTodoData.mk None None None (Some ""))
                        sampleEnv))
                _ _ eq_refl).
  discriminate H.
Qed.

(* ===================================================================== *)
(** ** Updating a record *)
(* ===================================================================== *)

Section Update.
Import Run Errors Todos.

(** A successful [updateTodo] sent one UPDATE: the table is rewritten
    row by row with the object built from the data and the clock. *)
Lemma updateTodo_ok (id : JS.number) (data : UpdateTodoData.t)
      (env env' : Env) (result : option Todo.t) :
  updateTodo id data env = (Ok result, env') ->
  let u := updateData data (clock env) in
  env' = mkEnv (Engine.updateRows u (Engine.EqId id) (table env))
               (sequence env)
               (trace env ++ [Engine.Update u (Engine.EqId id) true])
               (tl (faults env)) (clock env)
  /\ result = hd_error (map (fun r => Todo.ofRow (Engine.applySet u r))
                            (filter (Engine.holds (Engine.EqId id))
                                    (table env)))
  /\ invalidId id = false
  /\ updateTitleError (UpdateTodoData.title data) = None
  /\ descriptionTooLong (UpdateTodoData.description data) = false
  /\ priorityInvalid (UpdateTodoData.priority data) = false.
Proof.
  unfold updateTodo.
  destruct (invalidId id) eqn:Hid; [discriminate |].
  destruct (updateTitleError _) eqn:Ht; [discriminate |].
  destruct (descriptionTooLong _) eqn:Hd; [discriminate |].
  destruct (priorityInvalid _) eqn:Hp; [discriminate |].
  unfold tryCatch, bind, newDate, updateReturning, call.
  destruct (faults env) as [| [] rest]; simpl; intros H;
    try discriminate; injection H as <- <-; repeat split.
Qed.

(** Once every check has passed and the engine does not raise,
    [updateTodo] succeeds. *)
Lemma updateTodo_run (id : JS.number) (data : UpdateTodoData.t)
      (env : Env) :
  invalidId id = false ->
  updateTitleError (UpdateTodoData.title data) = None ->
  descriptionTooLong (UpdateTodoData.description data) = false ->
  priorityInvalid (UpdateTodoData.priority data) = false ->
  hd false (faults env) = false ->
  exists result env', updateTodo id data env = (Ok result, env').
Proof.
  intros Hid Ht Hd Hp Hf. unfold updateTodo. rewrite Hid, Ht, Hd, Hp.
  unfold tryCatch, bind, newDate, updateReturning, call.
  destruct (faults env) as [| [] rest]; simpl in *;
    try discriminate; do 2 eexists; reflexivity.
Qed.

Lemma updateData_title (data : UpdateTodoData.t) (now : Schema.Date) :
  UpdateSet.title (updateData data now)
  = trimOpt (UpdateTodoData.title data).
Proof.
  destruct data as [[title |] [description |] completed priority];
    reflexivity.
Qed.

Lemma updateData_description (data : UpdateTodoData.t) (now : Schema.Date) :
  UpdateSet.description (updateData data now)
  = orElse (trimOpt (UpdateTodoData.description data)) None.
Proof.
  destruct data as [[title |] [description |] completed priority];
    reflexivity.
Qed.

Lemma updateData_rest (data : UpdateTodoData.t) (now : Schema.Date) :
  UpdateSet.completed (updateData data now) = UpdateTodoData.completed data
  /\ UpdateSet.priority (updateData data now) = UpdateTodoData.priority data
  /\ UpdateSet.updatedAt (updateData data now) = now.
Proof.
  destruct data as [[title |] [description |] completed priority];
    repeat split.
Qed.

(** What SET leaves alone in a row. *)
Lemma applySet_frame (data : UpdateTodoData.t) (now : Schema.Date)
      (r : Row.t) :
  let r' := Engine.applySet (updateData data now) r in
  Row.id r' = Row.id r
  /\ Row.createdAt r' = Row.createdAt r
  /\ Row.updatedAt r' = Schema.timestampToDriver now
  /\ (UpdateTodoData.title data = None -> Row.title r' = Row.title r)
  /\ (UpdateTodoData.description data = None ->
      Row.description r' = Row.description r)
  /\ (UpdateTodoData.completed data = None ->
      Row.completed r' = Row.completed r)
  /\ (UpdateTodoData.priority data = None ->
      Row.priority r' = Row.priority r).
Proof.
  destruct (updateData_rest data now) as [Hc [Hp Hu]].
  cbv zeta. unfold Engine.applySet. simpl.
  rewrite updateData_title, updateData_description, Hc, Hp, Hu.
  repeat split; intros ->; reflexivity.
Qed.

Lemma timestamp_not_before (stored : Z) (now : Schema.Date) :
  Schema.timestampFromDriver stored <= now ->
  stored <= Schema.timestampToDriver now.
Proof.
  unfold Schema.timestampFromDriver, Schema.timestampToDriver. intros H.
  apply Z.div_le_lower_bound; lia.
Qed.

(** C2. After a successful [updateTodo] the table has the same rows in
    the same places, and every row of it, the updated record included,
    kept its id and its [createdAt]; its [updatedAt] did not go back
    (the clock reading being no earlier than the stored [updatedAt]);
    and each of [title], [description], [completed] and [priority] that
    the partial data leaves out kept its stored value.  Rows with
    another id are left as they were. *)
Theorem updateTodo_frame :
  forall (id : JS.number) (data : UpdateTodoData.t) (env env' : Env)
         (result : option Todo.t),
    updateTodo id data env = (Ok result, env') ->
    List.length (table env') = List.length (table env)
    /\ forall (i : nat) (r : Row.t),
        nth_error (table env) i = Some r ->
        exists r',
          nth_error (table env') i = Some r'
          /\ Row.id r' = Row.id r
          /\ Row.createdAt r' = Row.createdAt r
          /\ (Schema.timestampFromDriver (Row.updatedAt r) <= clock env ->
              Row.updatedAt r <= Row.updatedAt r')
          /\ (UpdateTodoData.title data = None ->
              Row.title r' = Row.title r)
          /\ (UpdateTodoData.description data = None ->
              Row.description r' = Row.description r)
          /\ (UpdateTodoData.completed data = None ->
              Row.completed r' = Row.completed r)
          /\ (UpdateTodoData.priority data = None ->
              Row.priority r' = Row.priority r)
          /\ (Engine.eqId id (Row.id r) = false -> r' = r)
          /\ (Engine.eqId id (Row.id r) = true ->
              Row.updatedAt r' = Schema.timestampToDriver (clock env)).
Proof.
  intros id data env env' result Hrun.
  apply updateTodo_ok in Hrun. cbv zeta in Hrun.
  destruct Hrun as [-> _]. simpl. unfold Engine.updateRows.
  split; [apply length_map |].
  intros i r Hi. rewrite nth_error_map, Hi. simpl.
  eexists. split; [reflexivity |].
  destruct (Engine.eqId id (Row.id r)) eqn:Hmatch.
  - destruct (applySet_frame data (clock env) r)
      as [H1 [H2 [H3 [H4 [H5 [H6 H7]]]]]].
    cbv zeta in *.
    split; [exact H1 |]. split; [exact H2 |]. split.
    { intros Hclock. rewrite H3. now apply timestamp_not_before. }
    split; [exact H4 |]. split; [exact H5 |]. split; [exact H6 |].
    split; [exact H7 |]. split; [discriminate | intros _; exact H3].
  - repeat split; first [reflexivity | lia | discriminate].
Qed.

End Update.

(* ===================================================================== *)
(** ** Bulk update *)
(* ===================================================================== *)

Section Bulk.
Import Run Errors Todos.

Variable u : UpdateSet.t.

Lemma bind_ext {A B : Type} (m : M A) (k1 k2 : A -> M B) (env : Env) :
  (forall a env1, k1 a env1 = k2 a env1) ->
  bind m k1 env = bind m k2 env.
Proof.
  intros H. unfold bind. destruct (m env) as [[a | e] env1];
    [apply H | reflexivity].
Qed.

Lemma bind_assoc {A B C : Type} (m : M A) (k : A -> M B) (h : B -> M C)
      (env : Env) :
  bind (bind m k) h env = bind m (fun a => bind (k a) h) env.
Proof.
  unfold bind. destruct (m env) as [[a | e] env1]; reflexivity.
Qed.

Lemma applySet_id (r : Row.t) : Row.id (Engine.applySet u r) = Row.id r.
Proof. reflexivity. Qed.


(** The UPDATE of one id reports a change exactly when the id names a
    row. *)
Lemma changed_iff_hasRow (t : list Row.t) (id : JS.number) :
  rowsChanged
    (Engine.d1Result
       (List.length (filter (Engine.holds (Engine.EqId id)) t)))
  = Spec.hasRow t id.
Proof.
  unfold rowsChanged, Spec.hasRow. simpl.
  induction t as [| r t IH]; simpl; [reflexivity |].
  destruct (Engine.eqId id (Row.id r)); simpl; [reflexivity | exact IH].
Qed.

Lemma updateBatch_app (l1 l2 : list JS.number) :
  forall (count : nat) (env : Env),
    updateBatch u (l1 ++ l2) count env
    = bind (updateBatch u l1 count)
           (fun count' => updateBatch u l2 count') env.
Proof.
  induction l1 as [| id l1 IH]; intros count env; [reflexivity |].
  cbn [app updateBatch]. rewrite bind_assoc.
  apply bind_ext. intros result env1. apply IH.
Qed.

(** The batches, taken one after the other, are the ids taken one after
    the other: from index [i] on, the loop over batches does what the
    loop over the remaining ids does, provided it is given enough
    steps. *)
Lemma updateBatches_flat (ids : list JS.number) :
  forall (steps i count : nat) (env : Env),
    (List.length ids - i <= steps)%nat ->
    updateBatches steps u ids i count env
    = updateBatch u (skipn i ids) count env.
Proof.
  induction steps as [| steps IH]; intros i count env Hsteps.
  - rewrite skipn_all2 by lia. reflexivity.
  - simpl. destruct (Nat.ltb_spec i (List.length ids)) as [Hlt | Hge].
    + unfold JS.slice, batchSize.
      replace (i + 50 - i)%nat with 50%nat by lia.
      transitivity
        (updateBatch u (firstn 50 (skipn i ids) ++ skipn 50 (skipn i ids))
                     count env);
        [| now rewrite firstn_skipn].
      rewrite updateBatch_app. unfold bind.
      destruct (updateBatch u (firstn 50 (skipn i ids)) count env)
        as [[count' | e] env1]; [| reflexivity].
      rewrite IH by lia. rewrite skipn_skipn.
      replace (50 + i)%nat with (i + 50)%nat by lia. reflexivity.
    + rewrite skipn_all2 by lia. reflexivity.
Qed.


(** A statement that ran met no fault. *)
Lemma call_ok {A : Type} (s : Engine.Stmt)
      (run : Z -> list Row.t -> A * Z * list Row.t) (env env' : Env)
      (a : A) :
  call s run env = (Ok a, env') ->
  a = fst (fst (run (sequence env) (table env)))
  /\ env' = mkEnv (snd (run (sequence env) (table env)))
                  (snd (fst (run (sequence env) (table env))))
                  (trace env ++ [s]) (tl (faults env)) (clock env).
Proof.
  unfold call.
  destruct (run (sequence env) (table env)) as [[a' sq'] t'].
  destruct (faults env) as [| [] rest]; intros H; try discriminate;
    injection H as <- <-; split; reflexivity.
Qed.


End Bulk.

Section BulkUpdate.
Import Run Errors Todos.


End BulkUpdate.

(* ===================================================================== *)
(** ** The description field *)
(* ===================================================================== *)

Section Description.
Import Run Errors Todos.

(** The length check on the description reads the string as given. *)
Lemma descriptionTooLong_iff (description : option string) :
  descriptionTooLong description = true
  <-> exists d, description = Some d /\ (1000 < String.length d)%nat.
Proof.
  unfold descriptionTooLong. destruct description as [d |].
  - rewrite andb_true_iff, Nat.ltb_lt. split.
    + intros [_ H]. exists d. auto.
    + intros [d' [Hd H]]. injection Hd as <-. split; [| exact H].
      destruct d; [simpl in H; lia | reflexivity].
  - split; [discriminate | intros [d [H _]]; discriminate].
Qed.

(** [createTodo] raises the Validation error on [description] exactly
    when the title is accepted and the description as given, before any
    trimming, is longer than 1000 characters. *)
Lemma createTodo_description_validation (data : CreateTodoData.t)
      (env : Env) :
  (exists msg,
      fst (createTodo data env) = Throw (validation msg "description"))
  <-> (~ Spec.titleRejected (CreateTodoData.title data)
       /\ exists d, CreateTodoData.description data = Some d
                    /\ (1000 < String.length d)%nat).
Proof.
  rewrite <- descriptionTooLong_iff. unfold Spec.titleRejected, createTodo.
  destruct (CreateTodoData.title data) as [title |].
  - destruct (titleBlank title) eqn:Hb.
    { apply titleBlank_iff in Hb. split.
      - intros [msg H]. simpl in H. unfold validation in H. congruence.
      - intros [H _]. tauto. }
    destruct (titleTooLong title) eqn:Hl.
    { apply Nat.ltb_lt in Hl. split.
      - intros [msg H]. simpl in H. unfold validation in H. congruence.
      - intros [H _]. tauto. }
    destruct (descriptionTooLong _) eqn:Hd.
    { split.
      - intros _. split; [| reflexivity].
        intros [H | H].
        + apply titleBlank_iff in H. congruence.
        + apply Nat.ltb_lt in H. unfold titleTooLong in Hl. congruence.
      - intros _. eexists. reflexivity. }
    split; [| intros [_ H]; discriminate].
    intros [msg H]. exfalso. revert H.
    destruct (priorityInvalid _);
      [simpl; unfold validation; congruence |].
    unfold tryCatch, bind, newDate, insertReturning, call.
    destruct (faults env) as [| [] rest]; simpl;
      unfold validation, database; congruence.
  - split.
    + intros [msg H]. simpl in H. unfold validation in H. congruence.
    + intros [H _]. tauto.
Qed.

(** [updateTodo] raises the Validation error on [description] exactly
    when the id and the title, if given, are accepted and the description
    as given is longer than 1000 characters. *)
Lemma updateTodo_description_validation (id : JS.number)
      (data : UpdateTodoData.t) (env : Env) :
  (exists msg,
      fst (updateTodo id data env) = Throw (validation msg "description"))
  <-> (invalidId id = false
       /\ updateTitleError (UpdateTodoData.title data) = None
       /\ exists d, UpdateTodoData.description data = Some d
                    /\ (1000 < String.length d)%nat).
Proof.
  rewrite <- descriptionTooLong_iff. unfold updateTodo.
  destruct (invalidId id).
  { split; [intros [msg H]; simpl in H; unfold validation in H; congruence
           | intros [H _]; discriminate]. }
  destruct (updateTitleError (UpdateTodoData.title data)) as [e |] eqn:Ht.
  { split; [| intros [_ [H _]]; discriminate].
    intros [msg H]. exfalso. revert Ht H. unfold updateTitleError.
    destruct (UpdateTodoData.title data) as [t |]; [| discriminate].
    destruct (titleBlank t);
      [intros H; injection H as <-; simpl; unfold validation; congruence |].
    destruct (titleTooLong t); [| discriminate].
    intros H; injection H as <-; simpl; unfold validation; congruence. }
  destruct (descriptionTooLong _).
  { split; [auto | intros _; eexists; reflexivity]. }
  split; [| intros [_ [_ H]]; discriminate].
  intros [msg H]. exfalso. revert H.
  destruct (priorityInvalid _); [simpl; unfold validation; congruence |].
  unfold tryCatch, bind, newDate, updateReturning, call.
  destruct (faults env) as [| [] rest]; simpl;
    unfold validation, database; congruence.
Qed.

(** C4 (the code departs from the claim). [paddedDescription] is 1000
    characters long once trimmed, yet [createTodo] and [updateTodo]
    raise the Validation error on [description] for it: the check
    measures the description as given, where the check on the title
    measures the trimmed title. *)
Theorem description_limit_counts_untrimmed :
  String.length (JS.trim paddedDescription) = 1000%nat
  /\ String.length paddedDescription = 1001%nat
  /\ (forall env,
         createTodo
           (CreateTodoData.mk (Some "a") (Some paddedDescription) None) env
         = (Throw (validation
                     (Msg "Description must be 1000 characters or less")
                     "description"), env))
  /\ (forall env,
         updateTodo (JS.Num 1)
           (UpdateTodoData.mk None (Some paddedDescription) None None) env
         = (Throw (validation
                     (Msg "Description must be 1000 characters or less")
                     "description"), env)).
Proof.
  split; [vm_compute; reflexivity |].
  split; [vm_compute; reflexivity |].
  split; intros env; vm_compute; reflexivity.
Qed.

(** What [updateTodo] stores for a description that is given: its
    trimmed text when something is left of it, and otherwise nothing at
    all, the column keeping what it held. *)
Lemma updateTodo_description_stored (id : JS.number)
      (data : UpdateTodoData.t) (d : string) (env env' : Env)
      (result : option Todo.t) :
  UpdateTodoData.description data = Some d ->
  updateTodo id data env = (Ok result, env') ->
  forall (i : nat) (r : Row.t),
    nth_error (table env) i = Some r ->
    Engine.eqId id (Row.id r) = true ->
    exists r',
      nth_error (table env') i = Some r'
      /\ Row.description r'
         = if JS.isEmpty (JS.trim d) then Row.description r
           else Some (JS.trim d).
Proof.
  intros Hd Hrun i r Hi Hmatch.
  apply updateTodo_ok in Hrun. cbv zeta in Hrun.
  destruct Hrun as [-> _]. simpl. unfold Engine.updateRows.
  rewrite nth_error_map, Hi. simpl. rewrite Hmatch.
  eexists. split; [reflexivity |].
  unfold Engine.applySet. simpl.
  rewrite updateData_description, Hd. simpl. unfold JS.truthy.
  destruct (JS.isEmpty (JS.trim d)); reflexivity.
Qed.

(** C5 (the code departs from the claim). On a row whose description is
    ["two litres"], [updateTodo] with the white-space-only description
    ["   "] succeeds and leaves ["two litres"] in the table and in the
    record it returns: the trimmed, empty text becomes [undefined], a
    key the SET clause leaves out, where [createTodo] writes null for
    the same input. *)
Theorem updateTodo_blank_description_keeps_old :
  Row.description sampleRow = Some "two litres"
  /\ (exists todo env',
         updateTodo (JS.Num 1)
                    (UpdateTodoData.mk None (Some "   ") None None)
                    sampleEnv
         = (Ok (Some todo), env')
         /\ Todo.description todo = Some "two litres"
         /\ map Row.description (table env') = [Some "two litres"])
  /\ (exists todo env',
         createTodo (CreateTodoData.mk (Some "Buy milk") (Some "   ") None)
                    sampleEnv
         = (Ok todo, env')
         /\ Todo.description todo = None).
Proof.
  split; [reflexivity |]. split.
  - do 2 eexists. split; [vm_compute; reflexivity |].
    split; reflexivity.
  - do 2 eexists. split; [vm_compute; reflexivity | reflexivity].
Qed.

End Description.

Lemma updateTodo_frame_witness :
  Todos.updateTodo (JS.Num 1) sampleUpdate sampleEnv
  = (Run.Ok (Some (Todo.mk 1 "Buy oat milk" (Some "two litres") true "medium"
                           1700000000000 1700000005000)),
     snd (Todos.updateTodo (JS.Num 1) sampleUpdate sampleEnv))
  /\ Schema.timestampFromDriver (Row.updatedAt sampleRow)
     <= Run.clock sampleEnv
  /\ exists r',
       nth_error
         (Run.table (snd (Todos.updateTodo (JS.Num 1) sampleUpdate sampleEnv)))
         0
       = Some r'
       /\ Row.createdAt r' = Row.createdAt sampleRow
       /\ Row.updatedAt sampleRow <= Row.updatedAt r'
       /\ Row.description r' = Row.description sampleRow
       /\ Row.priority r' = Row.priority sampleRow.
Proof.
  assert (Hrun : Todos.updateTodo (JS.Num 1) sampleUpdate sampleEnv
                 = (Run.Ok (Some (Todo.mk 1 "Buy oat milk" (Some "two litres")
                                          true "medium"
                                          1700000000000 1700000005000)),
                    snd (Todos.updateTodo (JS.Num 1) sampleUpdate sampleEnv)))
    by reflexivity.
  assert (Hclock : Schema.timestampFromDriver (Row.updatedAt sampleRow)
                   <= Run.clock sampleEnv)
    by (vm_compute; discriminate).
  split; [exact Hrun |]. split; [exact Hclock |].
  destruct (updateTodo_frame _ _ _ _ _ Hrun) as [_ Hrows].
  destruct (Hrows O sampleRow eq_refl)
    as [r' [Hnth [_ [Hcreated [Hupdated [_ [Hdesc [_ [Hprio _]]]]]]]]].
  exists r'. split; [exact Hnth |]. split; [exact Hcreated |].
  split; [exact (Hupdated Hclock) |].
  split; [exact (Hdesc eq_refl) | exact (Hprio eq_refl)].
Defined.


(* ===================================================================== *)
(** ** Invariants of the table *)
(* ===================================================================== *)

(** The two conditions on the table that the statements above rely on,
    rows stamped no later than the clock reads and priorities within the
    column enum, hold of the empty table and are kept by the operations
    that write. *)

Section Invariants.
Import Run Errors Todos.

Lemma stamp_not_later (now : Schema.Date) :
  Schema.timestampFromDriver (Schema.timestampToDriver now) <= now.
Proof.
  unfold Schema.timestampFromDriver, Schema.timestampToDriver.
  rewrite Z.mul_comm. apply Z.mul_div_le. lia.
Qed.

Lemma priority_checked (priority : option string) :
  priorityInvalid priority = false ->
  In (orString priority "medium") Schema.priorityEnum.
Proof.
  unfold priorityInvalid, orString, Schema.priorityEnum.
  destruct priority as [p |]; [| intros _; right; left; reflexivity].
  destruct (JS.truthy p); [| intros _; right; left; reflexivity].
  simpl. rewrite negb_false_iff, !orb_true_iff, !String.eqb_eq.
  intros [<- | [<- | [<- | H]]]; simpl; auto. discriminate.
Qed.

(** Whatever its outcome, [createTodo] keeps both conditions. *)
Lemma createTodo_keeps (data : CreateTodoData.t) (env env' : Env)
      (outcome : Outcome Todo.t) :
  createTodo data env = (outcome, env') ->
  (Spec.timely env -> Spec.timely env')
  /\ (Spec.prioritiesInEnum (table env) ->
      Spec.prioritiesInEnum (table env'))
  /\ clock env' = clock env.
Proof.
  unfold createTodo.
  destruct (CreateTodoData.title data) as [title |];
    [| intros H; injection H as _ <-; auto].
  destruct (titleBlank title); [intros H; injection H as _ <-; auto |].
  destruct (titleTooLong title); [intros H; injection H as _ <-; auto |].
  destruct (descriptionTooLong _); [intros H; injection H as _ <-; auto |].
  destruct (priorityInvalid _) eqn:Hp; [intros H; injection H as _ <-; auto |].
  assert (Hrow : forall values t,
             values = createValues data title (clock env) ->
             (Spec.timely env ->
              Forall (fun r => Schema.timestampFromDriver (Row.updatedAt r)
                               <= clock env)
                     (table env ++ [Engine.newRow t values]))
             /\ (Spec.prioritiesInEnum (table env) ->
                 Spec.prioritiesInEnum (table env ++ [Engine.newRow t values]))).
  { intros values t ->. split; intros Hinv; apply Forall_app;
      (split; [exact Hinv |]); (constructor; [| constructor]); simpl.
    - apply stamp_not_later.
    - now apply priority_checked. }
  unfold tryCatch, bind, newDate, insertReturning, call.
  destruct (faults env) as [| [] rest]; simpl; intros H;
    injection H as _ <-; simpl; auto;
    destruct (Hrow _ (Engine.nextId (sequence env) (table env)) eq_refl)
      as [H1 H2]; auto.
Qed.

(** [updateTodo] keeps the rows timely, and it keeps the priorities within
    the enum for every priority of the declared type: the check turns
    away every other text but the empty string, which the declared type
    excludes and which would be stored as given. *)
Lemma updateTodo_keeps (id : JS.number) (data : UpdateTodoData.t)
      (env env' : Env) (result : option Todo.t) :
  updateTodo id data env = (Ok result, env') ->
  (Spec.timely env -> Spec.timely env')
  /\ (UpdateTodoData.priority data <> Some "" ->
      Spec.prioritiesInEnum (table env) ->
      Spec.prioritiesInEnum (table env')).
Proof.
  intros Hrun. apply updateTodo_ok in Hrun. cbv zeta in Hrun.
  destruct Hrun as [-> [_ [_ [_ [_ Hp]]]]].
  unfold Spec.timely, Spec.prioritiesInEnum, Engine.updateRows. simpl.
  destruct (updateData_rest data (clock env)) as [_ [Hprio Hnow]].
  split.
  - intros Hinv. apply Forall_map. eapply Forall_impl; [| exact Hinv].
    intros r Hr. destruct (Engine.eqId id (Row.id r)); [| exact Hr].
    simpl. rewrite Hnow. apply stamp_not_later.
  - intros Hne Hinv. apply Forall_map. eapply Forall_impl; [| exact Hinv].
    intros r Hr. destruct (Engine.eqId id (Row.id r)); [| exact Hr].
    simpl. rewrite Hprio.
    destruct (UpdateTodoData.priority data) as [p |]; [| exact Hr].
    pose proof (priority_checked (Some p) Hp) as Hin.
    unfold orString in Hin. destruct p; [congruence | exact Hin].
Qed.

(** Time passing keeps the rows timely. *)
Lemma later_timely (env : Env) (now : Z) :
  clock env <= now ->
  Spec.timely env ->
  Spec.timely (mkEnv (table env) (sequence env) (trace env) (faults env) now).
Proof.
  unfold Spec.timely. simpl. intros Hnow Hinv.
  eapply Forall_impl; [| exact Hinv]. simpl. intros r Hr. lia.
Qed.

End Invariants.

(* ===================================================================== *)
(** ** Statements and their outcomes *)
(* ===================================================================== *)

Section Calls.
Import Run Errors Todos.

(** A round trip either meets a fault and raises, the table being left
    alone, or runs the statement. *)
Lemma call_inv {A : Type} (s : Engine.Stmt)
      (run : Z -> list Row.t -> A * Z * list Row.t) (env env' : Env)
      (outcome : Outcome A) :
  call s run env = (outcome, env') ->
  (outcome = Throw DriverError /\ ~ Spec.healthy env
   /\ env' = Props.sent env s)
  \/ (outcome = Ok (fst (fst (run (sequence env) (table env))))
      /\ env' = mkEnv (snd (run (sequence env) (table env)))
                      (snd (fst (run (sequence env) (table env))))
                      (trace env ++ [s]) (tl (faults env)) (clock env)).
Proof.
  unfold call, Props.sent, Spec.healthy.
  destruct (run (sequence env) (table env)) as [[a sq'] t'].
  destruct (faults env) as [| [] rest]; intros H; injection H as <- <-;
    auto.
  left. split; [reflexivity |]. split; [| reflexivity].
  intros Hh. inversion Hh. discriminate.
Qed.

(** A SELECT either raises or returns the selected rows; either way it
    only adds itself to the trace. *)
Lemma select_inv (q : Engine.Query) (env env' : Env)
      (outcome : Outcome (list Todo.t)) :
  select q env = (outcome, env') ->
  env' = Props.sent env (Engine.Select q)
  /\ ((outcome = Throw DriverError /\ ~ Spec.healthy env)
      \/ outcome = Ok (map Todo.ofRow (Engine.runSelect q (table env)))).
Proof.
  unfold select. intros H. apply call_inv in H. simpl in H.
  destruct H as [[-> [Hh ->]] | [-> ->]]; auto.
Qed.

Lemma selectCount_inv (w : option Engine.Cond) (env env' : Env)
      (outcome : Outcome (list nat)) :
  selectCount w env = (outcome, env') ->
  env' = Props.sent env (Engine.SelectCount w)
  /\ ((outcome = Throw DriverError /\ ~ Spec.healthy env)
      \/ outcome = Ok [Engine.countRows w (table env)]).
Proof.
  unfold selectCount. intros H. apply call_inv in H. simpl in H.
  destruct H as [[-> [Hh ->]] | [-> ->]]; auto.
Qed.

Lemma sent_healthy (env : Env) (s : Engine.Stmt) :
  Spec.healthy env -> Spec.healthy (Props.sent env s).
Proof. apply healthy_tail. Qed.

(** A query wrapped in [try]/[catch] that rethrows a Database error. *)
Lemma guarded_query (q : Engine.Query) (message : Message) :
  Props.guarded
    (tryCatch (select q) (fun error => throw (database message)))
  /\ Props.readOnly
       (tryCatch (select q) (fun error => throw (database message))).
Proof.
  split; intros env outcome env'; unfold tryCatch;
    destruct (select q env) as [r env1] eqn:Hsel;
    apply select_inv in Hsel; destruct Hsel as [-> [[-> Hh] | ->]];
    intros H; injection H as <- <-; simpl; auto.
  right. split; [eexists; reflexivity | exact Hh].
Qed.

End Calls.

(* ===================================================================== *)
(** ** What the operations raise, and what the readers leave alone *)
(* ===================================================================== *)

Section Guards.
Import Run Errors Todos.

Lemma plain_ret {A : Type} (a : A) : Props.plain (ret a).
Proof.
  intros env outcome env' H. injection H as <- <-.
  split; [auto | discriminate].
Qed.

Lemma plain_newDate : Props.plain newDate.
Proof.
  intros env outcome env' H. injection H as <- <-.
  split; [auto | discriminate].
Qed.

Lemma plain_call {A : Type} (s : Engine.Stmt)
      (run : Z -> list Row.t -> A * Z * list Row.t) :
  Props.plain (call s run).
Proof.
  intros env outcome env' H. split.
  - intros Hh. rewrite (call_healthy _ _ _ Hh) in H. injection H as _ <-.
    now apply healthy_tail.
  - intros e ->. apply call_inv in H.
    destruct H as [[He [Hh _]] | [He _]]; [| discriminate].
    injection He as <-. auto.
Qed.

Lemma plain_bind {A B : Type} (m : M A) (k : A -> M B) :
  Props.plain m -> (forall a, Props.plain (k a)) -> Props.plain (bind m k).
Proof.
  intros Hm Hk env outcome env'. unfold bind.
  destruct (m env) as [[a | e] env1] eqn:Hrun; intros H.
  - destruct (Hm _ _ _ Hrun) as [Hm1 _].
    destruct (Hk a _ _ _ H) as [Hk1 Hk2]. split; [auto |].
    intros e He. destruct (Hk2 e He) as [-> Hh]. auto.
  - injection H as <- <-. destruct (Hm _ _ _ Hrun) as [Hm1 Hm2].
    split; [exact Hm1 |]. intros e0 He. injection He as <-.
    apply (Hm2 e eq_refl).
Qed.

Lemma plain_both {A B : Type} (m1 : M A) (m2 : M B) :
  Props.plain m1 -> Props.plain m2 -> Props.plain (both m1 m2).
Proof.
  intros H1 H2 env outcome env'. unfold both.
  destruct (m1 env) as [r1 env1] eqn:R1.
  destruct (m2 env1) as [r2 env2] eqn:R2.
  destruct (H1 _ _ _ R1) as [K1 E1]. destruct (H2 _ _ _ R2) as [K2 E2].
  destruct r1 as [a | e1]; [destruct r2 as [b | e2] |];
    intros H; injection H as <- <-; (split; [auto |]); intros e He;
    try discriminate; injection He as <-.
  - destruct (E2 _ eq_refl) as [-> Hh]. auto.
  - apply (E1 _ eq_refl).
Qed.

(** A plain computation inside [try]/[catch]: the handler, whether or not
    it lets Validation errors through, turns the driver's error into a
    Database error. *)
Lemma guarded_try {A : Type} (m : M A) (message : Message) :
  Props.plain m ->
  Props.guarded (tryCatch m (fun error => throw (database message)))
  /\ Props.guarded
       (tryCatch m (fun error =>
                      if isValidationError error then throw error
                      else throw (database message))).
Proof.
  intros Hm.
  split; intros env outcome env'; unfold tryCatch;
    destruct (m env) as [[a | e] env1] eqn:Hrun; intros H;
    try (injection H as <- <-; exact I);
    destruct (Hm _ _ _ Hrun) as [_ He];
    destruct (He _ eq_refl) as [-> Hh];
    injection H as <- <-; right; (split; [eexists; reflexivity | exact Hh]).
Qed.

Lemma guarded_throw_validation {A : Type} (message : Message)
      (field : string) :
  Props.guarded (@throw A (validation message field)).
Proof.
  intros env outcome env' H. injection H as <- <-.
  left. split; [do 2 eexists; reflexivity | reflexivity].
Qed.

Lemma plain_updateBatch (u : UpdateSet.t) (ids : list JS.number) :
  forall count, Props.plain (updateBatch u ids count).
Proof.
  induction ids as [| id ids IH]; intros count; simpl.
  - apply plain_ret.
  - apply plain_bind; [apply plain_call | intros result; apply IH].
Qed.

Lemma plain_updateBatches (u : UpdateSet.t) (ids : list JS.number) :
  forall steps i count, Props.plain (updateBatches steps u ids i count).
Proof.
  induction steps as [| steps IH]; intros i count; simpl.
  - apply plain_ret.
  - destruct (Nat.ltb i (List.length ids)); [| apply plain_ret].
    apply plain_bind; [apply plain_updateBatch | intros count'; apply IH].
Qed.

Lemma validateIds_inv (ids : list JS.number) (env env' : Env)
      (outcome : Outcome unit) :
  validateIds ids env = (outcome, env') ->
  env' = env
  /\ (outcome = Ok tt \/ exists e, outcome = Throw e /\ Props.isValidation e).
Proof.
  induction ids as [| id ids IH]; simpl.
  - intros H. injection H as <- <-. auto.
  - destruct (invalidId id); [| exact IH].
    intros H. injection H as <- <-. split; [reflexivity |]. right.
    eexists. split; [reflexivity | do 2 eexists; reflexivity].
Qed.

Lemma guarded_getTodoById (id : JS.number) : Props.guarded (getTodoById id).
Proof.
  unfold getTodoById. destruct (invalidId id);
    [apply guarded_throw_validation |].
  apply guarded_try. apply plain_bind; [apply plain_call |].
  intros result. apply plain_ret.
Qed.

Lemma guarded_createTodo (data : CreateTodoData.t) :
  Props.guarded (createTodo data).
Proof.
  unfold createTodo.
  destruct (CreateTodoData.title data) as [title |];
    [| apply guarded_throw_validation].
  destruct (titleBlank title); [apply guarded_throw_validation |].
  destruct (titleTooLong title); [apply guarded_throw_validation |].
  destruct (descriptionTooLong _); [apply guarded_throw_validation |].
  destruct (priorityInvalid _); [apply guarded_throw_validation |].
  intros env outcome env'.
  unfold tryCatch, bind, newDate, insertReturning.
  destruct (call _ _ env) as [r env1] eqn:Hcall.
  apply call_inv in Hcall. simpl in Hcall.
  destruct Hcall as [[-> [Hh ->]] | [-> ->]]; intros H;
    injection H as <- <-; [| exact I].
  right. split; [eexists; reflexivity | exact Hh].
Qed.

(** Past its checks, [updateTodo] raises nothing but the Database error. *)
Lemma updateTodo_checked (id : JS.number) (data : UpdateTodoData.t)
      (env env' : Env) (e : Thrown) :
  invalidId id = false ->
  updateTitleError (UpdateTodoData.title data) = None ->
  descriptionTooLong (UpdateTodoData.description data) = false ->
  priorityInvalid (UpdateTodoData.priority data) = false ->
  updateTodo id data env = (Throw e, env') ->
  Props.isDatabase e /\ ~ Spec.healthy env.
Proof.
  intros Hid Ht Hd Hp. unfold updateTodo. rewrite Hid, Ht, Hd, Hp.
  unfold tryCatch, bind, newDate, updateReturning.
  destruct (call _ _ env) as [r env1] eqn:Hcall.
  apply call_inv in Hcall. simpl in Hcall.
  destruct Hcall as [[-> [Hh ->]] | [-> ->]]; intros H; [| discriminate].
  injection H as <- <-. split; [eexists; reflexivity | exact Hh].
Qed.

Lemma guarded_updateTodo (id : JS.number) (data : UpdateTodoData.t) :
  Props.guarded (updateTodo id data).
Proof.
  intros env outcome env' H. destruct outcome as [a | e]; [exact I |].
  revert H. unfold updateTodo.
  destruct (invalidId id) eqn:Hid; [apply guarded_throw_validation |].
  destruct (updateTitleError _) as [e0 |] eqn:Ht.
  { intros H. injection H as <- <-. left. split; [| reflexivity].
    revert Ht. unfold updateTitleError.
    destruct (UpdateTodoData.title data) as [t |]; [| discriminate].
    destruct (titleBlank t);
      [intros H; injection H as <-; do 2 eexists; reflexivity |].
    destruct (titleTooLong t); [| discriminate].
    intros H; injection H as <-; do 2 eexists; reflexivity. }
  destruct (descriptionTooLong _) eqn:Hd; [apply guarded_throw_validation |].
  destruct (priorityInvalid _) eqn:Hp; [apply guarded_throw_validation |].
  intros H. right.
  apply (updateTodo_checked id data env env' e Hid Ht Hd Hp).
  unfold updateTodo. rewrite Hid, Ht, Hd, Hp. exact H.
Qed.

Lemma guarded_deleteTodo (id : JS.number) : Props.guarded (deleteTodo id).
Proof.
  unfold deleteTodo. destruct (invalidId id);
    [apply guarded_throw_validation |].
  apply guarded_try. apply plain_bind; [apply plain_call |].
  intros result. apply plain_ret.
Qed.

Lemma guarded_toggleTodoComplete (id : JS.number) :
  Props.guarded (toggleTodoComplete id).
Proof.
  intros env outcome env'. unfold toggleTodoComplete, tryCatch, bind.
  destruct (getTodoById id env) as [[[todo |] | e] env1] eqn:Hget.
  - destruct (updateTodo id _ env1) as [[r | e] env2] eqn:Hup;
      intros H; [injection H as <- <-; exact I |].
    assert (Hid : invalidId id = false).
    { unfold getTodoById in Hget. destruct (invalidId id);
        [discriminate | reflexivity]. }
    assert (Hh1 : Spec.healthy env -> Spec.healthy env1).
    { unfold getTodoById in Hget. rewrite Hid in Hget.
      unfold tryCatch, bind in Hget.
      destruct (select _ env) as [r1 e1] eqn:Hsel.
      apply select_inv in Hsel. destruct Hsel as [-> [[-> _] | ->]];
        [discriminate |].
      injection Hget as _ <-. apply sent_healthy. }
    destruct (fun H1 H2 H3 =>
                updateTodo_checked id _ env1 env2 e Hid H1 H2 H3 Hup)
      as [[message ->] Hh]; [reflexivity .. |].
    simpl in H. injection H as <- <-.
    right. split; [eexists; reflexivity | auto].
  - intros H. injection H as <- <-. exact I.
  - intros H. pose proof (guarded_getTodoById id _ _ _ Hget) as Hg.
    simpl in Hg.
    destruct Hg as [[[message [field ->]] ->] | [[message ->] Hh]];
      simpl in H; injection H as <- <-.
    + left. split; [do 2 eexists; reflexivity | reflexivity].
    + right. split; [eexists; reflexivity | exact Hh].
Qed.

Lemma plain_selectCount (w : option Engine.Cond) :
  Props.plain (selectCount w).
Proof. apply plain_call. Qed.

Lemma guarded_getTodoStats : Props.guarded getTodoStats.
Proof.
  unfold getTodoStats. apply guarded_try.
  apply plain_bind.
  - repeat apply plain_both; apply plain_selectCount.
  - intros [r1 [r2 [r3 [r4 [r5 r6]]]]]. apply plain_ret.
Qed.

Lemma guarded_bulkUpdateTodos (ids : list JS.number)
      (updates : UpdateTodoData.t) :
  Props.guarded (bulkUpdateTodos ids updates).
Proof.
  unfold bulkUpdateTodos.
  destruct (Nat.eqb (List.length ids) 0).
  { intros env outcome env' H. injection H as <- <-. exact I. }
  intros env outcome env'. unfold bind at 1.
  destruct (validateIds ids env) as [r env1] eqn:Hval.
  apply validateIds_inv in Hval.
  destruct Hval as [-> [-> | [e [-> Hvalid]]]].
  - apply guarded_try. apply plain_bind; [apply plain_newDate |].
    intros now. apply plain_updateBatches.
  - intros H. injection H as <- <-. left. auto.
Qed.

(** X1. Whatever the input and whatever the storage does, an operation
    of the layer that does not return raises a Validation error or a
    Database error, never the error of the driver and never NotFound.
    With a Validation error the environment is the one that went in, so
    nothing was sent and nothing written; a Database error is raised only
    when the engine raised on a statement. *)
Theorem operations_raise_only_their_errors :
  (forall filter sort pagination,
      Props.guarded (getAllTodos filter sort pagination))
  /\ (forall id, Props.guarded (getTodoById id))
  /\ (forall data, Props.guarded (createTodo data))
  /\ (forall id data, Props.guarded (updateTodo id data))
  /\ (forall id, Props.guarded (deleteTodo id))
  /\ (forall id, Props.guarded (toggleTodoComplete id))
  /\ Props.guarded getTodoStats
  /\ (forall completed, Props.guarded (getTodosByStatus completed))
  /\ (forall priority, Props.guarded (getTodosByPriority priority))
  /\ (forall searchTerm, Props.guarded (searchTodos searchTerm))
  /\ (forall ids updates, Props.guarded (bulkUpdateTodos ids updates)).
Proof.
  split; [intros; apply guarded_query |].
  split; [apply guarded_getTodoById |].
  split; [apply guarded_createTodo |].
  split; [apply guarded_updateTodo |].
  split; [apply guarded_deleteTodo |].
  split; [apply guarded_toggleTodoComplete |].
  split; [apply guarded_getTodoStats |].
  split; [intros; apply guarded_query |].
  split; [intros; apply guarded_query |].
  split; [| apply guarded_bulkUpdateTodos].
  intros searchTerm. unfold searchTodos.
  destruct (negb (JS.truthy (JS.trim searchTerm))); [| apply guarded_query].
  intros env outcome env' H. injection H as <- <-. exact I.
Qed.

End Guards.

Section Readers.
Import Run Errors Todos.

Lemma readOnly_ret {A : Type} (a : A) : Props.readOnly (ret a).
Proof. intros env outcome env' H. injection H as _ <-. auto. Qed.

Lemma readOnly_throw {A : Type} (e : Thrown) : Props.readOnly (@throw A e).
Proof. intros env outcome env' H. injection H as _ <-. auto. Qed.

Lemma readOnly_bind {A B : Type} (m : M A) (k : A -> M B) :
  Props.readOnly m -> (forall a, Props.readOnly (k a)) ->
  Props.readOnly (bind m k).
Proof.
  intros Hm Hk env outcome env'. unfold bind.
  destruct (m env) as [[a | e] env1] eqn:Hrun; intros H.
  - destruct (Hm _ _ _ Hrun) as [T1 [S1 C1]].
    destruct (Hk a _ _ _ H) as [T2 [S2 C2]].
    rewrite T2, S2, C2. auto.
  - injection H as _ <-. apply (Hm _ _ _ Hrun).
Qed.

Lemma readOnly_tryCatch {A : Type} (m : M A) (handler : Thrown -> M A) :
  Props.readOnly m -> (forall e, Props.readOnly (handler e)) ->
  Props.readOnly (tryCatch m handler).
Proof.
  intros Hm Hk env outcome env'. unfold tryCatch.
  destruct (m env) as [[a | e] env1] eqn:Hrun; intros H.
  - injection H as _ <-. apply (Hm _ _ _ Hrun).
  - destruct (Hm _ _ _ Hrun) as [T1 [S1 C1]].
    destruct (Hk e _ _ _ H) as [T2 [S2 C2]].
    rewrite T2, S2, C2. auto.
Qed.

Lemma readOnly_both {A B : Type} (m1 : M A) (m2 : M B) :
  Props.readOnly m1 -> Props.readOnly m2 -> Props.readOnly (both m1 m2).
Proof.
  intros H1 H2 env outcome env'. unfold both.
  destruct (m1 env) as [r1 env1] eqn:R1.
  destruct (m2 env1) as [r2 env2] eqn:R2.
  destruct (H1 _ _ _ R1) as [T1 [S1 C1]].
  destruct (H2 _ _ _ R2) as [T2 [S2 C2]].
  destruct r1, r2; intros H; injection H as _ <-;
    rewrite T2, S2, C2; auto.
Qed.

Lemma readOnly_select (q : Engine.Query) : Props.readOnly (select q).
Proof.
  intros env outcome env' H. apply select_inv in H.
  destruct H as [-> _]. auto.
Qed.

Lemma readOnly_selectCount (w : option Engine.Cond) :
  Props.readOnly (selectCount w).
Proof.
  intros env outcome env' H. apply selectCount_inv in H.
  destruct H as [-> _]. auto.
Qed.

Lemma readOnly_query (q : Engine.Query) (message : Message) :
  Props.readOnly (tryCatch (select q) (fun error => throw (database message))).
Proof.
  apply readOnly_tryCatch; [apply readOnly_select |].
  intros e. apply readOnly_throw.
Qed.

Lemma readOnly_getTodoById (id : JS.number) : Props.readOnly (getTodoById id).
Proof.
  unfold getTodoById.
  destruct (invalidId id); [apply readOnly_throw |].
  apply readOnly_tryCatch; [| intros e; apply readOnly_throw].
  apply readOnly_bind; [apply readOnly_select |].
  intros result. apply readOnly_ret.
Qed.

(** X2. The six readers never write: whatever their arguments and
    whatever their outcome, a storage fault included, the table, the
    AUTOINCREMENT sequence and the clock come back as they went in. *)
Theorem readers_never_write :
  (forall filter sort pagination,
      Props.readOnly (getAllTodos filter sort pagination))
  /\ (forall id, Props.readOnly (getTodoById id))
  /\ Props.readOnly getTodoStats
  /\ (forall completed, Props.readOnly (getTodosByStatus completed))
  /\ (forall priority, Props.readOnly (getTodosByPriority priority))
  /\ (forall searchTerm, Props.readOnly (searchTodos searchTerm)).
Proof.
  split; [intros; apply readOnly_query |].
  split; [apply readOnly_getTodoById |].
  split.
  { unfold getTodoStats.
    apply readOnly_tryCatch; [| intros e; apply readOnly_throw].
    apply readOnly_bind.
    - repeat apply readOnly_both; apply readOnly_selectCount.
    - intros [r1 [r2 [r3 [r4 [r5 r6]]]]]. apply readOnly_ret. }
  split; [intros; apply readOnly_query |].
  split; [intros; apply readOnly_query |].
  intros searchTerm. unfold searchTodos.
  destruct (negb (JS.truthy (JS.trim searchTerm)));
    [apply readOnly_ret | apply readOnly_query].
Qed.

End Readers.

(* ===================================================================== *)
(** ** Looking a record up, before and after a write *)
(* ===================================================================== *)

Section Lookup.
Import Run Errors Todos.

Lemma eqId_idOf (a b : Z) : Engine.eqId (Props.idOf a) b = Z.eqb a b.
Proof.
  unfold Props.idOf, Engine.eqId.
  destruct (Z.eqb_spec a b) as [-> | Hne].
  - apply Qeq_bool_iff. reflexivity.
  - destruct (Qeq_bool (inject_Z a) (inject_Z b)) eqn:H; [| reflexivity].
    apply Qeq_bool_eq in H. apply (proj1 (inject_Z_injective a b)) in H.
    contradiction.
Qed.

Lemma idOf_valid (z : Z) : 0 < z -> invalidId (Props.idOf z) = false.
Proof.
  intros Hz. destruct (invalidId (Props.idOf z)) eqn:H; [| reflexivity].
  apply invalidId_iff in H. exfalso. apply H.
  exists z. split; [exact Hz | reflexivity].
Qed.

Lemma hd_map_filter {A B : Type} (f : A -> B) (p : A -> bool) (l : list A) :
  hd_error (map f (filter p l)) = option_map f (find p l).
Proof.
  induction l as [| x l IH]; simpl; [reflexivity |].
  destruct (p x); [reflexivity | exact IH].
Qed.

Lemma rowOf_hasRow (t : list Row.t) (id : JS.number) :
  Spec.hasRow t id = match Props.rowOf t id with
                     | Some _ => true
                     | None => false
                     end.
Proof.
  unfold Spec.hasRow, Props.rowOf.
  induction t as [| r t IH]; simpl; [reflexivity |].
  destruct (Engine.eqId id (Row.id r)); [reflexivity | exact IH].
Qed.

(** With a valid id and a storage that answers, [getTodoById] sends its
    one SELECT and returns the first row of that id, if any. *)
Lemma getTodoById_healthy (id : JS.number) (env : Env) :
  invalidId id = false ->
  Spec.healthy env ->
  getTodoById id env
  = (Ok (option_map Todo.ofRow (Props.rowOf (table env) id)),
     Props.sent env (Props.byId id)).
Proof.
  intros Hid Hh. unfold getTodoById. rewrite Hid.
  unfold tryCatch, bind, select. rewrite (call_healthy _ _ _ Hh). simpl.
  unfold ret, Props.sent, Props.byId, Props.rowOf. f_equal. f_equal.
  unfold Engine.runSelect. simpl.
  induction (table env) as [| r t IH]; simpl; [reflexivity |].
  destruct (Engine.eqId id (Row.id r)); [reflexivity | exact IH].
Qed.

Lemma maxId_bound (t : list Row.t) (r : Row.t) :
  In r t -> Row.id r <= Engine.maxId t.
Proof.
  induction t as [| x t IH]; simpl; [tauto |].
  intros [-> | Hin]; [lia |]. specialize (IH Hin). lia.
Qed.

Lemma maxId_nonneg (t : list Row.t) : 0 <= Engine.maxId t.
Proof. induction t as [| x t IH]; simpl; lia. Qed.

Lemma rowOf_fresh (t : list Row.t) (id : Z) :
  Engine.maxId t < id -> Props.rowOf t (Props.idOf id) = None.
Proof.
  intros Hlt. unfold Props.rowOf.
  induction t as [| r t IH]; [reflexivity |].
  cbn [find Engine.holds]. cbn [Engine.maxId fold_right] in Hlt.
  rewrite eqId_idOf.
  destruct (Z.eqb_spec id (Row.id r)) as [-> | Hne]; [lia |].
  apply IH. unfold Engine.maxId. lia.
Qed.

Lemma rowOf_app_fresh (t : list Row.t) (r : Row.t) :
  Engine.maxId t < Row.id r ->
  Props.rowOf (t ++ [r]) (Props.idOf (Row.id r)) = Some r.
Proof.
  intros Hlt. pose proof (rowOf_fresh t (Row.id r) Hlt) as Hnone.
  unfold Props.rowOf in *.
  induction t as [| x t IH].
  - cbn [app find Engine.holds]. rewrite eqId_idOf, Z.eqb_refl. reflexivity.
  - cbn [app find Engine.holds] in *.
    cbn [Engine.maxId fold_right] in Hlt.
    destruct (Engine.eqId (Props.idOf (Row.id r)) (Row.id x));
      [discriminate |].
    apply IH; [unfold Engine.maxId; lia | exact Hnone].
Qed.

(** X3. Create, then read back: with a storage that answers, the record
    a successful [createTodo] returns carries a positive id that no row
    of the table carried before, and [getTodoById] on that id returns
    this very record. *)
Theorem createTodo_then_getTodoById :
  forall (data : CreateTodoData.t) (env env' : Env) (todo : Todo.t),
    Spec.healthy env ->
    createTodo data env = (Ok todo, env') ->
    0 < Todo.id todo
    /\ Props.rowOf (table env) (Props.idOf (Todo.id todo)) = None
    /\ Engine.maxId (table env) < Todo.id todo
    /\ sequence env < Todo.id todo
    /\ fst (getTodoById (Props.idOf (Todo.id todo)) env') = Ok (Some todo).
Proof.
  intros data env env' todo Hh Hrun.
  destruct (createTodo_inv _ _ _ _ Hrun)
    as [title [Ht [Hb [Hl [Hd [Hp Hf]]]]]].
  rewrite (createTodo_run data title env Ht Hb Hl Hd Hp Hf) in Hrun.
  injection Hrun as <- <-. simpl Todo.id.
  pose proof (maxId_nonneg (table env)) as Hmax.
  assert (Hnext : Engine.maxId (table env)
                  < Engine.nextId (sequence env) (table env)
                  /\ sequence env < Engine.nextId (sequence env) (table env))
    by (unfold Engine.nextId; lia).
  destruct Hnext as [Hn1 Hn2].
  split; [lia |]. split; [now apply rowOf_fresh |].
  split; [exact Hn1 |]. split; [exact Hn2 |].
  rewrite getTodoById_healthy.
  - simpl.
    set (r := Engine.newRow _ _).
    change (Engine.nextId (sequence env) (table env)) with (Row.id r).
    rewrite rowOf_app_fresh; [reflexivity | exact Hn1].
  - apply idOf_valid. lia.
  - now apply healthy_tail.
Qed.

End Lookup.

Lemma createTodo_then_getTodoById_witness :
  Spec.healthy sampleEnv
  /\ exists todo env',
       Todos.createTodo (CreateTodoData.mk (Some " Call Ann ") None None)
                        sampleEnv
       = (Run.Ok todo, env')
       /\ Todo.id todo = 2
       /\ fst (Todos.getTodoById (Props.idOf (Todo.id todo)) env')
          = Run.Ok (Some todo).
Proof.
  assert (Hh : Spec.healthy sampleEnv) by constructor.
  split; [exact Hh |]. do 2 eexists.
  split; [reflexivity |]. split; [reflexivity |].
  apply (createTodo_then_getTodoById
           (CreateTodoData.mk (Some " Call Ann ") None None) sampleEnv _ _ Hh).
  reflexivity.
Defined.

Section Writes.
Import Run Errors Todos.

Lemma valid_id (id : JS.number) :
  Spec.isPositiveInteger id -> invalidId id = false.
Proof.
  intros Hpos. destruct (invalidId id) eqn:H; [| reflexivity].
  apply invalidId_iff in H. contradiction.
Qed.

(** SET does not change which id a row answers to. *)
Lemma holds_id_applySet (u : UpdateSet.t) (id : JS.number) (r : Row.t) :
  Engine.holds (Engine.EqId id) (Engine.applySet u r)
  = Engine.holds (Engine.EqId id) r.
Proof. reflexivity. Qed.

Lemma rowOf_updateRows (u : UpdateSet.t) (id : JS.number) (t : list Row.t) :
  Props.rowOf (Engine.updateRows u (Engine.EqId id) t) id
  = option_map (Engine.applySet u) (Props.rowOf t id).
Proof.
  unfold Props.rowOf, Engine.updateRows.
  induction t as [| r t IH]; [reflexivity |].
  cbn [map find].
  destruct (Engine.holds (Engine.EqId id) r) eqn:Hr.
  - rewrite holds_id_applySet, Hr. reflexivity.
  - rewrite Hr. exact IH.
Qed.

Lemma updateRows_absent (u : UpdateSet.t) (id : JS.number) (t : list Row.t) :
  Spec.hasRow t id = false ->
  Engine.updateRows u (Engine.EqId id) t = t.
Proof.
  unfold Spec.hasRow, Engine.updateRows.
  induction t as [| r t IH]; [reflexivity |].
  cbn [existsb map]. intros H. apply orb_false_iff in H.
  destruct H as [Hr Ht]. rewrite Hr, (IH Ht). reflexivity.
Qed.

Lemma deleteRows_spec (id : JS.number) (t : list Row.t) :
  Spec.hasRow (Engine.deleteRows (Engine.EqId id) t) id = false
  /\ (Spec.hasRow t id = false -> Engine.deleteRows (Engine.EqId id) t = t).
Proof.
  unfold Spec.hasRow, Engine.deleteRows.
  induction t as [| r t [IH1 IH2]]; [auto |].
  cbn [filter existsb].
  destruct (Engine.holds (Engine.EqId id) r) eqn:Hr; cbn [negb orb].
  - split; [exact IH1 | discriminate].
  - cbn [existsb]. rewrite Hr. cbn [orb].
    split; [exact IH1 |]. intros H. rewrite (IH2 H). reflexivity.
Qed.

(** With a valid id and a storage that answers, [deleteTodo] sends its
    DELETE and reports whether the id named a row. *)
Lemma deleteTodo_healthy (id : JS.number) (env : Env) :
  invalidId id = false ->
  Spec.healthy env ->
  deleteTodo id env
  = (Ok (Spec.hasRow (table env) id),
     mkEnv (Engine.deleteRows (Engine.EqId id) (table env)) (sequence env)
           (trace env ++ [Engine.Delete (Engine.EqId id)])
           (tl (faults env)) (clock env)).
Proof.
  intros Hid Hh. unfold deleteTodo. rewrite Hid.
  unfold tryCatch, bind, delete. rewrite (call_healthy _ _ _ Hh).
  cbn [fst snd]. rewrite changed_iff_hasRow. reflexivity.
Qed.

(** X4. Delete: with a positive integer id and a storage that answers,
    [deleteTodo] returns [true] exactly when the id named a row.  After
    it no row carries the id, every other row is still there, in the same
    order, the AUTOINCREMENT sequence has not moved (the id will not be
    given out again), and [getTodoById] on the id returns null.  When the
    id named no row, the table is the one that went in. *)
Theorem deleteTodo_removes :
  forall (id : JS.number) (env : Env),
    Spec.isPositiveInteger id ->
    Spec.healthy env ->
    exists env',
      deleteTodo id env = (Ok (Spec.hasRow (table env) id), env')
      /\ table env'
         = filter (fun r => negb (Engine.eqId id (Row.id r))) (table env)
      /\ Spec.hasRow (table env') id = false
      /\ (Spec.hasRow (table env) id = false -> table env' = table env)
      /\ sequence env' = sequence env
      /\ fst (getTodoById id env') = Ok None.
Proof.
  intros id env Hpos Hh. apply valid_id in Hpos.
  eexists. split; [apply (deleteTodo_healthy id env Hpos Hh) |].
  cbn [table sequence].
  destruct (deleteRows_spec id (table env)) as [Hgone Hsame].
  split; [reflexivity |]. split; [exact Hgone |]. split; [exact Hsame |].
  split; [reflexivity |].
  rewrite getTodoById_healthy;
    [| exact Hpos | apply (healthy_tail env _ _ _ Hh)].
  cbn [fst table]. rewrite rowOf_hasRow in Hgone.
  destruct (Props.rowOf _ id); [discriminate | reflexivity].
Qed.

(** With a valid id, data that pass the checks and a storage that
    answers, [updateTodo] sends its UPDATE and returns the first updated
    row, if any. *)
Lemma updateTodo_healthy (id : JS.number) (data : UpdateTodoData.t)
      (env : Env) :
  invalidId id = false ->
  updateTitleError (UpdateTodoData.title data) = None ->
  descriptionTooLong (UpdateTodoData.description data) = false ->
  priorityInvalid (UpdateTodoData.priority data) = false ->
  Spec.healthy env ->
  let u := updateData data (clock env) in
  updateTodo id data env
  = (Ok (option_map (fun r => Todo.ofRow (Engine.applySet u r))
                    (Props.rowOf (table env) id)),
     mkEnv (Engine.updateRows u (Engine.EqId id) (table env)) (sequence env)
           (trace env ++ [Engine.Update u (Engine.EqId id) true])
           (tl (faults env)) (clock env)).
Proof.
  intros Hid Ht Hd Hp Hh. cbv zeta.
  destruct (updateTodo_run id data env Hid Ht Hd Hp (healthy_head env Hh))
    as [result [env' Hrun]].
  rewrite Hrun. apply updateTodo_ok in Hrun. cbv zeta in Hrun.
  destruct Hrun as [-> [-> _]]. rewrite hd_map_filter. reflexivity.
Qed.

(** X5. Update, then read back: with a storage that answers, what a
    successful [updateTodo] returns is what [getTodoById] on the same id
    returns next.  It is null exactly when the id names no row, and then
    the table is the one that went in. *)
Theorem updateTodo_then_getTodoById :
  forall (id : JS.number) (data : UpdateTodoData.t) (env env' : Env)
         (result : option Todo.t),
    Spec.healthy env ->
    updateTodo id data env = (Ok result, env') ->
    fst (getTodoById id env') = Ok result
    /\ (result = None <-> Spec.hasRow (table env) id = false)
    /\ (Spec.hasRow (table env) id = false -> table env' = table env).
Proof.
  intros id data env env' result Hh Hrun.
  apply updateTodo_ok in Hrun. cbv zeta in Hrun.
  destruct Hrun as [-> [-> [Hid _]]].
  rewrite hd_map_filter. fold (Props.rowOf (table env) id).
  rewrite getTodoById_healthy;
    [| exact Hid | apply (healthy_tail env _ _ _ Hh)].
  cbn [fst table]. rewrite rowOf_updateRows, rowOf_hasRow.
  split; [| split].
  - destruct (Props.rowOf (table env) id); reflexivity.
  - destruct (Props.rowOf (table env) id); simpl; split; congruence.
  - rewrite <- rowOf_hasRow. apply updateRows_absent.
Qed.

End Writes.

Lemma deleteTodo_removes_witness :
  Spec.isPositiveInteger (JS.Num 1)
  /\ Spec.healthy sampleEnv
  /\ exists env',
       Todos.deleteTodo (JS.Num 1) sampleEnv = (Run.Ok true, env')
       /\ Run.table env' = []
       /\ fst (Todos.getTodoById (JS.Num 1) env') = Run.Ok None.
Proof.
  assert (Hpos : Spec.isPositiveInteger (JS.Num 1))
    by (exists 1; split; [lia | reflexivity]).
  assert (Hh : Spec.healthy sampleEnv) by constructor.
  split; [exact Hpos |]. split; [exact Hh |].
  destruct (deleteTodo_removes (JS.Num 1) sampleEnv Hpos Hh)
    as [env' [Hrun [Htable [_ [_ [_ Hget]]]]]].
  exists env'. split; [exact Hrun |]. split; [exact Htable | exact Hget].
Defined.

Lemma updateTodo_then_getTodoById_witness :
  Spec.healthy sampleEnv
  /\ Todos.updateTodo (JS.Num 1) sampleUpdate sampleEnv
     = (fst (Todos.updateTodo (JS.Num 1) sampleUpdate sampleEnv),
        snd (Todos.updateTodo (JS.Num 1) sampleUpdate sampleEnv))
  /\ fst (Todos.getTodoById
            (JS.Num 1)
            (snd (Todos.updateTodo (JS.Num 1) sampleUpdate sampleEnv)))
     = Run.Ok (Some (Todo.mk 1 "Buy oat milk" (Some "two litres") true
                             "medium" 1700000000000 1700000005000)).
Proof.
  assert (Hh : Spec.healthy sampleEnv) by constructor.
  split; [exact Hh |]. split; [reflexivity |].
  apply (updateTodo_then_getTodoById (JS.Num 1) sampleUpdate sampleEnv
                                     _ _ Hh).
  reflexivity.
Defined.

Section Toggle.
Import Run Errors Todos.

(** The data [toggleTodoComplete] hands to [updateTodo]. *)
Lemma toggle_run (id : JS.number) (env : Env) (r : Row.t) :
  invalidId id = false ->
  Spec.healthy env ->
  Props.rowOf (table env) id = Some r ->
  let u := updateData
             (UpdateTodoData.mk None None (Some (negb (Row.completed r))) None)
             (clock env) in
  exists env',
    toggleTodoComplete id env
    = (Ok (Some (Todo.ofRow (Engine.applySet u r))), env')
    /\ table env' = Engine.updateRows u (Engine.EqId id) (table env)
    /\ Props.rowOf (table env') id = Some (Engine.applySet u r)
    /\ trace env'
       = trace env ++ [Props.byId id; Engine.Update u (Engine.EqId id) true]
    /\ Spec.healthy env'
    /\ clock env' = clock env.
Proof.
  intros Hid Hh Hrow. cbv zeta.
  unfold toggleTodoComplete, tryCatch, bind.
  rewrite (getTodoById_healthy id env Hid Hh), Hrow. cbn [option_map].
  assert (Hh1 : Spec.healthy (Props.sent env (Props.byId id)))
    by now apply sent_healthy.
  rewrite updateTodo_healthy; try reflexivity; try assumption.
  cbn [Props.sent table clock Todo.completed Todo.ofRow]. rewrite Hrow.
  eexists. split; [reflexivity |]. cbn [table trace clock].
  split; [reflexivity |].
  split; [rewrite rowOf_updateRows, Hrow; reflexivity |].
  split; [unfold Props.sent; cbn [trace]; rewrite <- app_assoc;
          reflexivity |].
  split; [| reflexivity].
  apply (healthy_tail (Props.sent env (Props.byId id)) _ _ _ Hh1).
Qed.

(** X6. Toggle: with a positive integer id and a storage that answers,
    [toggleTodoComplete] on an id that names no row returns null after
    its one SELECT, no UPDATE being sent and nothing written.  On an id
    that names a row it sends the SELECT and one UPDATE and returns the
    record with [completed] negated and with the id, title, description,
    priority and [createdAt] it had. *)
Theorem toggleTodoComplete_flips :
  forall (id : JS.number) (env : Env),
    Spec.isPositiveInteger id ->
    Spec.healthy env ->
    (Props.rowOf (table env) id = None ->
     toggleTodoComplete id env = (Ok None, Props.sent env (Props.byId id)))
    /\ (forall r,
           Props.rowOf (table env) id = Some r ->
           exists todo env' u,
             toggleTodoComplete id env = (Ok (Some todo), env')
             /\ trace env'
                = trace env
                  ++ [Props.byId id; Engine.Update u (Engine.EqId id) true]
             /\ Todo.completed todo = negb (Row.completed r)
             /\ Todo.id todo = Row.id r
             /\ Todo.title todo = Row.title r
             /\ Todo.description todo = Row.description r
             /\ Todo.priority todo = Row.priority r
             /\ Todo.createdAt todo
                = Schema.timestampFromDriver (Row.createdAt r)
             /\ Todo.updatedAt todo
                = Schema.timestampFromDriver
                    (Schema.timestampToDriver (clock env))).
Proof.
  intros id env Hpos Hh. apply valid_id in Hpos. split.
  - intros Hrow. unfold toggleTodoComplete, tryCatch, bind.
    rewrite (getTodoById_healthy id env Hpos Hh), Hrow. reflexivity.
  - intros r Hrow.
    destruct (toggle_run id env r Hpos Hh Hrow)
      as [env' [Hrun [_ [_ [Htrace _]]]]].
    do 3 eexists. split; [exact Hrun |]. split; [exact Htrace |].
    repeat split.
Qed.

(** X7. Toggling twice gives the flag back: with a storage that answers,
    two [toggleTodoComplete] in a row on an id that names a row both
    succeed, and the second returns the record with the [completed],
    title, description, priority and [createdAt] the row had before the
    first. *)
Theorem toggleTodoComplete_twice :
  forall (id : JS.number) (env : Env) (r : Row.t),
    Spec.isPositiveInteger id ->
    Spec.healthy env ->
    Props.rowOf (table env) id = Some r ->
    exists first env1 second env2,
      toggleTodoComplete id env = (Ok (Some first), env1)
      /\ toggleTodoComplete id env1 = (Ok (Some second), env2)
      /\ Todo.completed first = negb (Row.completed r)
      /\ Todo.completed second = Row.completed r
      /\ Todo.id second = Row.id r
      /\ Todo.title second = Row.title r
      /\ Todo.description second = Row.description r
      /\ Todo.priority second = Row.priority r
      /\ Todo.createdAt second
         = Schema.timestampFromDriver (Row.createdAt r).
Proof.
  intros id env r Hpos Hh Hrow. apply valid_id in Hpos.
  destruct (toggle_run id env r Hpos Hh Hrow)
    as [env1 [Hrun1 [_ [Hrow1 [_ [Hh1 _]]]]]].
  destruct (toggle_run id env1 _ Hpos Hh1 Hrow1)
    as [env2 [Hrun2 _]].
  do 4 eexists. split; [exact Hrun1 |]. split; [exact Hrun2 |].
  split; [reflexivity |].
  split; [cbn; apply negb_involutive |].
  repeat split.
Qed.

End Toggle.

Lemma toggleTodoComplete_flips_witness :
  Spec.isPositiveInteger (JS.Num 9)
  /\ Spec.healthy sampleEnv
  /\ Props.rowOf (Run.table sampleEnv) (JS.Num 9) = None
  /\ Todos.toggleTodoComplete (JS.Num 9) sampleEnv
     = (Run.Ok None, Props.sent sampleEnv (Props.byId (JS.Num 9))).
Proof.
  assert (Hpos : Spec.isPositiveInteger (JS.Num 9))
    by (exists 9; split; [lia | reflexivity]).
  assert (Hh : Spec.healthy sampleEnv) by constructor.
  split; [exact Hpos |]. split; [exact Hh |]. split; [reflexivity |].
  apply (proj1 (toggleTodoComplete_flips (JS.Num 9) sampleEnv Hpos Hh)).
  reflexivity.
Defined.

Lemma toggleTodoComplete_twice_witness :
  Spec.isPositiveInteger (JS.Num 1)
  /\ Spec.healthy sampleEnv
  /\ Props.rowOf (Run.table sampleEnv) (JS.Num 1) = Some sampleRow
  /\ exists first env1 second env2,
       Todos.toggleTodoComplete (JS.Num 1) sampleEnv
       = (Run.Ok (Some first), env1)
       /\ Todos.toggleTodoComplete (JS.Num 1) env1
          = (Run.Ok (Some second), env2)
       /\ Todo.completed first = true
       /\ Todo.completed second = false.
Proof.
  assert (Hpos : Spec.isPositiveInteger (JS.Num 1))
    by (exists 1; split; [lia | reflexivity]).
  assert (Hh : Spec.healthy sampleEnv) by constructor.
  split; [exact Hpos |]. split; [exact Hh |]. split; [reflexivity |].
  destruct (toggleTodoComplete_twice (JS.Num 1) sampleEnv sampleRow
                                     Hpos Hh eq_refl)
    as [first [env1 [second [env2 [H1 [H2 [H3 [H4 _]]]]]]]].
  exists first, env1, second, env2.
  split; [exact H1 |]. split; [exact H2 |]. split; [exact H3 | exact H4].
Defined.

(* ===================================================================== *)
(** ** Listing: filter, order and pages *)
(* ===================================================================== *)

Section Listing.
Import Run Errors Todos.

(** The WHERE clause [getAllTodos] builds selects the rows that pass the
    filter. *)
Lemma conditions_matches (filter : option TodoFilter.t) (r : Row.t) :
  Engine.holdsOpt
    (if Nat.ltb 0 (List.length (conditions filter))
     then Some (Engine.And (conditions filter))
     else None) r
  = Props.matches filter r.
Proof.
  destruct filter as [[[c |] [[| a p] |] [[| b s] |]] |];
    cbn -[Engine.like String.append JS.toLowerCase String.eqb];
    rewrite ?andb_true_r, ?andb_assoc; reflexivity.
Qed.

Lemma insertBy_perm (le : Row.t -> Row.t -> bool) (x : Row.t)
      (l : list Row.t) :
  Permutation (Engine.insertBy le x l) (x :: l).
Proof.
  induction l as [| y l IH]; simpl; [reflexivity |].
  destruct (le x y); [reflexivity |].
  rewrite IH. apply perm_swap.
Qed.

(** ORDER BY rearranges, it neither drops nor repeats a row. *)
Lemma sortBy_perm (le : Row.t -> Row.t -> bool) (l : list Row.t) :
  Permutation (Engine.sortBy le l) l.
Proof.
  induction l as [| x l IH]; simpl; [reflexivity |].
  rewrite insertBy_perm. now constructor.
Qed.

(** What a successful [getAllTodos] returns, in terms of the table. *)
Lemma getAllTodos_ok (filter : option TodoFilter.t) (sort : option TodoSort.t)
      (pagination : option TodoPagination.t) (env env' : Env)
      (result : list Todo.t) :
  getAllTodos filter sort pagination env = (Ok result, env') ->
  let listing :=
    Engine.sortBy (Engine.rowLe (TodoSort.field (Props.sortOf sort))
                                (TodoSort.order (Props.sortOf sort)))
                  (List.filter (Props.matches filter) (table env)) in
  result
  = map Todo.ofRow
        (match pagination with
         | Some p =>
             Engine.applyLimit (Some (TodoPagination.limit p))
               (skipn (Z.to_nat (TodoPagination.offset p)) listing)
         | None => listing
         end).
Proof.
  unfold getAllTodos, tryCatch. cbv zeta.
  destruct (select _ env) as [r env1] eqn:Hsel.
  apply select_inv in Hsel. destruct Hsel as [-> [[-> _] | ->]];
    [discriminate |].
  intros H. injection H as <- _. f_equal.
  pose proof (conditions_matches filter) as Hm.
  unfold Engine.runSelect.
  destruct pagination as [p |];
    destruct (Nat.ltb 0 (List.length (conditions filter)));
    unfold Engine.offset, Engine.limit, Engine.orderBy, Engine.where_,
      Engine.selectFromTodos;
    cbn [Engine.qwhere Engine.qorderBy Engine.qlimit Engine.qoffset
         Engine.applyOrder Engine.applyOffset];
    rewrite (filter_ext _ _ Hm); reflexivity.
Qed.

(** X8. Without pagination, a successful [getAllTodos] returns the rows
    of the table that pass every key of the filter, each exactly as often
    as the table holds it and in some order: the listing is a
    rearrangement of the matching rows, no record is dropped, repeated or
    made up.  A key that is absent, an empty priority and an empty search
    term do not restrict the listing.  The search term is matched as the
    engine's LIKE matches it, which reads the pattern and the text up to
    their first NUL. *)
Theorem getAllTodos_lists_the_matches :
  forall (filter : option TodoFilter.t) (sort : option TodoSort.t)
         (env env' : Env) (result : list Todo.t),
    getAllTodos filter sort None env = (Ok result, env') ->
    Permutation result
                (map Todo.ofRow (List.filter (Props.matches filter) (table env)))
    /\ (forall todo,
           In todo result <->
           exists r, In r (table env) /\ Props.matches filter r = true
                     /\ todo = Todo.ofRow r)
    /\ List.length result
       = List.length (List.filter (Props.matches filter) (table env)).
Proof.
  intros filter sort env env' result Hrun.
  apply getAllTodos_ok in Hrun. cbv zeta in Hrun. subst result.
  assert (Hperm : Permutation
                    (map Todo.ofRow
                         (Engine.sortBy
                            (Engine.rowLe
                               (TodoSort.field (Props.sortOf sort))
                               (TodoSort.order (Props.sortOf sort)))
                            (List.filter (Props.matches filter) (table env))))
                    (map Todo.ofRow
                         (List.filter (Props.matches filter) (table env))))
    by (apply Permutation_map, sortBy_perm).
  split; [exact Hperm |]. split.
  - intros todo. split.
    + intros Hin. apply (Permutation_in _ Hperm) in Hin.
      apply in_map_iff in Hin. destruct Hin as [r [<- Hr]].
      apply filter_In in Hr. destruct Hr as [Hr Hm].
      exists r. auto.
    + intros [r [Hr [Hm ->]]].
      apply (Permutation_in _ (Permutation_sym Hperm)).
      apply in_map. apply filter_In. auto.
  - rewrite (Permutation_length Hperm). apply length_map.
Qed.

End Listing.

Lemma getAllTodos_lists_the_matches_witness :
  Todos.getAllTodos
    (Some (TodoFilter.mk (Some false) (Some "medium")
                         (Some (String "000" "x"))))
    None None sampleEnv
  = (Run.Ok [Todo.ofRow sampleRow],
     snd (Todos.getAllTodos
            (Some (TodoFilter.mk (Some false) (Some "medium")
                                 (Some (String "000" "x"))))
            None None sampleEnv))
  /\ List.length [Todo.ofRow sampleRow]
     = List.length
         (List.filter
            (Props.matches
               (Some (TodoFilter.mk (Some false) (Some "medium")
                                    (Some (String "000" "x")))))
            (Run.table sampleEnv)).
Proof.
  split; [reflexivity |].
  apply (getAllTodos_lists_the_matches
           (Some (TodoFilter.mk (Some false) (Some "medium")
                                (Some (String "000" "x"))))
           None sampleEnv _ _ eq_refl).
Defined.

Section Ordering.
Import Run Errors Todos.

Lemma rowLe_total (f : TodoSort.Field) (o : TodoSort.Order) (a b : Row.t) :
  Engine.rowLe f o a b = true \/ Engine.rowLe f o b a = true.
Proof.
  destruct o, f; simpl;
    first [apply String.leb_total
          | destruct (Z.leb_spec (Row.createdAt a) (Row.createdAt b));
            destruct (Z.leb_spec (Row.createdAt b) (Row.createdAt a));
            auto; lia
          | destruct (Z.leb_spec (Row.updatedAt a) (Row.updatedAt b));
            destruct (Z.leb_spec (Row.updatedAt b) (Row.updatedAt a));
            auto; lia].
Qed.

Lemma insertBy_hd (le : Row.t -> Row.t -> bool) (x y : Row.t)
      (l : list Row.t) :
  le y x = true ->
  HdRel (fun a b => le a b = true) y l ->
  HdRel (fun a b => le a b = true) y (Engine.insertBy le x l).
Proof.
  intros Hyx Hhd. destruct l as [| z l]; simpl; [now constructor |].
  destruct (le x z); [now constructor |].
  inversion Hhd. now constructor.
Qed.

Lemma insertBy_sorted (le : Row.t -> Row.t -> bool) (x : Row.t)
      (l : list Row.t) :
  (forall a b, le a b = true \/ le b a = true) ->
  Sorted (fun a b => le a b = true) l ->
  Sorted (fun a b => le a b = true) (Engine.insertBy le x l).
Proof.
  intros Htotal Hsorted.
  induction Hsorted as [| y l Hl IH Hhd]; simpl.
  - repeat constructor.
  - destruct (le x y) eqn:Hxy.
    + constructor; [now constructor | now constructor].
    + constructor; [exact IH |].
      apply insertBy_hd; [| exact Hhd].
      destruct (Htotal x y) as [H | H]; [congruence | exact H].
Qed.

Lemma sortBy_sorted (le : Row.t -> Row.t -> bool) (l : list Row.t) :
  (forall a b, le a b = true \/ le b a = true) ->
  Sorted (fun a b => le a b = true) (Engine.sortBy le l).
Proof.
  intros Htotal. induction l as [| x l IH]; simpl; [constructor |].
  now apply insertBy_sorted.
Qed.

Lemma Sorted_skipn {A : Type} (R : A -> A -> Prop) (n : nat) (l : list A) :
  Sorted R l -> Sorted R (skipn n l).
Proof.
  revert l. induction n as [| n IH]; intros l Hl; [exact Hl |].
  destruct l as [| x l]; [constructor |].
  simpl. apply IH. now inversion Hl.
Qed.

Lemma Sorted_firstn {A : Type} (R : A -> A -> Prop) (n : nat) (l : list A) :
  Sorted R l -> Sorted R (firstn n l).
Proof.
  revert l. induction n as [| n IH]; intros l Hl; [constructor |].
  destruct l as [| x l]; [constructor |].
  simpl. inversion Hl as [| ? ? Hl' Hhd]; subst.
  constructor; [now apply IH |].
  destruct l as [| y l]; [destruct n; constructor |].
  destruct n; simpl; [constructor |].
  inversion Hhd. now constructor.
Qed.

Lemma Sorted_map {A B : Type} (R : A -> A -> Prop) (S : B -> B -> Prop)
      (f : A -> B) (l : list A) :
  (forall a b, R a b -> S (f a) (f b)) ->
  Sorted R l -> Sorted S (map f l).
Proof.
  intros Hf Hl. induction Hl as [| x l Hl IH Hhd]; simpl; [constructor |].
  constructor; [exact IH |].
  destruct Hhd; simpl; constructor. now apply Hf.
Qed.

Lemma rowLe_inOrder (sort : TodoSort.t) (a b : Row.t) :
  Engine.rowLe (TodoSort.field sort) (TodoSort.order sort) a b = true ->
  Props.inOrder sort (Todo.ofRow a) (Todo.ofRow b).
Proof.
  unfold Props.inOrder, Engine.rowLe, Engine.keyLe.
  destruct sort as [f o]. simpl.
  destruct o, f; simpl; unfold Schema.timestampFromDriver;
    rewrite ?Z.leb_le; auto; lia.
Qed.

(** X9. Whatever the filter and the page, the records a successful
    [getAllTodos] returns stand in the order asked for: each record and
    the next compare as the sort says, on [createdAt], [updatedAt],
    [title] or [priority], ascending or descending, and on [createdAt]
    descending when no sort is given. *)
Theorem getAllTodos_is_ordered :
  forall (filter : option TodoFilter.t) (sort : option TodoSort.t)
         (pagination : option TodoPagination.t) (env env' : Env)
         (result : list Todo.t),
    getAllTodos filter sort pagination env = (Ok result, env') ->
    Sorted (Props.inOrder (Props.sortOf sort)) result.
Proof.
  intros filter sort pagination env env' result Hrun.
  apply getAllTodos_ok in Hrun. cbv zeta in Hrun. subst result.
  apply (Sorted_map _ _ _ _ (rowLe_inOrder (Props.sortOf sort))).
  pose proof (sortBy_sorted
                (Engine.rowLe (TodoSort.field (Props.sortOf sort))
                              (TodoSort.order (Props.sortOf sort)))
                (List.filter (Props.matches filter) (table env))
                (rowLe_total _ _)) as Hsorted.
  destruct pagination as [p |]; [| exact Hsorted].
  unfold Engine.applyLimit.
  destruct (Z.ltb (TodoPagination.limit p) 0).
  - now apply Sorted_skipn.
  - now apply Sorted_firstn, Sorted_skipn.
Qed.

(** X10. A page with a non-negative limit is a window of the listing:
    on one table, [getAllTodos] with pagination returns the records that
    [getAllTodos] without pagination returns from position [offset] on,
    at most [limit] of them. *)
Theorem getAllTodos_page_is_window :
  forall (filter : option TodoFilter.t) (sort : option TodoSort.t)
         (p : TodoPagination.t) (env env1 env2 : Env)
         (page listing : list Todo.t),
    0 <= TodoPagination.limit p ->
    getAllTodos filter sort (Some p) env = (Ok page, env1) ->
    getAllTodos filter sort None env = (Ok listing, env2) ->
    page = Props.window p listing
    /\ (List.length page <= Z.to_nat (TodoPagination.limit p))%nat
    /\ (List.length page <= List.length listing)%nat.
Proof.
  intros filter sort p env env1 env2 page listing Hlimit Hpage Hall.
  apply getAllTodos_ok in Hpage. apply getAllTodos_ok in Hall.
  cbv zeta in *. subst page listing.
  unfold Engine.applyLimit, Props.window.
  destruct (Z.ltb_spec (TodoPagination.limit p) 0) as [Hneg | _]; [lia |].
  rewrite skipn_map, firstn_map.
  split; [reflexivity |]. rewrite !length_map.
  split; [apply firstn_le_length |].
  rewrite length_firstn, length_skipn. lia.
Qed.

End Ordering.

Lemma getAllTodos_is_ordered_witness :
  Todos.getAllTodos None (Some (TodoSort.mk TodoSort.title TodoSort.asc))
                    None sampleEnv
  = (Run.Ok [Todo.ofRow sampleRow],
     snd (Todos.getAllTodos
            None (Some (TodoSort.mk TodoSort.title TodoSort.asc))
            None sampleEnv))
  /\ Sorted (Props.inOrder (TodoSort.mk TodoSort.title TodoSort.asc))
            [Todo.ofRow sampleRow].
Proof.
  split; [reflexivity |].
  apply (getAllTodos_is_ordered
           None (Some (TodoSort.mk TodoSort.title TodoSort.asc))
           None sampleEnv _ _ eq_refl).
Defined.

Lemma getAllTodos_page_is_window_witness :
  0 <= TodoPagination.limit (TodoPagination.mk 1 0)
  /\ [Todo.ofRow sampleRow]
     = Props.window (TodoPagination.mk 1 0) [Todo.ofRow sampleRow].
Proof.
  split; [simpl; lia |].
  apply (getAllTodos_page_is_window
           None None (TodoPagination.mk 1 0) sampleEnv
           (snd (Todos.getAllTodos None None
                                   (Some (TodoPagination.mk 1 0)) sampleEnv))
           (snd (Todos.getAllTodos None None None sampleEnv))
           [Todo.ofRow sampleRow] [Todo.ofRow sampleRow]);
    [simpl; lia | reflexivity | reflexivity].
Defined.

(* ===================================================================== *)
(** ** The dedicated readers and the search *)
(* ===================================================================== *)

Section Dedicated.
Import Run Errors Todos.

Lemma filter_single (c : Engine.Cond) (t : list Row.t) :
  filter (Engine.holdsOpt (Some (Engine.And [c]))) t
  = filter (Engine.holdsOpt (Some c)) t.
Proof.
  apply filter_ext. intros r. cbn [Engine.holdsOpt Engine.holds].
  apply andb_true_r.
Qed.

(** X11. Each dedicated reader is [getAllTodos] with one filter key, the
    default sort and no page: with a storage that answers,
    [getTodosByStatus] returns what the [completed] key returns,
    [getTodosByPriority] on a non-empty priority what the [priority] key
    returns, and [searchTodos] on a term that is not blank what the
    [search] key returns. *)
Theorem dedicated_readers_are_filters :
  forall (env : Env),
    Spec.healthy env ->
    (forall completed,
        fst (getTodosByStatus completed env)
        = fst (getAllTodos (Some (TodoFilter.mk (Some completed) None None))
                           None None env))
    /\ (forall priority,
           priority <> "" ->
           fst (getTodosByPriority priority env)
           = fst (getAllTodos (Some (TodoFilter.mk None (Some priority) None))
                              None None env))
    /\ (forall searchTerm,
           Spec.blank searchTerm = false ->
           fst (searchTodos searchTerm env)
           = fst (getAllTodos
                    (Some (TodoFilter.mk None None (Some searchTerm)))
                    None None env)).
Proof.
  intros env Hh. split; [| split].
  - intros completed.
    unfold getTodosByStatus, getAllTodos, tryCatch, select.
    cbv zeta. rewrite !(call_healthy _ _ _ Hh). cbn [fst snd].
    f_equal. f_equal. unfold Engine.runSelect. cbn. 
    now rewrite filter_single.
  - intros [| a p] Hne; [congruence |].
    unfold getTodosByPriority, getAllTodos, tryCatch, select.
    cbv zeta. rewrite !(call_healthy _ _ _ Hh). cbn [fst snd].
    f_equal. f_equal. unfold Engine.runSelect.
    cbn -[String.eqb]. now rewrite filter_single.
  - intros searchTerm Hblank.
    assert (Htrim : JS.trim searchTerm <> "").
    { intros H. apply trim_empty_iff in H. congruence. }
    unfold searchTodos.
    destruct (JS.trim searchTerm) as [| c rest]; [congruence |].
    destruct searchTerm as [| a term]; [discriminate |].
    cbn [JS.truthy JS.isEmpty negb].
    unfold getAllTodos, tryCatch, select.
    cbv zeta. rewrite !(call_healthy _ _ _ Hh). cbn [fst snd].
    f_equal. f_equal. unfold Engine.runSelect.
    cbn -[Engine.like String.append JS.toLowerCase].
    now rewrite filter_single.
Qed.

Lemma like_star (pattern u : string) :
  Engine.patternCompare (String "%" pattern) u
  = Engine.patternCompare pattern u
    || match u with
       | EmptyString => false
       | String _ u' => Engine.patternCompare (String "%" pattern) u'
       end.
Proof. destruct u; reflexivity. Qed.

Lemma like_char (p c : ascii) (pattern s : string) :
  Ascii.eqb p "%" = false ->
  Engine.patternCompare (String p pattern) (String c s)
  = (Ascii.eqb p "_"
     || Ascii.eqb (Engine.foldCase p) (Engine.foldCase c))
    && Engine.patternCompare pattern s.
Proof. intros H. cbn [Engine.patternCompare]. rewrite H. reflexivity. Qed.

(** A trailing [%] matches whatever is left. *)
Lemma like_rest (u : string) : Engine.patternCompare "%" u = true.
Proof.
  induction u as [| c u IH]; [reflexivity |].
  rewrite like_star, IH. apply orb_true_r.
Qed.

Lemma like_prefix (term : string) :
  forall found after,
    Props.sameUpToCase term found = true ->
    Engine.patternCompare (term ++ "%") (found ++ after) = true.
Proof.
  induction term as [| x term IH]; intros [| y found] after Hsame;
    try discriminate.
  - apply like_rest.
  - cbn [Props.sameUpToCase] in Hsame. apply andb_true_iff in Hsame.
    destruct Hsame as [Hxy Hsame]. specialize (IH found after Hsame).
    cbn [String.append].
    destruct (Ascii.eqb x "%") eqn:Hx.
    + apply Ascii.eqb_eq in Hx. subst x.
      rewrite like_star. apply orb_true_iff. right.
      rewrite like_star, IH. reflexivity.
    + rewrite (like_char _ _ _ _ Hx), Hxy, IH, orb_true_r. reflexivity.
Qed.

(** [%term%] matches every text that holds the term. *)
Lemma patternCompare_contains (term text : string) :
  Props.contains text term ->
  Engine.patternCompare ("%" ++ term ++ "%") text = true.
Proof.
  intros [before [found [after [-> Hsame]]]]. cbn [String.append].
  induction before as [| c before IH]; cbn [String.append];
    rewrite like_star.
  - rewrite (like_prefix term found after Hsame). reflexivity.
  - rewrite IH. apply orb_true_r.
Qed.

(** A text without NUL is read to its end, and what follows it up to the
    next NUL. *)
Lemma untilNul_app (a b : string) :
  Props.nulFree a ->
  Engine.untilNul (a ++ b) = (a ++ Engine.untilNul b)%string.
Proof.
  unfold Props.nulFree.
  induction a as [| c a IH]; cbn [Engine.untilNul String.append];
    [reflexivity |].
  destruct (Ascii.eqb c "000"); [discriminate |].
  intros H. injection H as H. now rewrite (IH H).
Qed.

Lemma untilNul_nulFree (s : string) : Props.nulFree (Engine.untilNul s).
Proof.
  unfold Props.nulFree.
  induction s as [| c s IH]; cbn [Engine.untilNul]; [reflexivity |].
  destruct (Ascii.eqb c "000") eqn:Hc; cbn [Engine.untilNul];
    [reflexivity |].
  now rewrite Hc, IH.
Qed.

(** Lower-casing neither makes nor removes a NUL. *)
Lemma lowerChar_nul (c : ascii) :
  Ascii.eqb (JS.lowerChar c) "000" = Ascii.eqb c "000".
Proof. destruct c as [[] [] [] [] [] [] [] []]; reflexivity. Qed.

Lemma nulFree_toLowerCase (s : string) :
  Props.nulFree s -> Props.nulFree (JS.toLowerCase s).
Proof.
  unfold Props.nulFree.
  induction s as [| c s IH]; cbn [Engine.untilNul JS.toLowerCase];
    [reflexivity |].
  rewrite lowerChar_nul.
  destruct (Ascii.eqb c "000"); [discriminate |].
  intros H. injection H as H. now rewrite (IH H).
Qed.

(** [text LIKE %term%], for a term without NUL, holds of every text that
    has the term before its first NUL. *)
Lemma like_contains (term text : string) :
  Props.nulFree term ->
  Props.contains (Engine.untilNul text) term ->
  Engine.like ("%" ++ term ++ "%") text = true.
Proof.
  intros Hterm Hc. unfold Engine.like.
  change (Engine.untilNul ("%" ++ term ++ "%"))
    with (String "%" (Engine.untilNul (term ++ "%"))).
  rewrite (untilNul_app term "%" Hterm).
  now apply patternCompare_contains.
Qed.

(** A pattern with a NUL right after its first [%] is the pattern [%]. *)
Lemma like_nul (rest text : string) :
  Engine.like (String "%" (String "000" rest)) text = true.
Proof. unfold Engine.like. cbn [Engine.untilNul Ascii.eqb Bool.eqb]. apply like_rest. Qed.

(** X12. The search finds what holds the term: when [searchTodos]
    succeeds on a term that is not blank and has no NUL, every row whose
    title, or whose description, holds the lower-cased term somewhere
    before its first NUL (LIKE reads a text no further), in whatever case
    its letters A to Z are written, is among the records returned.  A
    term that begins with a NUL finds every row: its pattern ends at the
    NUL and is [%]. *)
Theorem searchTodos_finds :
  forall (searchTerm : string) (env env' : Env) (result : list Todo.t)
         (r : Row.t),
    Spec.blank searchTerm = false ->
    searchTodos searchTerm env = (Ok result, env') ->
    In r (table env) ->
    (Props.nulFree searchTerm ->
     Props.contains (Engine.untilNul (Row.title r))
                    (JS.toLowerCase searchTerm)
     \/ (exists d, Row.description r = Some d
                   /\ Props.contains (Engine.untilNul d)
                                     (JS.toLowerCase searchTerm)) ->
     In (Todo.ofRow r) result)
    /\ (forall rest,
           searchTerm = String "000" rest -> In (Todo.ofRow r) result).
Proof.
  intros searchTerm env env' result r Hblank Hrun Hin.
  assert (Htrim : JS.trim searchTerm <> "").
  { intros H. apply trim_empty_iff in H. congruence. }
  unfold searchTodos in Hrun.
  destruct (JS.trim searchTerm) as [| c rest]; [congruence |].
  cbn [JS.truthy JS.isEmpty negb] in Hrun.
  unfold tryCatch in Hrun. cbv zeta in Hrun.
  destruct (select _ env) as [o env1] eqn:Hsel.
  apply select_inv in Hsel. destruct Hsel as [-> [[-> _] | ->]];
    [discriminate |].
  injection Hrun as <- _.
  assert (Hrow : Engine.like ("%" ++ JS.toLowerCase searchTerm ++ "%")
                             (Row.title r) = true
                 \/ (exists d, Row.description r = Some d
                               /\ Engine.like
                                    ("%" ++ JS.toLowerCase searchTerm ++ "%")
                                    d = true) ->
                 In (Todo.ofRow r)
                    (map Todo.ofRow
                         (Engine.runSelect
                            (Engine.orderBy TodoSort.createdAt TodoSort.desc
                               (Engine.where_
                                  (Engine.Or
                                     (Engine.LikeTitle
                                        ("%" ++ JS.toLowerCase searchTerm
                                             ++ "%"))
                                     (Engine.LikeDescription
                                        ("%" ++ JS.toLowerCase searchTerm
                                             ++ "%")))
                                  Engine.selectFromTodos))
                            (table env)))).
  { intros Hlike. apply in_map. unfold Engine.runSelect.
    cbn -[Engine.like String.append JS.toLowerCase Engine.sortBy].
    apply (Permutation_in _ (Permutation_sym (sortBy_perm _ _))).
    apply filter_In. split; [exact Hin |].
    cbn -[Engine.like String.append JS.toLowerCase].
    apply orb_true_iff.
    destruct Hlike as [Ht | [d [Hd Hl]]]; [left; exact Ht |].
    right. rewrite Hd. exact Hl. }
  split.
  - intros Hnul Hholds. apply Hrow.
    apply nulFree_toLowerCase in Hnul.
    destruct Hholds as [Ht | [d [Hd Hc]]].
    + left. now apply like_contains.
    + right. exists d. split; [exact Hd | now apply like_contains].
  - intros rest0 ->. apply Hrow. left.
    cbn [JS.toLowerCase String.append].
    change (JS.lowerChar "000") with "000"%char. apply like_nul.
Qed.

End Dedicated.

Lemma dedicated_readers_are_filters_witness :
  Spec.healthy sampleEnv
  /\ fst (Todos.getTodosByPriority "medium" sampleEnv)
     = Run.Ok [Todo.ofRow sampleRow]
  /\ fst (Todos.getAllTodos (Some (TodoFilter.mk None (Some "medium") None))
                            None None sampleEnv)
     = Run.Ok [Todo.ofRow sampleRow].
Proof.
  assert (Hh : Spec.healthy sampleEnv) by constructor.
  split; [exact Hh |]. split; [reflexivity |].
  rewrite <- (proj1 (proj2 (dedicated_readers_are_filters sampleEnv Hh))
                    "medium").
  - reflexivity.
  - discriminate.
Defined.

Lemma searchTodos_finds_witness :
  Spec.blank "MILK" = false
  /\ Props.nulFree "MILK"
  /\ Props.contains (Engine.untilNul (Row.title sampleRow))
                    (JS.toLowerCase "MILK")
  /\ In (Todo.ofRow sampleRow) [Todo.ofRow sampleRow].
Proof.
  assert (Hc : Props.contains (Engine.untilNul (Row.title sampleRow))
                              (JS.toLowerCase "MILK")).
  { exists "Buy ", "milk", "". split; reflexivity. }
  split; [reflexivity |]. split; [reflexivity |]. split; [exact Hc |].
  apply (proj1 (searchTodos_finds "MILK" sampleEnv
                  (snd (Todos.searchTodos "MILK" sampleEnv))
                  [Todo.ofRow sampleRow] sampleRow
                  eq_refl eq_refl (or_introl eq_refl)));
    [reflexivity | left; exact Hc].
Defined.

(* ===================================================================== *)
(** ** What a bulk update writes *)
(* ===================================================================== *)

Section BulkEffect.
Import Run Errors Todos.

Lemma applySet_idem (u : UpdateSet.t) (r : Row.t) :
  Engine.applySet u (Engine.applySet u r) = Engine.applySet u r.
Proof. destruct u as [[t |] [d |] [c |] [p |] now]; reflexivity. Qed.

Lemma listed_applySet (u : UpdateSet.t) (ids : list JS.number) (r : Row.t) :
  Props.listed ids (Engine.applySet u r) = Props.listed ids r.
Proof. reflexivity. Qed.

(** However the loop over ids ends without raising, it has rewritten the
    rows whose id is listed, once, and no other. *)
Lemma updateBatch_table (u : UpdateSet.t) (ids : list JS.number) :
  forall (count n : nat) (env env' : Env),
    updateBatch u ids count env = (Ok n, env') ->
    table env'
    = map (fun r => if Props.listed ids r then Engine.applySet u r else r)
          (table env).
Proof.
  induction ids as [| id ids IH]; intros count n env env' Hrun.
  - injection Hrun as _ <-. cbn [Props.listed existsb].
    symmetry. apply map_id.
  - cbn [updateBatch] in Hrun. unfold bind at 1 in Hrun.
    destruct (update u (Engine.EqId id) env) as [[result | e] env1] eqn:Hup;
      [| discriminate].
    unfold update in Hup. apply call_ok in Hup. cbn [fst snd] in Hup.
    destruct Hup as [_ ->].
    apply IH in Hrun. rewrite Hrun. cbn [table].
    unfold Engine.updateRows. rewrite map_map. apply map_ext.
    intros r.
    change (Props.listed (id :: ids) r)
      with (Engine.eqId id (Row.id r) || Props.listed ids r).
    cbn [Engine.holds].
    destruct (Engine.eqId id (Row.id r)); cbn [orb]; [| reflexivity].
    rewrite listed_applySet.
    destruct (Props.listed ids r); [apply applySet_idem | reflexivity].
Qed.

(** A [bulkUpdateTodos] that returns did nothing on the empty list and
    otherwise ran the loop over all ids to its end. *)
Lemma bulkUpdateTodos_ok (ids : list JS.number) (updates : UpdateTodoData.t)
      (env env' : Env) (n : nat) :
  bulkUpdateTodos ids updates env = (Ok n, env') ->
  (ids = [] /\ env' = env)
  \/ updateBatch (withUpdatedAt updates (clock env)) ids 0 env = (Ok n, env').
Proof.
  unfold bulkUpdateTodos.
  destruct ids as [| id0 rest] eqn:Eids.
  { intros H. injection H as _ <-. auto. }
  rewrite <- Eids. replace (Nat.eqb (List.length ids) 0) with false
    by (rewrite Eids; reflexivity).
  intros Hrun. right. unfold bind at 1 in Hrun.
  destruct (validateIds ids env) as [r env1] eqn:Hval.
  apply validateIds_inv in Hval.
  destruct Hval as [-> [-> | [e [-> _]]]]; [| discriminate].
  unfold tryCatch, bind, newDate in Hrun.
  rewrite updateBatches_flat in Hrun by lia. simpl skipn in Hrun.
  destruct (updateBatch _ ids 0 env) as [[n' | e] env2]; [| discriminate].
  exact Hrun.
Qed.

(** X13. What a bulk update writes: when [bulkUpdateTodos] returns, every
    row whose id is listed holds the clock reading in [updatedAt] and, for
    each of title, description, [completed] and priority that the updates
    give, the value exactly as given, untrimmed and unchecked; it keeps
    its id, its [createdAt] and the fields the updates leave out.  Every
    other row is as it was, and no row is added, removed or moved. *)
Theorem bulkUpdateTodos_writes :
  forall (ids : list JS.number) (updates : UpdateTodoData.t)
         (env env' : Env) (n : nat),
    bulkUpdateTodos ids updates env = (Ok n, env') ->
    List.length (table env') = List.length (table env)
    /\ forall (i : nat) (r : Row.t),
        nth_error (table env) i = Some r ->
        exists r',
          nth_error (table env') i = Some r'
          /\ Row.id r' = Row.id r
          /\ Row.createdAt r' = Row.createdAt r
          /\ (Props.listed ids r = false -> r' = r)
          /\ (Props.listed ids r = true ->
              Row.updatedAt r' = Schema.timestampToDriver (clock env)
              /\ Row.title r'
                 = match UpdateTodoData.title updates with
                   | Some title => title
                   | None => Row.title r
                   end
              /\ Row.description r'
                 = match UpdateTodoData.description updates with
                   | Some description => Some description
                   | None => Row.description r
                   end
              /\ Row.completed r'
                 = match UpdateTodoData.completed updates with
                   | Some completed => completed
                   | None => Row.completed r
                   end
              /\ Row.priority r'
                 = match UpdateTodoData.priority updates with
                   | Some priority => priority
                   | None => Row.priority r
                   end).
Proof.
  intros ids updates env env' n Hrun.
  assert (Htable : table env'
                   = map (fun r => if Props.listed ids r
                                   then Engine.applySet
                                          (withUpdatedAt updates (clock env)) r
                                   else r) (table env)).
  { apply bulkUpdateTodos_ok in Hrun. destruct Hrun as [[-> ->] | Hrun].
    - symmetry. apply map_id.
    - exact (updateBatch_table _ _ _ _ _ _ Hrun). }
  rewrite Htable. split; [apply length_map |].
  intros i r Hi. rewrite nth_error_map, Hi. cbn [option_map].
  eexists. split; [reflexivity |].
  destruct (Props.listed ids r).
  - split; [reflexivity |]. split; [reflexivity |].
    split; [discriminate |]. intros _. repeat split.
  - split; [reflexivity |]. split; [reflexivity |].
    split; [reflexivity | discriminate].
Qed.

End BulkEffect.

Lemma bulkUpdateTodos_writes_witness :
  Todos.bulkUpdateTodos [JS.Num 1; JS.Num 9] sampleUpdate sampleEnv
  = (Run.Ok 1%nat,
     snd (Todos.bulkUpdateTodos [JS.Num 1; JS.Num 9] sampleUpdate sampleEnv))
  /\ Props.listed [JS.Num 1; JS.Num 9] sampleRow = true
  /\ exists r',
       nth_error
         (Run.table (snd (Todos.bulkUpdateTodos [JS.Num 1; JS.Num 9]
                                                sampleUpdate sampleEnv))) 0
       = Some r'
       /\ Row.title r' = "  Buy oat milk "
       /\ Row.description r' = Some "two litres".
Proof.
  assert (Hrun : Todos.bulkUpdateTodos [JS.Num 1; JS.Num 9] sampleUpdate
                                       sampleEnv
                 = (Run.Ok 1%nat,
                    snd (Todos.bulkUpdateTodos [JS.Num 1; JS.Num 9]
                                               sampleUpdate sampleEnv)))
    by reflexivity.
  split; [exact Hrun |]. split; [reflexivity |].
  destruct (bulkUpdateTodos_writes _ _ _ _ _ Hrun) as [_ Hrows].
  destruct (Hrows O sampleRow eq_refl)
    as [r' [Hnth [_ [_ [_ Hlisted]]]]].
  destruct (Hlisted eq_refl) as [_ [Htitle [Hdesc _]]].
  exists r'. split; [exact Hnth |]. split; [exact Htitle | exact Hdesc].
Defined.

Section Keys.
Import Run Errors Todos.

Lemma keys_updateRows (u : UpdateSet.t) (w : Engine.Cond) (t : list Row.t) :
  Props.keys (Engine.updateRows u w t) = Props.keys t.
Proof.
  unfold Props.keys, Engine.updateRows. rewrite map_map. apply map_ext.
  intros r. destruct (Engine.holds w r); reflexivity.
Qed.

Lemma keepsKeys_ret {A : Type} (a : A) : Props.keepsKeys (ret a).
Proof. intros env outcome env' H. injection H as _ <-. auto. Qed.

Lemma keepsKeys_newDate : Props.keepsKeys newDate.
Proof. intros env outcome env' H. injection H as _ <-. auto. Qed.

Lemma keepsKeys_throw {A : Type} (e : Thrown) : Props.keepsKeys (@throw A e).
Proof. intros env outcome env' H. injection H as _ <-. auto. Qed.

Lemma keepsKeys_bind {A B : Type} (m : M A) (k : A -> M B) :
  Props.keepsKeys m -> (forall a, Props.keepsKeys (k a)) ->
  Props.keepsKeys (bind m k).
Proof.
  intros Hm Hk env outcome env'. unfold bind.
  destruct (m env) as [[a | e] env1] eqn:Hrun; intros H.
  - destruct (Hm _ _ _ Hrun) as [K1 S1].
    destruct (Hk a _ _ _ H) as [K2 S2]. rewrite K2, S2. auto.
  - injection H as _ <-. apply (Hm _ _ _ Hrun).
Qed.

Lemma keepsKeys_tryCatch {A : Type} (m : M A) (handler : Thrown -> M A) :
  Props.keepsKeys m -> (forall e, Props.keepsKeys (handler e)) ->
  Props.keepsKeys (tryCatch m handler).
Proof.
  intros Hm Hk env outcome env'. unfold tryCatch.
  destruct (m env) as [[a | e] env1] eqn:Hrun; intros H.
  - injection H as _ <-. apply (Hm _ _ _ Hrun).
  - destruct (Hm _ _ _ Hrun) as [K1 S1].
    destruct (Hk e _ _ _ H) as [K2 S2]. rewrite K2, S2. auto.
Qed.

Lemma keepsKeys_readOnly {A : Type} (m : M A) :
  Props.readOnly m -> Props.keepsKeys m.
Proof.
  intros Hm env outcome env' H. destruct (Hm _ _ _ H) as [-> [-> _]]. auto.
Qed.

Lemma keepsKeys_update (u : UpdateSet.t) (w : Engine.Cond) :
  Props.keepsKeys (update u w) /\ Props.keepsKeys (updateReturning u w).
Proof.
  split; intros env outcome env' H; apply call_inv in H; cbn [fst snd] in H;
    destruct H as [[_ [_ ->]] | [_ ->]]; cbn [table sequence Props.sent];
    rewrite ?keys_updateRows; auto.
Qed.

Lemma keepsKeys_handler {A : Type} (message : Message) (e : Thrown) :
  Props.keepsKeys
    (if isValidationError e then @throw A e
     else throw (database message)).
Proof. destruct (isValidationError e); apply keepsKeys_throw. Qed.

Lemma keepsKeys_updateTodo (id : JS.number) (data : UpdateTodoData.t) :
  Props.keepsKeys (updateTodo id data).
Proof.
  unfold updateTodo.
  destruct (invalidId id); [apply keepsKeys_throw |].
  destruct (updateTitleError _); [apply keepsKeys_throw |].
  destruct (descriptionTooLong _); [apply keepsKeys_throw |].
  destruct (priorityInvalid _); [apply keepsKeys_throw |].
  apply keepsKeys_tryCatch; [| intros e; apply keepsKeys_handler].
  apply keepsKeys_bind; [apply keepsKeys_newDate |].
  intros now. apply keepsKeys_bind; [apply keepsKeys_update |].
  intros result. apply keepsKeys_ret.
Qed.

Lemma keepsKeys_updateBatch (u : UpdateSet.t) (ids : list JS.number) :
  forall count, Props.keepsKeys (updateBatch u ids count).
Proof.
  induction ids as [| id ids IH]; intros count; simpl.
  - apply keepsKeys_ret.
  - apply keepsKeys_bind; [apply keepsKeys_update | intros r; apply IH].
Qed.

Lemma keepsKeys_updateBatches (u : UpdateSet.t) (ids : list JS.number) :
  forall steps i count, Props.keepsKeys (updateBatches steps u ids i count).
Proof.
  induction steps as [| steps IH]; intros i count; simpl.
  - apply keepsKeys_ret.
  - destruct (Nat.ltb i (List.length ids)); [| apply keepsKeys_ret].
    apply keepsKeys_bind; [apply keepsKeys_updateBatch | intros c; apply IH].
Qed.

(** X14. The operations that update never add, remove, move or renumber
    a row: after [updateTodo], [toggleTodoComplete] and
    [bulkUpdateTodos], whatever their arguments and however they end, a
    bulk update that stopped half way included, the table holds the same
    ids with the same [createdAt] in the same places, and the
    AUTOINCREMENT sequence has not moved. *)
Theorem updates_keep_ids_and_createdAt :
  (forall id data, Props.keepsKeys (updateTodo id data))
  /\ (forall id, Props.keepsKeys (toggleTodoComplete id))
  /\ (forall ids updates, Props.keepsKeys (bulkUpdateTodos ids updates)).
Proof.
  split; [apply keepsKeys_updateTodo |]. split.
  - intros id. unfold toggleTodoComplete.
    apply keepsKeys_tryCatch; [| intros e; apply keepsKeys_handler].
    apply keepsKeys_bind.
    + apply keepsKeys_readOnly. apply readOnly_getTodoById.
    + intros [todo |]; [apply keepsKeys_updateTodo | apply keepsKeys_ret].
  - intros ids updates. unfold bulkUpdateTodos.
    destruct (Nat.eqb (List.length ids) 0); [apply keepsKeys_ret |].
    apply keepsKeys_bind.
    + intros env outcome env' H. apply validateIds_inv in H.
      destruct H as [-> _]. auto.
    + intros _. apply keepsKeys_tryCatch; [| intros e; apply keepsKeys_throw].
      apply keepsKeys_bind; [apply keepsKeys_newDate |].
      intros now. apply keepsKeys_updateBatches.
Qed.

Lemma updateBatch_prefix (u : UpdateSet.t) (ids : list JS.number) :
  forall (count : nat) (env : Env) (rest : list bool),
    faults env = repeat false (List.length ids) ++ rest ->
    exists n env',
      updateBatch u ids count env = (Ok n, env')
      /\ faults env' = rest
      /\ trace env'
         = trace env
           ++ map (fun id => Engine.Update u (Engine.EqId id) false) ids.
Proof.
  induction ids as [| id ids IH]; intros count env rest Hf.
  - exists count, env. rewrite app_nil_r. auto.
  - cbn [updateBatch]. unfold bind at 1, update at 1, call.
    rewrite Hf. cbn [List.length repeat app tl].
    match goal with
    | |- context [updateBatch u ids ?c ?e] =>
        destruct (IH c e rest eq_refl) as [n [env' [Hrun [Hf' Ht']]]]
    end.
    exists n, env'. split; [exact Hrun |]. split; [exact Hf' |].
    rewrite Ht'. cbn [trace map]. rewrite <- app_assoc. reflexivity.
Qed.

(** X15. A bulk update is not all or nothing: when the engine answers
    the statements for the first ids and raises on the next, with every id
    a positive integer, [bulkUpdateTodos] raises the Database error, the
    rows named by those first ids stay rewritten, every other row is as it
    was, and no statement is sent for the ids that follow. *)
Theorem bulkUpdateTodos_stops_half_way :
  forall (done rest : list JS.number) (id : JS.number)
         (updates : UpdateTodoData.t) (env : Env) (more : list bool),
    Forall Spec.isPositiveInteger (done ++ id :: rest) ->
    faults env = repeat false (List.length done) ++ true :: more ->
    exists env',
      bulkUpdateTodos (done ++ id :: rest) updates env
      = (Throw (database (Msg "Failed to bulk update todos")), env')
      /\ table env'
         = map (fun r => if Props.listed done r
                         then Engine.applySet
                                (withUpdatedAt updates (clock env)) r
                         else r) (table env)
      /\ trace env'
         = trace env
           ++ map (fun id' =>
                     Engine.Update (withUpdatedAt updates (clock env))
                                   (Engine.EqId id') false)
                  (done ++ [id]).
Proof.
  intros done rest id updates env more Hvalid Hf.
  assert (Hids : Forall (fun i => invalidId i = false) (done ++ id :: rest)).
  { eapply Forall_impl; [| exact Hvalid]. intros i. apply valid_id. }
  set (ids := done ++ id :: rest) in *.
  set (u := withUpdatedAt updates (clock env)).
  unfold bulkUpdateTodos.
  replace (Nat.eqb (List.length ids) 0) with false
    by (unfold ids; rewrite length_app; simpl;
        symmetry; apply Nat.eqb_neq; lia).
  unfold bind at 1. rewrite (validateIds_accepts ids env Hids).
  unfold tryCatch, bind at 1, newDate.
  rewrite updateBatches_flat by lia. simpl skipn. fold u.
  unfold ids. rewrite updateBatch_app. unfold bind at 1.
  destruct (updateBatch_prefix u done 0 env (true :: more) Hf)
    as [n [env1 [Hrun [Hf1 Ht1]]]].
  rewrite Hrun. apply updateBatch_table in Hrun.
  cbn [updateBatch]. unfold bind at 1, update at 1, call. rewrite Hf1.
  eexists. split; [reflexivity |]. cbn [table trace].
  split; [exact Hrun |].
  rewrite Ht1, map_app, <- app_assoc. reflexivity.
Qed.

End Keys.

Lemma bulkUpdateTodos_stops_half_way_witness :
  Forall Spec.isPositiveInteger ([JS.Num 1] ++ JS.Num 9 :: [])
  /\ Run.faults (Run.mkEnv [sampleRow] 1 [] [false; true] 1700000005123)
     = repeat false (List.length [JS.Num 1]) ++ true :: []
  /\ exists env',
       Todos.bulkUpdateTodos ([JS.Num 1] ++ JS.Num 9 :: []) sampleUpdate
         (Run.mkEnv [sampleRow] 1 [] [false; true] 1700000005123)
       = (Run.Throw (Todos.database
                       (Errors.Msg "Failed to bulk update todos")), env')
       /\ map Row.completed (Run.table env') = [true].
Proof.
  assert (Hids : Forall Spec.isPositiveInteger ([JS.Num 1] ++ JS.Num 9 :: [])).
  { constructor; [exists 1; split; [lia | reflexivity] |].
    constructor; [exists 9; split; [lia | reflexivity] | constructor]. }
  split; [exact Hids |]. split; [reflexivity |].
  destruct (bulkUpdateTodos_stops_half_way
              [JS.Num 1] [] (JS.Num 9) sampleUpdate
              (Run.mkEnv [sampleRow] 1 [] [false; true] 1700000005123)
              [] Hids eq_refl) as [env' [Hrun [Htable _]]].
  exists env'. split; [exact Hrun |]. rewrite Htable. reflexivity.
Defined.

(* ===================================================================== *)
(** ** Which inputs are accepted, and what is stored of them *)
(* ===================================================================== *)

Section Accepted.
Import Run Errors Todos.

Lemma title_checks_iff (title : string) :
  (titleBlank title = false /\ titleTooLong title = false)
  <-> ~ Spec.titleRejected (Some title).
Proof.
  unfold Spec.titleRejected, titleTooLong. split.
  - intros [Hb Hl] [H | H].
    + apply titleBlank_iff in H. congruence.
    + apply Nat.ltb_lt in H. congruence.
  - intros H. split.
    + destruct (titleBlank title) eqn:Hb; [| reflexivity].
      exfalso. apply H. left. now apply titleBlank_iff.
    + destruct (Nat.ltb _ _) eqn:Hl; [| reflexivity].
      exfalso. apply H. right. now apply Nat.ltb_lt.
Qed.

Lemma description_check_iff (description : option string) :
  descriptionTooLong description = false
  <-> match description with
      | Some d => (String.length d <= 1000)%nat
      | None => True
      end.
Proof.
  destruct description as [d |]; simpl; [| tauto].
  unfold JS.truthy. rewrite andb_false_iff, Nat.ltb_ge, negb_false_iff.
  split; [| auto].
  intros [H | H]; [| exact H].
  apply isEmpty_iff in H. subst d. simpl. lia.
Qed.

Lemma priority_check_iff (priority : option string) :
  priorityInvalid priority = false
  <-> match priority with
      | Some p => p = "" \/ In p Schema.priorityEnum
      | None => True
      end.
Proof.
  destruct priority as [p |]; simpl; [| tauto].
  split.
  - intros H. destruct p as [| a p]; [now left |]. right.
    pose proof (priority_checked (Some (String a p)) H) as Hin.
    exact Hin.
  - intros [-> | [<- | [<- | [<- | []]]]]; reflexivity.
Qed.

Lemma updateTitleError_iff (title : option string) :
  updateTitleError title = None
  <-> match title with
      | Some t => ~ Spec.titleRejected (Some t)
      | None => True
      end.
Proof.
  unfold updateTitleError. destruct title as [t |]; [| tauto].
  rewrite <- title_checks_iff.
  destruct (titleBlank t); [split; [discriminate | intros [H _]; discriminate] |].
  destruct (titleTooLong t);
    [split; [discriminate | intros [_ H]; discriminate] | tauto].
Qed.

(** X16. With a storage that answers, [createTodo] returns a record
    exactly for the valid inputs: a title that is given, not blank and of
    at most 255 characters once trimmed, a description that is absent or
    of at most 1000 characters as given, a priority that is absent, empty
    or one of low, medium and high.  For every other input it raises a
    Validation error and the environment is the one that went in. *)
Theorem createTodo_accepts_the_valid :
  forall (data : CreateTodoData.t) (env : Env),
    Spec.healthy env ->
    ((exists todo env', createTodo data env = (Ok todo, env'))
     <-> Spec.validCreate data)
    /\ (~ Spec.validCreate data ->
        exists message field,
          createTodo data env
          = (Throw (Todo (ValidationError message field)), env)).
Proof.
  intros data env Hh.
  assert (Hiff : (exists todo env', createTodo data env = (Ok todo, env'))
                 <-> Spec.validCreate data).
  { split.
    - intros [todo [env' Hrun]].
      destruct (createTodo_inv _ _ _ _ Hrun)
        as [title [Ht [Hb [Hl [Hd [Hp _]]]]]].
      unfold Spec.validCreate. rewrite Ht.
      split; [apply title_checks_iff; auto |].
      split; [now apply description_check_iff
             | now apply priority_check_iff].
    - intros Hvalid.
      destruct (validCreate_checks data Hvalid)
        as [title [Ht [Hb [Hl [Hd Hp]]]]].
      do 2 eexists.
      apply (createTodo_run data title env Ht Hb Hl Hd Hp).
      now apply healthy_head. }
  split; [exact Hiff |].
  intros Hinvalid.
  destruct (createTodo data env) as [[todo | e] env'] eqn:Hrun.
  - exfalso. apply Hinvalid, Hiff. eauto.
  - pose proof (guarded_createTodo data _ _ _ Hrun) as Hg. simpl in Hg.
    destruct Hg as [[[message [field ->]] ->] | [_ Hbad]];
      [eauto | contradiction].
Qed.

(** X17. With a positive integer id and a storage that answers,
    [updateTodo] returns, a record or null, exactly for the valid partial
    data: a title, if given, not blank and of at most 255 characters once
    trimmed, a description, if given, of at most 1000 characters as
    given, a priority, if given, empty or one of low, medium and high.
    For every other data it raises a Validation error and the environment
    is the one that went in. *)
Theorem updateTodo_accepts_the_valid :
  forall (id : JS.number) (data : UpdateTodoData.t) (env : Env),
    Spec.isPositiveInteger id ->
    Spec.healthy env ->
    ((exists result env', updateTodo id data env = (Ok result, env'))
     <-> Props.validUpdate data)
    /\ (~ Props.validUpdate data ->
        exists message field,
          updateTodo id data env
          = (Throw (Todo (ValidationError message field)), env)).
Proof.
  intros id data env Hpos Hh. apply valid_id in Hpos.
  assert (Hiff : (exists result env',
                     updateTodo id data env = (Ok result, env'))
                 <-> Props.validUpdate data).
  { unfold Props.validUpdate.
    rewrite <- updateTitleError_iff, <- description_check_iff,
      <- priority_check_iff.
    split.
    - intros [result [env' Hrun]]. apply updateTodo_ok in Hrun.
      cbv zeta in Hrun. tauto.
    - intros [Ht [Hd Hp]].
      apply (updateTodo_run id data env Hpos Ht Hd Hp).
      now apply healthy_head. }
  split; [exact Hiff |].
  intros Hinvalid.
  destruct (updateTodo id data env) as [[result | e] env'] eqn:Hrun.
  - exfalso. apply Hinvalid, Hiff. eauto.
  - pose proof (guarded_updateTodo id data _ _ _ Hrun) as Hg. simpl in Hg.
    destruct Hg as [[[message [field ->]] ->] | [_ Hbad]];
      [eauto | contradiction].
Qed.

Lemma trimEnd_blank (s : string) :
  Spec.blank (JS.trimEnd s) = Spec.blank s.
Proof.
  induction s as [| c s IH]; [reflexivity |].
  cbn [JS.trimEnd Spec.blank].
  destruct (JS.isWhiteSpace c) eqn:Hc; cbn [andb].
  - destruct (JS.isEmpty (JS.trimEnd s)) eqn:He.
    + apply isEmpty_iff, trimEnd_empty_iff in He. rewrite He. reflexivity.
    + cbn [Spec.blank]. rewrite Hc. exact IH.
  - cbn [Spec.blank]. rewrite Hc. reflexivity.
Qed.

Lemma trim_blank (s : string) : Spec.blank (JS.trim s) = Spec.blank s.
Proof. unfold JS.trim. now rewrite trimEnd_blank, trimStart_blank. Qed.

Lemma trimStart_length (s : string) :
  (String.length (JS.trimStart s) <= String.length s)%nat.
Proof.
  induction s as [| c s IH]; simpl; [lia |].
  destruct (JS.isWhiteSpace c); simpl; lia.
Qed.

Lemma trimEnd_length (s : string) :
  (String.length (JS.trimEnd s) <= String.length s)%nat.
Proof.
  induction s as [| c s IH]; simpl; [lia |].
  destruct (JS.isWhiteSpace c && JS.isEmpty (JS.trimEnd s)); simpl; lia.
Qed.

(** Trimming never lengthens. *)
Lemma trim_length (s : string) :
  (String.length (JS.trim s) <= String.length s)%nat.
Proof.
  unfold JS.trim. pose proof (trimEnd_length (JS.trimStart s)).
  pose proof (trimStart_length s). lia.
Qed.

Lemma stored_title_wellFormed (t : string) :
  titleBlank t = false -> titleTooLong t = false ->
  Spec.blank (JS.trim t) = false
  /\ (String.length (JS.trim t) <= 255)%nat.
Proof.
  intros Hb Hl. split.
  - rewrite trim_blank. destruct (Spec.blank t) eqn:H; [| reflexivity].
    apply titleBlank_iff in H. congruence.
  - now apply Nat.ltb_ge.
Qed.

Lemma stored_description_wellFormed (description : option string) (d : string) :
  descriptionTooLong description = false ->
  orElse (trimOpt description) None = Some d ->
  d <> "" /\ (String.length d <= 1000)%nat.
Proof.
  intros Hlong. apply description_check_iff in Hlong.
  destruct description as [d0 |]; simpl; [| discriminate].
  destruct (JS.trim d0) as [| c rest] eqn:Htrim; simpl; [discriminate |].
  intros H. injection H as <-. split; [discriminate |].
  rewrite <- Htrim. pose proof (trim_length d0). lia.
Qed.

Lemma createTodo_wellFormed (data : CreateTodoData.t) (env env' : Env)
      (outcome : Outcome Todo.t) :
  createTodo data env = (outcome, env') ->
  Forall Props.wellFormed (table env) ->
  Forall Props.wellFormed (table env').
Proof.
  unfold createTodo.
  destruct (CreateTodoData.title data) as [title |];
    [| intros H; injection H as _ <-; auto].
  destruct (titleBlank title) eqn:Hb; [intros H; injection H as _ <-; auto |].
  destruct (titleTooLong title) eqn:Hl;
    [intros H; injection H as _ <-; auto |].
  destruct (descriptionTooLong _) eqn:Hd;
    [intros H; injection H as _ <-; auto |].
  destruct (priorityInvalid _); [intros H; injection H as _ <-; auto |].
  unfold tryCatch, bind, newDate, insertReturning.
  destruct (call _ _ env) as [r env1] eqn:Hcall.
  apply call_inv in Hcall. cbn [fst snd] in Hcall.
  destruct Hcall as [[-> [_ ->]] | [-> ->]]; intros H;
    injection H as _ <-; cbn [table Props.sent]; [auto |].
  intros Hwf. apply Forall_app. split; [exact Hwf |].
  constructor; [| constructor].
  destruct (stored_title_wellFormed title Hb Hl) as [H1 H2].
  split; [exact H1 |]. split; [exact H2 |].
  cbn [Row.description Engine.newRow InsertValues.description createValues].
  destruct (orElse _ None) as [d |] eqn:Hdesc; [| exact I].
  exact (stored_description_wellFormed _ d Hd Hdesc).
Qed.

Lemma updateTodo_wellFormed (id : JS.number) (data : UpdateTodoData.t)
      (env env' : Env) (outcome : Outcome (option Todo.t)) :
  updateTodo id data env = (outcome, env') ->
  Forall Props.wellFormed (table env) ->
  Forall Props.wellFormed (table env').
Proof.
  intros Hrun Hwf.
  destruct outcome as [result | e].
  + apply updateTodo_ok in Hrun. cbv zeta in Hrun.
    destruct Hrun as [-> [_ [_ [Ht [Hd _]]]]]. cbn [table].
    unfold Engine.updateRows. apply Forall_map.
    eapply Forall_impl; [| exact Hwf].
    intros r [W1 [W2 W3]].
    destruct (Engine.holds (Engine.EqId id) r); [| now repeat split].
    unfold Props.wellFormed, Engine.applySet.
    cbn [Row.title Row.description].
    rewrite updateData_title, updateData_description.
    revert Ht. unfold updateTitleError.
    destruct (UpdateTodoData.title data) as [t |]; cbn [trimOpt].
    * destruct (titleBlank t) eqn:Hb; [discriminate |].
      destruct (titleTooLong t) eqn:Hl; [discriminate |]. intros _.
      destruct (stored_title_wellFormed t Hb Hl) as [H1 H2].
      split; [exact H1 |]. split; [exact H2 |].
      destruct (orElse _ None) as [d |] eqn:Hdesc; [| exact W3].
      exact (stored_description_wellFormed _ d Hd Hdesc).
    * intros _. split; [exact W1 |]. split; [exact W2 |].
      destruct (orElse _ None) as [d |] eqn:Hdesc; [| exact W3].
      exact (stored_description_wellFormed _ d Hd Hdesc).
  + assert (Htable : table env' = table env).
    { revert Hrun. unfold updateTodo.
      destruct (invalidId id); [intros H; injection H as _ <-; auto |].
      destruct (updateTitleError _); [intros H; injection H as _ <-; auto |].
      destruct (descriptionTooLong _);
        [intros H; injection H as _ <-; auto |].
      destruct (priorityInvalid _); [intros H; injection H as _ <-; auto |].
      unfold tryCatch, bind, newDate, updateReturning.
      destruct (call _ _ env) as [r env1] eqn:Hcall.
      apply call_inv in Hcall. cbn [fst snd] in Hcall.
      destruct Hcall as [[-> [_ ->]] | [-> ->]]; [| discriminate].
      cbn [isValidationError]. intros H; injection H as _ <-.
      reflexivity. }
    rewrite Htable. exact Hwf.
Qed.

(** X18. [createTodo] and [updateTodo] keep the table well formed: if
    every row has a title that is not blank and of at most 255 characters
    and a description that is null or else not empty and of at most 1000
    characters, then so has every row after the call, however it ends. *)
Theorem create_and_update_keep_rows_well_formed :
  (forall data env outcome env',
      createTodo data env = (outcome, env') ->
      Forall Props.wellFormed (table env) ->
      Forall Props.wellFormed (table env'))
  /\ (forall id data env outcome env',
         updateTodo id data env = (outcome, env') ->
         Forall Props.wellFormed (table env) ->
         Forall Props.wellFormed (table env')).
Proof.
  split.
  - intros data env outcome env'. apply createTodo_wellFormed.
  - intros id data env outcome env'. apply updateTodo_wellFormed.
Qed.

End Accepted.

Lemma createTodo_accepts_the_valid_witness :
  Spec.healthy sampleEnv
  /\ ~ Spec.validCreate (CreateTodoData.mk (Some "x") None (Some "urgent"))
  /\ exists message field,
       Todos.createTodo (CreateTodoData.mk (Some "x") None (Some "urgent"))
                        sampleEnv
       = (Run.Throw (Errors.Todo (Errors.ValidationError message field)),
          sampleEnv).
Proof.
  assert (Hh : Spec.healthy sampleEnv) by constructor.
  assert (Hbad : ~ Spec.validCreate
                     (CreateTodoData.mk (Some "x") None (Some "urgent"))).
  { intros [_ [_ [H | [H | [H | [H | []]]]]]]; discriminate H. }
  split; [exact Hh |]. split; [exact Hbad |].
  apply (proj2 (createTodo_accepts_the_valid
                  (CreateTodoData.mk (Some "x") None (Some "urgent"))
                  sampleEnv Hh)).
  exact Hbad.
Defined.

Lemma updateTodo_accepts_the_valid_witness :
  Spec.isPositiveInteger (JS.Num 1)
  /\ Spec.healthy sampleEnv
  /\ Props.validUpdate sampleUpdate
  /\ exists result env',
       Todos.updateTodo (JS.Num 1) sampleUpdate sampleEnv
       = (Run.Ok result, env').
Proof.
  assert (Hpos : Spec.isPositiveInteger (JS.Num 1))
    by (exists 1; split; [lia | reflexivity]).
  assert (Hh : Spec.healthy sampleEnv) by constructor.
  assert (Hv : Props.validUpdate sampleUpdate).
  { split; [| split; exact I].
    simpl. intros [H | H]; [discriminate H | simpl in H; lia]. }
  split; [exact Hpos |]. split; [exact Hh |]. split; [exact Hv |].
  apply (proj1 (updateTodo_accepts_the_valid (JS.Num 1) sampleUpdate
                                             sampleEnv Hpos Hh)).
  exact Hv.
Defined.

Lemma create_and_update_keep_rows_well_formed_witness :
  Forall Props.wellFormed (Run.table sampleEnv)
  /\ Forall Props.wellFormed
            (Run.table (snd (Todos.updateTodo (JS.Num 1) sampleUpdate
                                              sampleEnv))).
Proof.
  assert (Hwf : Forall Props.wellFormed (Run.table sampleEnv)).
  { constructor; [| constructor].
    split; [reflexivity |]. split; [simpl; lia |].
    split; [discriminate | simpl; lia]. }
  split; [exact Hwf |].
  apply (proj2 create_and_update_keep_rows_well_formed
               (JS.Num 1) sampleUpdate sampleEnv
               (fst (Todos.updateTodo (JS.Num 1) sampleUpdate sampleEnv))
               _ eq_refl Hwf).
Defined.

(* ===================================================================== *)
(** ** The action of the route *)
(* ===================================================================== *)

Section Action.
Import Run Errors Todos ErrorText Routes.

Lemma sound_same (env env' : Env) :
  table env' = table env -> clock env' = clock env ->
  Props.sound env -> Props.sound env'.
Proof.
  unfold Props.sound, Spec.timely. intros -> ->. auto.
Qed.

Lemma keepsSound_ret {A : Type} (a : A) : Props.keepsSound (ret a).
Proof. intros env outcome env' H. injection H as _ <-. auto. Qed.

Lemma keepsSound_bind {A B : Type} (m : M A) (k : A -> M B) :
  Props.keepsSound m -> (forall a, Props.keepsSound (k a)) ->
  Props.keepsSound (bind m k).
Proof.
  intros Hm Hk env outcome env'. unfold bind.
  destruct (m env) as [[a | e] env1] eqn:Hrun; intros H Hs.
  - apply (Hk a _ _ _ H). apply (Hm _ _ _ Hrun Hs).
  - injection H as _ <-. apply (Hm _ _ _ Hrun Hs).
Qed.

Lemma keepsSound_tryCatch {A : Type} (m : M A) (handler : Thrown -> M A) :
  Props.keepsSound m -> (forall e, Props.keepsSound (handler e)) ->
  Props.keepsSound (tryCatch m handler).
Proof.
  intros Hm Hk env outcome env'. unfold tryCatch.
  destruct (m env) as [[a | e] env1] eqn:Hrun; intros H Hs.
  - injection H as _ <-. apply (Hm _ _ _ Hrun Hs).
  - apply (Hk e _ _ _ H). apply (Hm _ _ _ Hrun Hs).
Qed.

Lemma keepsSound_createTodo (data : CreateTodoData.t) :
  Props.keepsSound (createTodo data).
Proof.
  intros env outcome env' Hrun [Henum [Hwf Htime]].
  destruct (createTodo_keeps _ _ _ _ Hrun) as [K1 [K2 _]].
  split; [auto |]. split; [| auto].
  exact (createTodo_wellFormed _ _ _ _ Hrun Hwf).
Qed.

(** An [updateTodo] that raises has written nothing. *)
Lemma updateTodo_raises (id : JS.number) (data : UpdateTodoData.t)
      (env env' : Env) (e : Thrown) :
  updateTodo id data env = (Throw e, env') ->
  table env' = table env /\ clock env' = clock env.
Proof.
  unfold updateTodo.
  destruct (invalidId id); [intros H; injection H as _ <-; auto |].
  destruct (updateTitleError _); [intros H; injection H as _ <-; auto |].
  destruct (descriptionTooLong _); [intros H; injection H as _ <-; auto |].
  destruct (priorityInvalid _); [intros H; injection H as _ <-; auto |].
  unfold tryCatch, bind, newDate, updateReturning.
  destruct (call _ _ env) as [r env1] eqn:Hcall.
  apply call_inv in Hcall. cbn [fst snd] in Hcall.
  destruct Hcall as [[-> [_ ->]] | [-> ->]]; [| discriminate].
  cbn [isValidationError]. intros H; injection H as _ <-. auto.
Qed.

Lemma keepsSound_updateTodo (id : JS.number) (data : UpdateTodoData.t) :
  UpdateTodoData.priority data <> Some "" ->
  Props.keepsSound (updateTodo id data).
Proof.
  intros Hprio env outcome env' Hrun Hs.
  destruct outcome as [result | e].
  - destruct Hs as [Henum [Hwf Htime]].
    destruct (updateTodo_keeps _ _ _ _ _ Hrun) as [K1 K2].
    split; [auto |]. split; [| auto].
    exact (updateTodo_wellFormed _ _ _ _ _ Hrun Hwf).
  - destruct (updateTodo_raises _ _ _ _ _ Hrun) as [Ht Hc].
    exact (sound_same _ _ Ht Hc Hs).
Qed.

Lemma Forall_filter_keeps {A : Type} (P : A -> Prop) (f : A -> bool)
      (l : list A) :
  Forall P l -> Forall P (filter f l).
Proof.
  intros H. apply Forall_forall. intros x Hin.
  apply filter_In in Hin. destruct Hin as [Hin _].
  revert x Hin. now apply Forall_forall.
Qed.

Lemma keepsSound_deleteTodo (id : JS.number) :
  Props.keepsSound (deleteTodo id).
Proof.
  intros env outcome env'. unfold deleteTodo.
  destruct (invalidId id); [intros H; injection H as _ <-; auto |].
  unfold tryCatch, bind, delete.
  destruct (call _ _ env) as [r env1] eqn:Hcall.
  apply call_inv in Hcall. cbn [fst snd] in Hcall.
  destruct Hcall as [[-> [_ ->]] | [-> ->]]; intros H; injection H as _ <-.
  - now apply sound_same.
  - unfold Props.sound, Spec.timely, Spec.prioritiesInEnum,
      Engine.deleteRows. cbn [table clock].
    intros [H1 [H2 H3]]. repeat split; now apply Forall_filter_keeps.
Qed.

Lemma orString_not_empty (value : option string) :
  orString value "medium" <> "".
Proof. destruct value as [[| a s] |]; discriminate. Qed.

Lemma keepsSound_reply (result : option Todo.t) (a b : Reply) :
  Props.keepsSound (match result with
                    | None => ret a
                    | Some _ => ret b
                    end).
Proof. destruct result; apply keepsSound_ret. Qed.

(** *** What the cast lets through *)

Lemma file_or_not (v : option FormDataEntryValue) :
  v = Some File \/ v <> Some File.
Proof. destruct v as [[s |] |]; [right | left | right]; congruence. Qed.

Lemma orUndefined_file (v : option FormDataEntryValue) :
  orUndefined v = Some File <-> v = Some File.
Proof. destruct v as [[[| a s] |] |]; cbn; split; congruence. Qed.

Lemma orMedium_file (v : option FormDataEntryValue) :
  orMedium v = Some File <-> v = Some File.
Proof. destruct v as [[[| a s] |] |]; cbn; split; congruence. Qed.

Lemma text_orUndefined (v : option FormDataEntryValue) :
  text (orUndefined v) = orElse (text v) None.
Proof. destruct v as [[[| a s] |] |]; reflexivity. Qed.

Lemma text_orMedium (v : option FormDataEntryValue) :
  v <> Some File -> text (orMedium v) = Some (orString (text v) "medium").
Proof. destruct v as [[[| a s] |] |]; intros H; try reflexivity; congruence. Qed.

Lemma text_orMedium_not_empty (v : option FormDataEntryValue) :
  text (orMedium v) <> Some "".
Proof. destruct v as [[[| a s] |] |]; discriminate. Qed.

(** With strings in every field the call is the call of the layer. *)
Lemma createTodoCast_typed (title description priority
                            : option FormDataEntryValue) :
  title <> Some File -> description <> Some File -> priority <> Some File ->
  createTodoCast title description priority
  = createTodo (CreateTodoData.mk (text title) (text description)
                                  (text priority)).
Proof.
  destruct title as [[t |] |], description as [[d |] |],
           priority as [[p |] |];
    intros H1 H2 H3; try congruence; reflexivity.
Qed.

Lemma updateTodoCast_typed (id : JS.number)
      (title description priority : option FormDataEntryValue) :
  title <> Some File -> description <> Some File -> priority <> Some File ->
  updateTodoCast id title description priority
  = updateTodo id (UpdateTodoData.mk (nullAsEmpty (text title))
                                     (text description) None
                                     (text priority)).
Proof.
  destruct title as [[t |] |], description as [[d |] |],
           priority as [[p |] |];
    intros H1 H2 H3; try congruence;
    unfold updateTodoCast, updateTodo; destruct (invalidId id);
    reflexivity.
Qed.

Ltac raised :=
  eexists; split;
  [reflexivity
  | first [ left; left; do 2 eexists; reflexivity
          | left; right; eexists; reflexivity ] ].

(** A file in a field never reaches the storage: the call raises, and
    the environment is the one that went in.  A file for a title raises
    the TypeError; a file elsewhere ends in an error of the layer. *)
Lemma createTodoCast_file (title description priority
                           : option FormDataEntryValue) (env : Env) :
  title = Some File \/ description = Some File \/ priority = Some File ->
  exists e,
    createTodoCast title description priority env = (Throw e, env)
    /\ ((Props.isValidation e \/ Props.isDatabase e)
        \/ (e = TypeError /\ title = Some File)).
Proof.
  intros H. unfold createTodoCast.
  destruct title as [[t |] |]; [| eexists; split; [reflexivity | now right]
                              | raised].
  destruct (titleBlank t); [raised |].
  destruct (titleTooLong t); [raised |].
  destruct description as [[d |] |], priority as [[p |] |];
    cbn [descriptionTooLongCast priorityInvalidCast];
    try solve [destruct H as [H | [H | H]]; discriminate H];
    repeat match goal with
           | |- context [if Todos.descriptionTooLong ?x then _ else _] =>
               destruct (Todos.descriptionTooLong x)
           | |- context [if Todos.priorityInvalid ?x then _ else _] =>
               destruct (Todos.priorityInvalid x)
           end;
    raised.
Qed.

Lemma updateTodoCast_file (id : JS.number)
      (title description priority : option FormDataEntryValue) (env : Env) :
  title = Some File \/ description = Some File \/ priority = Some File ->
  exists e,
    updateTodoCast id title description priority env = (Throw e, env)
    /\ ((Props.isValidation e \/ Props.isDatabase e)
        \/ (e = TypeError /\ title = Some File /\ invalidId id = false)).
Proof.
  intros H. unfold updateTodoCast.
  destruct (invalidId id); [raised |].
  destruct title as [[t |] |]; [| eexists; split; [reflexivity | right; auto]
                              | raised].
  unfold updateTitleError.
  destruct (titleBlank t); [raised |].
  destruct (titleTooLong t); [raised |].
  destruct description as [[d |] |], priority as [[p |] |];
    cbn [descriptionTooLongCast priorityInvalidCast];
    try solve [destruct H as [H | [H | H]]; discriminate H];
    repeat match goal with
           | |- context [if Todos.descriptionTooLong ?x then _ else _] =>
               destruct (Todos.descriptionTooLong x)
           | |- context [if Todos.priorityInvalid ?x then _ else _] =>
               destruct (Todos.priorityInvalid x)
           end;
    raised.
Qed.

Lemma fields_file_or_not (title description priority
                          : option FormDataEntryValue) :
  (title = Some File \/ description = Some File \/ priority = Some File)
  \/ (title <> Some File /\ description <> Some File
      /\ priority <> Some File).
Proof.
  destruct (file_or_not title); [auto |].
  destruct (file_or_not description); [auto |].
  destruct (file_or_not priority); auto.
Qed.



Lemma keepsSound_createTodoCast (title description priority
                                 : option FormDataEntryValue) :
  Props.keepsSound (createTodoCast title description priority).
Proof.
  destruct (fields_file_or_not title description priority)
    as [Hfile | [H1 [H2 H3]]].
  - intros env outcome env' Hrun Hs.
    destruct (createTodoCast_file _ _ _ env Hfile) as [e0 [Hrun0 _]].
    rewrite Hrun0 in Hrun. injection Hrun as _ <-. exact Hs.
  - rewrite (createTodoCast_typed _ _ _ H1 H2 H3).
    apply keepsSound_createTodo.
Qed.

Lemma keepsSound_updateTodoCast (id : JS.number)
      (title description priority : option FormDataEntryValue) :
  text priority <> Some "" ->
  Props.keepsSound (updateTodoCast id title description priority).
Proof.
  intros Hprio.
  destruct (fields_file_or_not title description priority)
    as [Hfile | [H1 [H2 H3]]].
  - intros env outcome env' Hrun Hs.
    destruct (updateTodoCast_file id _ _ _ env Hfile) as [e0 [Hrun0 _]].
    rewrite Hrun0 in Hrun. injection Hrun as _ <-. exact Hs.
  - rewrite (updateTodoCast_typed _ _ _ _ H1 H2 H3).
    apply keepsSound_updateTodo. exact Hprio.
Qed.

Lemma intent_is (formData : FormData) (name other : string) :
  equals (get formData "intent") name = true ->
  name <> other ->
  equals (get formData "intent") other = false.
Proof.
  unfold equals. destruct (get formData "intent") as [[i |] |];
    try discriminate.
  intros H Hne. apply String.eqb_eq in H. subst i.
  now apply String.eqb_neq.
Qed.

Lemma not_NaN (id : JS.number) :
  Spec.isPositiveInteger id -> isNaN id = false.
Proof.
  destruct id; try reflexivity. intros [z [_ []]].
Qed.

(** *** What [parseInt] reads *)

(** Below 2^53 an integer is its own Number value. *)
Lemma nearestDouble_exact (n : Z) :
  n < 2 ^ 53 -> nearestDouble n = Some n.
Proof.
  intros H. unfold nearestDouble.
  destruct (Z.ltb_spec n (2 ^ 53)); [reflexivity | lia].
Qed.

(** Above it the digits are rounded: 2^53 + 1 reads as 2^53, a field of
    310 digits as Infinity; a file and a missing field read as NaN. *)
Lemma parseInt_rounds :
  parseInt (Some (Str "9007199254740993"))
  = JS.Num (inject_Z 9007199254740992)
  /\ parseInt (Some (Str "9007199254740995"))
     = JS.Num (inject_Z 9007199254740996)
  /\ parseInt (Some (Str (JS.repeatChar "9" 310))) = JS.Infinity false
  /\ parseInt (Some (Str (String "-" (JS.repeatChar "9" 310))))
     = JS.Infinity true
  /\ parseInt (Some (Str " 0x1F rest")) = JS.Num (inject_Z 31)
  /\ parseInt (Some File) = JS.NaN
  /\ parseInt None = JS.NaN.
Proof. repeat split; vm_compute; reflexivity. Qed.

(** X21. Whatever form is submitted and however the storage answers,
    the action leaves a sound table sound: after it every priority is
    still one of low, medium and high, every title is still not blank
    and of at most 255 characters, every description still null or else
    not empty and of at most 1000 characters, and no row is stamped later
    than the clock reads. *)
Theorem action_keeps_the_table_sound :
  forall (formData : FormData), Props.keepsSound (action formData).
Proof.
  intros formData. unfold action. cbv zeta.
  apply keepsSound_tryCatch; [| intros e; apply keepsSound_ret].
  destruct (equals _ "create").
  { apply keepsSound_bind; [apply keepsSound_createTodoCast |].
    intros _. apply keepsSound_ret. }
  destruct (equals _ "toggle").
  { destruct (isNaN _); [apply keepsSound_ret |].
    apply keepsSound_bind; [| intros r; apply keepsSound_reply].
    apply keepsSound_updateTodo. discriminate. }
  destruct (equals _ "delete").
  { destruct (isNaN _); [apply keepsSound_ret |].
    apply keepsSound_bind; [apply keepsSound_deleteTodo |].
    intros deleted. destruct (negb deleted); apply keepsSound_ret. }
  destruct (equals _ "update"); [| apply keepsSound_ret].
  destruct (isNaN _); [apply keepsSound_ret |].
  apply keepsSound_bind; [| intros r; apply keepsSound_reply].
  apply keepsSound_updateTodoCast. apply text_orMedium_not_empty.
Qed.

(** X19. What the action turns away without going to the storage: a
    form whose intent is none of create, toggle, delete and update gets
    the reply "Invalid action"; a toggle, delete or update whose id field
    is missing, is a file or does not read as a positive integer (it has
    no digits, reads as zero or less, or has so many digits that it reads
    as Infinity) gets the reply "Invalid todo ID".  In both cases the
    environment is the one that went in. *)
Theorem action_turns_away_without_storage :
  forall (formData : FormData) (env : Env),
    (equals (get formData "intent") "create" = false ->
     equals (get formData "intent") "toggle" = false ->
     equals (get formData "intent") "delete" = false ->
     equals (get formData "intent") "update" = false ->
     action formData env = (Ok (error [Text "Invalid action"]), env))
    /\ (equals (get formData "intent") "toggle" = true
        \/ equals (get formData "intent") "delete" = true
        \/ equals (get formData "intent") "update" = true ->
        ~ Spec.isPositiveInteger (parseInt (get formData "id")) ->
        action formData env = (Ok (error [Text "Invalid todo ID"]), env)).
Proof.
  intros formData env. split.
  - intros H1 H2 H3 H4. unfold action. cbv zeta.
    rewrite H1, H2, H3, H4. reflexivity.
  - intros Hintent Hid. apply invalidId_iff in Hid.
    unfold action. cbv zeta.
    assert (Hcreate : equals (get formData "intent") "create" = false).
    { destruct Hintent as [H | [H | H]];
        apply (intent_is _ _ _ H); discriminate. }
    rewrite Hcreate.
    destruct (isNaN (parseInt (get formData "id"))) eqn:Hnan.
    + destruct (equals _ "toggle"); [reflexivity |].
      destruct (equals _ "delete"); [reflexivity |].
      destruct (equals _ "update"); [reflexivity |].
      destruct Hintent as [H | [H | H]]; discriminate.
    + unfold tryCatch, bind, updateTodo, deleteTodo, updateTodoCast.
      rewrite Hid.
      destruct (equals _ "toggle"); [reflexivity |].
      destruct (equals _ "delete"); [reflexivity |].
      destruct (equals _ "update"); [reflexivity |].
      destruct Hintent as [H | [H | H]]; discriminate.
Qed.




End Action.

Section ActionWrites.
Import Run Errors Todos ErrorText Routes.

Lemma updateRows_In (u : UpdateSet.t) (id : JS.number) (t : list Row.t)
      (r' : Row.t) :
  In r' (Engine.updateRows u (Engine.EqId id) t) ->
  Engine.eqId id (Row.id r') = true ->
  exists r, In r t /\ r' = Engine.applySet u r.
Proof.
  unfold Engine.updateRows. intros Hin Hid.
  apply in_map_iff in Hin. destruct Hin as [r [Hr Hin]].
  exists r. split; [exact Hin |].
  cbn [Engine.holds] in Hr.
  destruct (Engine.eqId id (Row.id r)) eqn:Hmatch; [now symmetry |].
  subst r'. congruence.
Qed.

(** X22. The toggle of the route goes by the form, not by the row: with
    an id field that reads as a positive integer and a storage that
    answers, a toggle request sends one UPDATE and no SELECT, and
    afterwards every row of that id has [completed] false when the
    form's [completed] field is the text "true" and [completed] true
    otherwise, whatever the row held.  The id is the Number that
    [parseInt] returns: the digits of the field, rounded as a double
    above 2^53. *)
Theorem action_toggle_goes_by_the_form :
  forall (formData : FormData) (env : Env),
    equals (get formData "intent") "toggle" = true ->
    Spec.isPositiveInteger (parseInt (get formData "id")) ->
    Spec.healthy env ->
    exists reply env' u,
      action formData env = (Ok reply, env')
      /\ trace env'
         = trace env
           ++ [Engine.Update u (Engine.EqId (parseInt (get formData "id")))
                             true]
      /\ (reply = success "Todo updated successfully"
          <-> Spec.hasRow (table env) (parseInt (get formData "id")) = true)
      /\ forall r',
          In r' (table env') ->
          Engine.eqId (parseInt (get formData "id")) (Row.id r') = true ->
          Row.completed r'
          = negb (equals (get formData "completed") "true").
Proof.
  intros formData env Hintent Hpos Hh.
  pose proof (valid_id _ Hpos) as Hid.
  pose proof (not_NaN _ Hpos) as Hnan.
  unfold action. cbv zeta.
  rewrite (intent_is formData "toggle" "create" Hintent) by discriminate.
  rewrite Hintent, Hnan. unfold tryCatch, bind.
  rewrite updateTodo_healthy; try reflexivity; try assumption.
  set (u := updateData _ (clock env)).
  assert (Hrows : forall r',
             In r' (Engine.updateRows
                      u (Engine.EqId (parseInt (get formData "id")))
                      (table env)) ->
             Engine.eqId (parseInt (get formData "id")) (Row.id r') = true ->
             Row.completed r'
             = negb (equals (get formData "completed") "true")).
  { intros r' Hin Hmatch.
    destruct (updateRows_In _ _ _ _ Hin Hmatch) as [r0 [_ ->]].
    reflexivity. }
  rewrite rowOf_hasRow.
  destruct (Props.rowOf (table env) (parseInt (get formData "id")))
    as [r |]; cbn [option_map].
  - do 3 eexists. split; [reflexivity |]. cbn [table trace].
    split; [reflexivity |]. split; [split; reflexivity | exact Hrows].
  - do 3 eexists. split; [reflexivity |]. cbn [table trace].
    split; [reflexivity |]. split; [split; discriminate | exact Hrows].
Qed.

(** X23. An update through the route always writes a priority: with an
    id field that reads as a positive integer, a title field that is a
    string and is accepted, a description field that is missing or a
    string of at most 1000 characters, a priority field that is missing,
    empty or one of the three, and a storage that answers, the request
    succeeds or reports "Todo not found", and afterwards every row of
    that id holds the trimmed title and the priority of the form, or
    medium when the form gives none or an empty one, whatever priority
    the row held. *)
Theorem action_update_writes_priority :
  forall (formData : FormData) (env : Env) (title : string),
    equals (get formData "intent") "update" = true ->
    Spec.isPositiveInteger (parseInt (get formData "id")) ->
    Spec.healthy env ->
    get formData "title" = Some (Str title) ->
    ~ Spec.titleRejected (Some title) ->
    match get formData "description" with
    | Some (Str d) => (String.length d <= 1000)%nat
    | Some File => False
    | None => True
    end ->
    get formData "priority" <> Some File ->
    In (orString (text (get formData "priority")) "medium")
       Schema.priorityEnum ->
    exists reply env',
      action formData env = (Ok reply, env')
      /\ (reply = success "Todo updated successfully"
          \/ reply = error [Text "Todo not found"])
      /\ forall r',
          In r' (table env') ->
          Engine.eqId (parseInt (get formData "id")) (Row.id r') = true ->
          Row.priority r'
          = orString (text (get formData "priority")) "medium"
          /\ Row.title r' = JS.trim title.
Proof.
  intros formData env title Hintent Hpos Hh Htitle Hok Hdesc Hfile Hprio.
  pose proof (valid_id _ Hpos) as Hid.
  pose proof (not_NaN _ Hpos) as Hnan.
  assert (Hd : get formData "description" <> Some File).
  { intros H. rewrite H in Hdesc. exact Hdesc. }
  unfold action. cbv zeta.
  rewrite (intent_is formData "update" "create" Hintent) by discriminate.
  rewrite (intent_is formData "update" "toggle" Hintent) by discriminate.
  rewrite (intent_is formData "update" "delete" Hintent) by discriminate.
  rewrite Hintent, Hnan, Htitle.
  rewrite updateTodoCast_typed;
    [| discriminate
     | intros H; exact (Hd (proj1 (orUndefined_file _) H))
     | intros H; exact (Hfile (proj1 (orMedium_file _) H))].
  rewrite text_orUndefined, (text_orMedium _ Hfile).
  cbn [text nullAsEmpty].
  unfold tryCatch, bind.
  rewrite updateTodo_healthy; try assumption.
  - destruct (Props.rowOf (table env) (parseInt (get formData "id")))
      as [r |]; cbn [option_map];
      (do 2 eexists; split; [reflexivity |]; cbn [table];
       split; [auto |]);
      intros r' Hin Hmatch;
      destruct (updateRows_In _ _ _ _ Hin Hmatch) as [r0 [_ ->]];
      unfold Engine.applySet; cbn [Row.priority Row.title];
      rewrite updateData_title;
      match goal with
      | |- context [updateData ?d ?n] =>
          destruct (updateData_rest d n) as [_ [-> _]]
      end;
      split; reflexivity.
  - apply updateTitleError_iff. exact Hok.
  - apply description_check_iff. cbn [UpdateTodoData.description].
    destruct (get formData "description") as [[[| a d] |] |];
      cbn; try exact I.
    exact Hdesc.
  - apply priority_check_iff. cbn [UpdateTodoData.priority]. now right.
Qed.

End ActionWrites.

Lemma action_turns_away_without_storage_witness :
  ~ Spec.isPositiveInteger
      (Routes.parseInt
         (Routes.get [("intent", Routes.Str "delete");
                      ("id", Routes.Str (JS.repeatChar "9" 310))] "id"))
  /\ Routes.action [("intent", Routes.Str "delete");
                    ("id", Routes.Str (JS.repeatChar "9" 310))] sampleEnv
     = (Run.Ok (Routes.error [ErrorText.Text "Invalid todo ID"]), sampleEnv).
Proof.
  assert (Hid : ~ Spec.isPositiveInteger
                    (Routes.parseInt
                       (Routes.get [("intent", Routes.Str "delete");
                                    ("id", Routes.Str (JS.repeatChar "9" 310))]
                                   "id")))
    by (apply invalidId_iff; vm_compute; reflexivity).
  split; [exact Hid |].
  apply (proj2 (action_turns_away_without_storage
                  [("intent", Routes.Str "delete");
                   ("id", Routes.Str (JS.repeatChar "9" 310))] sampleEnv));
    [right; left; reflexivity | exact Hid].
Defined.


Lemma action_keeps_the_table_sound_witness :
  Props.sound sampleEnv
  /\ Props.sound
       (snd (Routes.action
               [("intent", Routes.Str "update"); ("id", Routes.Str "1");
                ("title", Routes.Str " Buy tea ")]
               sampleEnv)).
Proof.
  assert (Hs : Props.sound sampleEnv).
  { split; [| split].
    - constructor; [right; left; reflexivity | constructor].
    - constructor; [| constructor].
      split; [reflexivity |]. split; [simpl; lia |].
      split; [discriminate | simpl; lia].
    - constructor; [vm_compute; discriminate | constructor]. }
  split; [exact Hs |].
  apply (action_keeps_the_table_sound
           [("intent", Routes.Str "update"); ("id", Routes.Str "1");
            ("title", Routes.Str " Buy tea ")]
           sampleEnv
           (fst (Routes.action
                   [("intent", Routes.Str "update"); ("id", Routes.Str "1");
                    ("title", Routes.Str " Buy tea ")]
                   sampleEnv))
           _ eq_refl Hs).
Defined.

Lemma action_toggle_goes_by_the_form_witness :
  Spec.isPositiveInteger
    (Routes.parseInt
       (Routes.get [("intent", Routes.Str "toggle"); ("id", Routes.Str "1");
                    ("completed", Routes.Str "true")]
                   "id"))
  /\ Spec.healthy sampleEnv
  /\ exists reply env',
       Routes.action [("intent", Routes.Str "toggle"); ("id", Routes.Str "1");
                      ("completed", Routes.Str "true")]
                     sampleEnv
       = (Run.Ok reply, env')
       /\ forall r',
           In r' (Run.table env') ->
           Engine.eqId (JS.Num 1) (Row.id r') = true ->
           Row.completed r' = false.
Proof.
  assert (Hpos : Spec.isPositiveInteger
                   (Routes.parseInt
                      (Routes.get [("intent", Routes.Str "toggle");
                                   ("id", Routes.Str "1");
                                   ("completed", Routes.Str "true")] "id")))
    by (exists 1; split; [lia | reflexivity]).
  assert (Hh : Spec.healthy sampleEnv) by constructor.
  split; [exact Hpos |]. split; [exact Hh |].
  destruct (action_toggle_goes_by_the_form
              [("intent", Routes.Str "toggle"); ("id", Routes.Str "1");
               ("completed", Routes.Str "true")]
              sampleEnv eq_refl Hpos Hh)
    as [reply [env' [u [Hrun [_ [_ Hrows]]]]]].
  exists reply, env'. split; [exact Hrun | exact Hrows].
Defined.

Lemma action_update_writes_priority_witness :
  Spec.isPositiveInteger
    (Routes.parseInt
       (Routes.get [("intent", Routes.Str "update"); ("id", Routes.Str "1");
                    ("title", Routes.Str " Buy tea ")]
                   "id"))
  /\ Spec.healthy sampleEnv
  /\ ~ Spec.titleRejected (Some " Buy tea ")
  /\ exists reply env',
       Routes.action [("intent", Routes.Str "update"); ("id", Routes.Str "1");
                      ("title", Routes.Str " Buy tea ")]
                     sampleEnv
       = (Run.Ok reply, env')
       /\ forall r',
           In r' (Run.table env') ->
           Engine.eqId (JS.Num 1) (Row.id r') = true ->
           Row.priority r' = "medium" /\ Row.title r' = "Buy tea".
Proof.
  assert (Hpos : Spec.isPositiveInteger
                   (Routes.parseInt
                      (Routes.get [("intent", Routes.Str "update");
                                   ("id", Routes.Str "1");
                                   ("title", Routes.Str " Buy tea ")] "id")))
    by (exists 1; split; [lia | reflexivity]).
  assert (Hh : Spec.healthy sampleEnv) by constructor.
  assert (Ht : ~ Spec.titleRejected (Some " Buy tea ")).
  { simpl. intros [H | H]; [discriminate H | simpl in H; lia]. }
  split; [exact Hpos |]. split; [exact Hh |]. split; [exact Ht |].
  destruct (action_update_writes_priority
              [("intent", Routes.Str "update"); ("id", Routes.Str "1");
               ("title", Routes.Str " Buy tea ")]
              sampleEnv " Buy tea " eq_refl Hpos Hh eq_refl Ht I)
    as [reply [env' [Hrun [_ Hrows]]]];
    [discriminate | right; left; reflexivity |].
  exists reply, env'. split; [exact Hrun | exact Hrows].
Defined.

(* ===================================================================== *)
(** ** The statistics and the listings *)
(* ===================================================================== *)

Section StatsAndListings.
Import Run Errors Todos.

(** With a storage that answers, a query in [try]/[catch] returns the
    selected rows. *)
Lemma query_healthy (q : Engine.Query) (message : Message) (env : Env) :
  Spec.healthy env ->
  fst (tryCatch (select q) (fun error => throw (database message)) env)
  = Ok (map Todo.ofRow (Engine.runSelect q (table env))).
Proof.
  intros Hh. unfold tryCatch, select. rewrite (call_healthy _ _ _ Hh).
  reflexivity.
Qed.

Lemma ordered_count (w : Engine.Cond) (f : TodoSort.Field)
      (o : TodoSort.Order) (t : list Row.t) :
  List.length
    (map Todo.ofRow
         (Engine.runSelect
            (Engine.orderBy f o (Engine.where_ w Engine.selectFromTodos)) t))
  = Engine.countRows (Some w) t.
Proof.
  unfold Engine.runSelect, Engine.countRows. cbn -[Engine.sortBy].
  rewrite length_map. apply Permutation_length, sortBy_perm.
Qed.

(** The trace after the six counts of [getTodoStats]. *)
Lemma getTodoStats_trace (env env' : Env) (outcome : Outcome TodoStats.t) :
  getTodoStats env = (outcome, env') ->
  trace env'
  = trace env
    ++ [Engine.SelectCount None;
        Engine.SelectCount (Some (Engine.EqCompleted true));
        Engine.SelectCount (Some (Engine.EqCompleted false));
        Engine.SelectCount (Some (Engine.EqPriority "low"));
        Engine.SelectCount (Some (Engine.EqPriority "medium"));
        Engine.SelectCount (Some (Engine.EqPriority "high"))].
Proof.
  unfold getTodoStats, tryCatch, bind, both.
  destruct (selectCount None env) as [r1 e1] eqn:H1.
  destruct (selectCount (Some (Engine.EqCompleted true)) e1)
    as [r2 e2] eqn:H2.
  destruct (selectCount (Some (Engine.EqCompleted false)) e2)
    as [r3 e3] eqn:H3.
  destruct (selectCount (Some (Engine.EqPriority "low")) e3)
    as [r4 e4] eqn:H4.
  destruct (selectCount (Some (Engine.EqPriority "medium")) e4)
    as [r5 e5] eqn:H5.
  destruct (selectCount (Some (Engine.EqPriority "high")) e5)
    as [r6 e6] eqn:H6.
  apply selectCount_inv in H1, H2, H3, H4, H5, H6.
  destruct H1 as [-> _], H2 as [-> _], H3 as [-> _], H4 as [-> _],
           H5 as [-> _], H6 as [-> _].
  intros H.
  assert (He : env' = Props.sent
                        (Props.sent
                           (Props.sent
                              (Props.sent
                                 (Props.sent
                                    (Props.sent env (Engine.SelectCount None))
                                    (Engine.SelectCount
                                       (Some (Engine.EqCompleted true))))
                                 (Engine.SelectCount
                                    (Some (Engine.EqCompleted false))))
                              (Engine.SelectCount
                                 (Some (Engine.EqPriority "low"))))
                           (Engine.SelectCount
                              (Some (Engine.EqPriority "medium"))))
                        (Engine.SelectCount (Some (Engine.EqPriority "high")))).
  { destruct r1, r2, r3, r4, r5, r6; injection H as _ <-; reflexivity. }
  rewrite He. unfold Props.sent. cbn [trace].
  rewrite <- !app_assoc. reflexivity.
Qed.

(** X24. The statistics count the listings: with a storage that answers
    and on one table, [total] of [getTodoStats] is the number of records
    [getAllTodos] lists, [completed] and [pending] are the numbers that
    [getTodosByStatus] lists for true and for false, and the three counts
    by priority are the numbers that [getTodosByPriority] lists for low,
    medium and high.  However it ends, [getTodoStats] sends its six
    counting statements, all of them and in this order. *)
Theorem getTodoStats_counts_the_listings :
  forall (env : Env),
    (forall outcome env',
        getTodoStats env = (outcome, env') ->
        trace env'
        = trace env
          ++ [Engine.SelectCount None;
              Engine.SelectCount (Some (Engine.EqCompleted true));
              Engine.SelectCount (Some (Engine.EqCompleted false));
              Engine.SelectCount (Some (Engine.EqPriority "low"));
              Engine.SelectCount (Some (Engine.EqPriority "medium"));
              Engine.SelectCount (Some (Engine.EqPriority "high"))])
    /\ (Spec.healthy env ->
        exists stats listing completed pending low medium high,
          fst (getTodoStats env) = Ok stats
          /\ fst (getAllTodos None None None env) = Ok listing
          /\ fst (getTodosByStatus true env) = Ok completed
          /\ fst (getTodosByStatus false env) = Ok pending
          /\ fst (getTodosByPriority "low" env) = Ok low
          /\ fst (getTodosByPriority "medium" env) = Ok medium
          /\ fst (getTodosByPriority "high" env) = Ok high
          /\ TodoStats.total stats = List.length listing
          /\ TodoStats.completed stats = List.length completed
          /\ TodoStats.pending stats = List.length pending
          /\ TodoStats.low (TodoStats.byPriority stats) = List.length low
          /\ TodoStats.medium (TodoStats.byPriority stats)
             = List.length medium
          /\ TodoStats.high (TodoStats.byPriority stats) = List.length high).
Proof.
  intros env. split; [intros outcome env'; apply getTodoStats_trace |].
  intros Hh.
  destruct (getTodoStats_healthy env Hh) as [stats [env' Hrun]].
  pose proof (getTodoStats_ok _ _ _ Hrun) as Hstats. cbv zeta in Hstats.
  destruct Hstats as [-> _].
  do 7 eexists.
  split; [rewrite Hrun; reflexivity |].
  split; [apply (query_healthy _ _ _ Hh) |].
  split; [apply (query_healthy _ _ _ Hh) |].
  split; [apply (query_healthy _ _ _ Hh) |].
  split; [apply (query_healthy _ _ _ Hh) |].
  split; [apply (query_healthy _ _ _ Hh) |].
  split; [apply (query_healthy _ _ _ Hh) |].
  cbn [TodoStats.total TodoStats.completed TodoStats.pending
       TodoStats.byPriority TodoStats.low TodoStats.medium TodoStats.high].
  rewrite !ordered_count.
  split; [| repeat split].
  unfold Engine.runSelect, Engine.countRows. cbn -[Engine.sortBy].
  rewrite length_map. symmetry. apply Permutation_length, sortBy_perm.
Qed.

End StatsAndListings.

Lemma getTodoStats_counts_the_listings_witness :
  Spec.healthy sampleEnv
  /\ exists stats listing,
       fst (Todos.getTodoStats sampleEnv) = Run.Ok stats
       /\ fst (Todos.getAllTodos None None None sampleEnv) = Run.Ok listing
       /\ TodoStats.total stats = List.length listing.
Proof.
  assert (Hh : Spec.healthy sampleEnv) by constructor.
  split; [exact Hh |].
  destruct (proj2 (getTodoStats_counts_the_listings sampleEnv) Hh)
    as [stats [listing [c [p [l [m [h [H1 [H2 [_ [_ [_ [_ [_ [H3 _]]]]]]]]]]]]]]].
  exists stats, listing. split; [exact H1 |]. split; [exact H2 | exact H3].
Defined.
